(** * todo-task: the Express backend (server/server.js) and the client-side
      derivations that mirror it (TaskView's calculatePercentage,
      CircularProgress), embedded shallowly.

    Conventions of the embedding.
    - A JavaScript string is the byte sequence of its UTF-8 (Rocq's
      [string]), with an unpaired surrogate, which UTF-8 does not have,
      written as the three bytes its code point would take.  A string
      without unpaired surrogates is [Str.wellformed].  [Buffer.from(s)]
      puts U+FFFD for an unpaired surrogate, and [buf.toString()] puts
      U+FFFD for what is not UTF-8 in the bytes.
    - A JavaScript number is an IEEE 754 binary64 value ([spec_float] at
      precision 53, exponent bound 1024).
    - A value parsed from JSON is a [json]; a missing property ([undefined])
      is [None] in an [option json]; objects are finite maps from property
      names to values.
    - A [TypeError] raised by the code is the [Throw] outcome of [js]; the
      [catch] of each handler turns it into the answer of that handler.
    - The users file is the state threaded through the handlers: a JSON
      array of objects, of which nothing more is assumed.  Reading and
      writing it always succeed.  What is written is [JSON.stringify] of
      the value in memory, and what a response carries is [JSON.stringify]
      of its body: a number that is not finite is written as [null], and
      -0 as 0.
    - The session cookie of a request is what cookie-parser makes of it: a
      string, or the value parsed from a cookie that starts with "j:".
    - [Date.now()], [crypto.randomBytes], [crypto.randomUUID] and the
      formatted wall clock are inputs ([env]), other ones at each
      request. *)
From Stdlib Require Import ZArith NArith Ascii String List Lia.
From Stdlib Require Import Floats.SpecFloat.
From Stdlib Require Floats.PrimFloat Floats.FloatOps.
From stdpp Require Import base option list gmap strings pretty fin_maps.

Set Warnings "-register-all".

(* ===================================================================== *)
(** ** JavaScript numbers *)
(* ===================================================================== *)

Module Num.

Definition prec : Z := 53.
Definition emax : Z := 1024.

Definition number : Type := spec_float.

(** The number denoted by an integer literal, or by an array length. *)
Definition ofZ (z : Z) : number := binary_normalize prec emax z 0 false.

(** [x / y] and [x * y]: correctly rounded, ties to even. *)
Definition div (x y : number) : number := SFdiv prec emax x y.
Definition mul (x y : number) : number := SFmul prec emax x y.

(** [x > y] is [y < x]; any comparison with NaN is false. *)
Definition gtb (x y : number) : bool := SFltb y x.

(** [x === y] on numbers. *)
Definition eqb (x y : number) : bool := SFeqb x y.

(** ToBoolean on a number: false exactly for +0, -0 and NaN. *)
Definition truthy (x : number) : bool :=
  match x with
  | S754_zero _ | S754_nan => false
  | _ => true
  end.

(** [floor (v / 2^k + 1/2)] for an integer [v] and [k > 0]. *)
Definition round_half_up_shift (v k : Z) : Z :=
  (2 * v + 2 ^ k) / 2 ^ (k + 1).

(** [Math.round]: the integer closest to [x], ties towards +infinity;
    zeros, infinities and NaN are returned as they are, and a negative
    argument that rounds to zero gives -0. *)
Definition Math_round (x : number) : number :=
  match x with
  | S754_finite s m e =>
      if (0 <=? e)%Z then x
      else
        let v := if s then Z.neg m else Z.pos m in
        let r := round_half_up_shift v (- e) in
        if (r =? 0)%Z then S754_zero s else ofZ r
  | _ => x
  end.

(** The integer a number denotes, when it denotes one. *)
Definition toZ (x : number) : option Z :=
  match x with
  | S754_zero _ => Some 0%Z
  | S754_finite s m e =>
      let v := if s then Z.neg m else Z.pos m in
      if (0 <=? e)%Z then Some (v * 2 ^ e)%Z
      else if (v mod 2 ^ (- e) =? 0)%Z then Some (v / 2 ^ (- e))%Z
      else None
  | _ => None
  end.

(** *** [Number.prototype.toString]

    A positive rational is a pair of positive integers, numerator and
    denominator. *)
Definition ratio : Type := Z * Z.

Definition ratio_ltb (a b : ratio) : bool := (a.1 * b.2 <? b.1 * a.2)%Z.
Definition ratio_leb (a b : ratio) : bool := (a.1 * b.2 <=? b.1 * a.2)%Z.

(** [m * 2^e] and [s * 10^t] *)
Definition binary (m e : Z) : ratio :=
  if (0 <=? e)%Z then (m * 2 ^ e, 1)%Z else (m, 2 ^ (- e))%Z.
Definition decimal (s t : Z) : ratio :=
  if (0 <=? t)%Z then (s * 10 ^ t, 1)%Z else (s, 10 ^ (- t))%Z.

(** The distance of two rationals, as a rational. *)
Definition distance (a b : ratio) : ratio :=
  (Z.abs (a.1 * b.2 - b.1 * a.2), a.2 * b.2)%Z.

(** The least [n] from [n0] on, within [fuel] steps, with [x < 10^n]. *)
Fixpoint magnitude (fuel : nat) (x : ratio) (n : Z) : Z :=
  match fuel with
  | O => n
  | S fuel' =>
      if ratio_ltb x (decimal 1 n) then n else magnitude fuel' x (n + 1)
  end.

(** The reals that round to [m * 2^e], a canonical positive double: those
    between the midpoints to its two neighbours, the midpoints included
    when [m] is even. *)
Definition rounds_to (m e : Z) (v : ratio) : bool :=
  let below :=
    if (m =? 2 ^ 52)%Z && (-1074 <? e)%Z
    then binary (4 * m - 1) (e - 2) else binary (4 * m - 2) (e - 2) in
  let above := binary (4 * m + 2) (e - 2) in
  if Z.even m then ratio_leb below v && ratio_leb v above
  else ratio_ltb below v && ratio_ltb v above.

(** The digits [s] and the exponent [n] of the shortest decimal that
    rounds to [m * 2^e], the closest one if there are several: tried with
    [k = 1], 2, ... digits. *)
Fixpoint shortest (fuel : nat) (m e n k : Z) : Z * Z :=
  let x := binary m e in
  let t := (n - k)%Z in
  (* floor (x / 10^t) *)
  let floor :=
    if (0 <=? t)%Z then (x.1 / (x.2 * 10 ^ t))%Z
    else (x.1 * 10 ^ (- t) / x.2)%Z in
  let lo := rounds_to m e (decimal floor t) in
  let hi := rounds_to m e (decimal (floor + 1) t) in
  let dlo := distance x (decimal floor t) in
  let dhi := distance x (decimal (floor + 1) t) in
  let up :=
    (* the upper candidate is taken when it alone rounds to x, or is
       closer, or is as close and even *)
    hi && (negb lo || ratio_ltb dhi dlo
           || (ratio_leb dhi dlo && Z.even (floor + 1))) in
  if lo || hi then
    if up then
      if (floor + 1 =? 10 ^ k)%Z then (1, n + 1)%Z else (floor + 1, n)%Z
    else (floor, n)
  else
    match fuel with
    | O => (floor, n)
    | S fuel' => shortest fuel' m e n (k + 1)
    end.

Definition zeros (n : Z) : string :=
  String.concat "" (replicate (Z.to_nat n) "0").

(** The text for the digits [s], not ending in 0, and the exponent [n]:
    the number is [0.s * 10^n]. *)
Definition notation (s n : Z) : string :=
  let digits := pretty s in
  let k := Z.of_nat (String.length digits) in
  if (-5 <=? n)%Z && (n <=? 21)%Z then
    if (k <=? n)%Z then digits +:+ zeros (n - k)
    else if (0 <? n)%Z then
      String.substring 0 (Z.to_nat n) digits +:+ "."
      +:+ String.substring (Z.to_nat n) (Z.to_nat (k - n)) digits
    else "0." +:+ zeros (- n) +:+ digits
  else
    let exponent :=
      (if (0 <=? n - 1)%Z then "+" else "-") +:+ pretty (Z.abs (n - 1)) in
    if (k =? 1)%Z then digits +:+ "e" +:+ exponent
    else String.substring 0 1 digits +:+ "."
         +:+ String.substring 1 (Z.to_nat (k - 1)) digits
         +:+ "e" +:+ exponent.

Definition toString (x : number) : string :=
  match x with
  | S754_nan => "NaN"
  | S754_zero _ => "0"
  | S754_infinity false => "Infinity"
  | S754_infinity true => "-Infinity"
  | S754_finite sign m0 e0 =>
      match binary_normalize prec emax (Z.pos m0) e0 false with
      | S754_finite _ m e =>
          let n := magnitude 640 (binary (Z.pos m) e) (-324) in
          let '(s, n') := shortest 20 (Z.pos m) e n 1 in
          (if sign then "-" else "") +:+ notation s n'
      | S754_infinity _ => if sign then "-Infinity" else "Infinity"
      | _ => "0"
      end
  end.

End Num.

(* ===================================================================== *)
(** ** JavaScript strings *)
(* ===================================================================== *)

Module Str.

Definition bytes (s : string) : list ascii := list_ascii_of_string s.
Definition text (l : list ascii) : string := string_of_list_ascii l.

(** *** [String.prototype.trim]

    White space and line terminators of ECMAScript, by their UTF-8
    encodings: U+0009..U+000D and U+0020 (one byte), U+00A0 (two bytes),
    U+1680, U+2000..U+200A, U+2028, U+2029, U+202F, U+205F, U+3000 and
    U+FEFF (three bytes). *)

Definition ws1 (a : N) : bool :=
  ((9 <=? a) && (a <=? 13) || (a =? 32))%N.

Definition ws2 (a b : N) : bool :=
  ((a =? 194) && (b =? 160))%N.

Definition ws3 (a b c : N) : bool :=
  ((a =? 225) && (b =? 154) && (c =? 128)
   || (a =? 226) && (b =? 128)
      && ((128 <=? c) && (c <=? 138) || (c =? 168) || (c =? 169) || (c =? 175))
   || (a =? 226) && (b =? 129) && (c =? 159)
   || (a =? 227) && (b =? 128) && (c =? 128)
   || (a =? 239) && (b =? 187) && (c =? 191))%N.

(** Length in bytes of the white-space character that starts [l]; 0 when
    [l] does not start with one. *)
Definition ws_len (l : list ascii) : nat :=
  match l with
  | a :: r =>
      if ws1 (N_of_ascii a) then 1
      else match r with
           | b :: r' =>
               if ws2 (N_of_ascii a) (N_of_ascii b) then 2
               else match r' with
                    | c :: _ =>
                        if ws3 (N_of_ascii a) (N_of_ascii b) (N_of_ascii c)
                        then 3 else 0
                    | [] => 0
                    end
           | [] => 0
           end
  | [] => 0
  end.

(** The same, reading a reversed byte sequence: the white-space character
    that ends the string. *)
Definition ws_len_rev (l : list ascii) : nat :=
  match l with
  | c :: r =>
      if ws1 (N_of_ascii c) then 1
      else match r with
           | b :: r' =>
               if ws2 (N_of_ascii b) (N_of_ascii c) then 2
               else match r' with
                    | a :: _ =>
                        if ws3 (N_of_ascii a) (N_of_ascii b) (N_of_ascii c)
                        then 3 else 0
                    | [] => 0
                    end
           | [] => 0
           end
  | [] => 0
  end.

Fixpoint strip_go (len : list ascii -> nat) (fuel : nat) (l : list ascii)
  : list ascii :=
  match fuel with
  | O => l
  | S fuel' =>
      match len l with
      | O => l
      | S k => strip_go len fuel' (drop (S k) l)
      end
  end.

Definition strip (len : list ascii -> nat) (l : list ascii) : list ascii :=
  strip_go len (length l) l.

Definition trimStart_bytes (l : list ascii) : list ascii := strip ws_len l.
Definition trimEnd_bytes (l : list ascii) : list ascii :=
  rev (strip ws_len_rev (rev l)).
Definition trim_bytes (l : list ascii) : list ascii :=
  trimEnd_bytes (trimStart_bytes l).

Definition trim (s : string) : string := text (trim_bytes (bytes s)).

(** *** [s.split(sep)[0]] for a one-character separator *)

Fixpoint first_field_bytes (sep : ascii) (l : list ascii) : list ascii :=
  match l with
  | [] => []
  | c :: r => if Ascii.eqb c sep then [] else c :: first_field_bytes sep r
  end.

Definition first_field (sep : ascii) (s : string) : string :=
  text (first_field_bytes sep (bytes s)).

(** *** Lower-case hexadecimal, as [buf.toString("hex")] *)

Definition hex_digit (n : N) : ascii :=
  if (n <? 10)%N then ascii_of_N (48 + n) else ascii_of_N (87 + n).

Definition hex_byte (a : ascii) : list ascii :=
  let n := N_of_ascii a in [hex_digit (n / 16); hex_digit (n mod 16)].

Definition hex (l : list ascii) : string := text (flat_map hex_byte l).

(** *** UTF-8: [buf.toString()] and [Buffer.from(s)] *)

Definition between (lo hi n : N) : bool := ((lo <=? n) && (n <=? hi))%N.

(** U+FFFD, the replacement character. *)
Definition replacement : list ascii :=
  [ascii_of_N 239; ascii_of_N 191; ascii_of_N 189].

(** The number of bytes that follow the lead byte [n] of a sequence, 0 for
    a byte that leads no sequence of several bytes, and the bounds of the
    byte that follows it at once. *)
Definition following (n : N) : nat :=
  if between 194 223 n then 1
  else if between 224 239 n then 2
  else if between 240 244 n then 3
  else 0.

Definition lower_bound (n : N) : N :=
  (if n =? 224 then 160 else if n =? 240 then 144 else 128)%N.

Definition upper_bound (n : N) : N :=
  (if n =? 237 then 159 else if n =? 244 then 143 else 191)%N.

(** [buf.toString()]: the UTF-8 decoder, which puts U+FFFD for every
    maximal part of an ill-formed sequence.  [needed] bytes are still to
    come for the sequence of which [pending] has been read, the next one
    between [lo] and [hi]. *)
Fixpoint toString_go (needed : nat) (lo hi : N) (pending : list ascii)
    (l : list ascii) : list ascii :=
  match l with
  | [] => match needed with O => [] | S _ => replacement end
  | b :: r =>
      let n := N_of_ascii b in
      let start (out : list ascii) :=
        if (n <=? 127)%N then out ++ b :: toString_go 0 128 191 [] r
        else match following n with
             | O => out ++ replacement ++ toString_go 0 128 191 [] r
             | S k =>
                 out ++ toString_go (S k) (lower_bound n) (upper_bound n) [b] r
             end in
      match needed with
      | O => start []
      | S k =>
          if between lo hi n then
            match k with
            | O => pending ++ b :: toString_go 0 128 191 [] r
            | S _ => toString_go k 128 191 (pending ++ [b]) r
            end
          else start replacement
      end
  end.

Definition toString_bytes (l : list ascii) : list ascii :=
  toString_go 0 128 191 [] l.

Definition toString (l : list ascii) : string := text (toString_bytes l).

(** Well-formed UTF-8 (Unicode, table 3-7). *)
Fixpoint utf8 (l : list ascii) : bool :=
  match l with
  | [] => true
  | a :: r =>
      let n := N_of_ascii a in
      if (n <=? 127)%N then utf8 r
      else
        match following n, r with
        | 1, b :: r1 =>
            between (lower_bound n) (upper_bound n) (N_of_ascii b) && utf8 r1
        | 2, b :: c :: r2 =>
            between (lower_bound n) (upper_bound n) (N_of_ascii b)
            && between 128 191 (N_of_ascii c) && utf8 r2
        | 3, b :: c :: d :: r3 =>
            between (lower_bound n) (upper_bound n) (N_of_ascii b)
            && between 128 191 (N_of_ascii c)
            && between 128 191 (N_of_ascii d) && utf8 r3
        | _, _ => false
        end
  end.

(** [Buffer.from(s)]: the UTF-8 of the string, with U+FFFD for an unpaired
    surrogate, which the string holds as the three bytes of its code
    point (237, then 160 to 191, then 128 to 191). *)
Fixpoint Buffer_from_go (l : list ascii) : list ascii :=
  match l with
  | [] => []
  | a :: r =>
      match r with
      | b :: c :: r' =>
          if (N_of_ascii a =? 237)%N && between 160 191 (N_of_ascii b)
             && between 128 191 (N_of_ascii c)
          then replacement ++ Buffer_from_go r'
          else a :: Buffer_from_go r
      | _ => a :: Buffer_from_go r
      end
  end.

Definition Buffer_from (s : string) : list ascii := Buffer_from_go (bytes s).

(** A string without unpaired surrogates. *)
Definition wellformed (s : string) : bool := utf8 (bytes s).

End Str.

(* ===================================================================== *)
(** ** Base64, as [Buffer] implements it *)
(* ===================================================================== *)

Module Base64.

(** Six bits, most significant first. *)
Inductive sextet := Sextet (b5 b4 b3 b2 b1 b0 : bool).

Definition sextet_val (s : sextet) : N :=
  let 'Sextet b5 b4 b3 b2 b1 b0 := s in
  (N.b2n b5 * 32 + N.b2n b4 * 16 + N.b2n b3 * 8
   + N.b2n b2 * 4 + N.b2n b1 * 2 + N.b2n b0)%N.

Definition sextet_of_val (n : N) : sextet :=
  Sextet (N.testbit n 5) (N.testbit n 4) (N.testbit n 3)
         (N.testbit n 2) (N.testbit n 1) (N.testbit n 0).

(** The standard alphabet: A-Z, a-z, 0-9, '+', '/'. *)
Definition char_of_sextet (s : sextet) : ascii :=
  let n := sextet_val s in
  if (n <? 26)%N then ascii_of_N (65 + n)
  else if (n <? 52)%N then ascii_of_N (97 + (n - 26))
  else if (n <? 62)%N then ascii_of_N (48 + (n - 52))
  else if (n =? 62)%N then "+"%char
  else "/"%char.

(** The decoder also reads the URL-safe alphabet ('-' and '_'). *)
Definition sextet_of_char (c : ascii) : option sextet :=
  let n := N_of_ascii c in
  if ((65 <=? n) && (n <=? 90))%N then Some (sextet_of_val (n - 65))
  else if ((97 <=? n) && (n <=? 122))%N then Some (sextet_of_val (n - 97 + 26))
  else if ((48 <=? n) && (n <=? 57))%N then Some (sextet_of_val (n - 48 + 52))
  else if ((n =? 43) || (n =? 45))%N then Some (sextet_of_val 62)
  else if ((n =? 47) || (n =? 95))%N then Some (sextet_of_val 63)
  else None.

Definition pad : ascii := "="%char.
Definition zero : ascii := Ascii false false false false false false false false.

(** A group of 24 bits read as four groups of six.  [Ascii] lists the
    bits of a byte least significant first. *)
Definition split3 (a b c : ascii) : sextet * sextet * sextet * sextet :=
  let 'Ascii a0 a1 a2 a3 a4 a5 a6 a7 := a in
  let 'Ascii b0 b1 b2 b3 b4 b5 b6 b7 := b in
  let 'Ascii c0 c1 c2 c3 c4 c5 c6 c7 := c in
  (Sextet a7 a6 a5 a4 a3 a2, Sextet a1 a0 b7 b6 b5 b4,
   Sextet b3 b2 b1 b0 c7 c6, Sextet c5 c4 c3 c2 c1 c0).

Definition byte1 (s1 s2 : sextet) : ascii :=
  let 'Sextet p5 p4 p3 p2 p1 p0 := s1 in
  let 'Sextet q5 q4 _ _ _ _ := s2 in
  Ascii q4 q5 p0 p1 p2 p3 p4 p5.

Definition byte2 (s2 s3 : sextet) : ascii :=
  let 'Sextet _ _ q3 q2 q1 q0 := s2 in
  let 'Sextet r5 r4 r3 r2 _ _ := s3 in
  Ascii r2 r3 r4 r5 q0 q1 q2 q3.

Definition byte3 (s3 s4 : sextet) : ascii :=
  let 'Sextet _ _ _ _ r1 r0 := s3 in
  let 'Sextet t5 t4 t3 t2 t1 t0 := s4 in
  Ascii t0 t1 t2 t3 t4 t5 r0 r1.

(** [buf.toString("base64")] *)
Fixpoint encode_bytes (l : list ascii) : list ascii :=
  match l with
  | [] => []
  | [a] =>
      let '(s1, s2, _, _) := split3 a zero zero in
      [char_of_sextet s1; char_of_sextet s2; pad; pad]
  | [a; b] =>
      let '(s1, s2, s3, _) := split3 a b zero in
      [char_of_sextet s1; char_of_sextet s2; char_of_sextet s3; pad]
  | a :: b :: c :: r =>
      let '(s1, s2, s3, s4) := split3 a b c in
      char_of_sextet s1 :: char_of_sextet s2 :: char_of_sextet s3
        :: char_of_sextet s4 :: encode_bytes r
  end.

(** [Buffer.from(s, "base64")] never fails: decoding stops at the first
    '=', characters outside the two alphabets are skipped, and an
    incomplete last group gives the bytes it determines. *)
Fixpoint until_pad (l : list ascii) : list ascii :=
  match l with
  | [] => []
  | c :: r => if Ascii.eqb c pad then [] else c :: until_pad r
  end.

Fixpoint unsextets (l : list sextet) : list ascii :=
  match l with
  | s1 :: s2 :: s3 :: s4 :: r =>
      byte1 s1 s2 :: byte2 s2 s3 :: byte3 s3 s4 :: unsextets r
  | [s1; s2; s3] => [byte1 s1 s2; byte2 s2 s3]
  | [s1; s2] => [byte1 s1 s2]
  | _ => []
  end.

Definition decode_bytes (l : list ascii) : list ascii :=
  unsextets (omap sextet_of_char (until_pad l)).

Definition encode (s : string) : string :=
  Str.text (encode_bytes (Str.bytes s)).
Definition decode (s : string) : string :=
  Str.text (decode_bytes (Str.bytes s)).

End Base64.

(* ===================================================================== *)
(** ** JSON values and the JavaScript operations the server applies to them *)
(* ===================================================================== *)

Inductive json :=
  | JNull
  | JBool (b : bool)
  | JNum (x : Num.number)
  | JStr (s : string)
  | JArr (l : list json)
  | JObj (o : gmap string json).

Abbreviation obj := (gmap string json).

(** Outcome of an expression that may raise a [TypeError]. *)
Inductive js (A : Type) :=
  | Ret (a : A)
  | Throw.
Arguments Ret {A} a.
Arguments Throw {A}.

#[global] Instance js_ret : MRet js := fun A a => Ret a.
#[global] Instance js_bind : MBind js := fun A B f m =>
  match m with
  | Ret a => f a
  | Throw => Throw
  end.

(** ToBoolean *)
Definition truthy (v : option json) : bool :=
  match v with
  | None | Some JNull => false
  | Some (JBool b) => b
  | Some (JNum x) => Num.truthy x
  | Some (JStr s) => negb (String.eqb s "")
  | Some (JArr _) | Some (JObj _) => true
  end.

(** [a || b] *)
Definition or_else (a b : option json) : option json :=
  if truthy a then a else b.

(** [a === b], for two values that were parsed separately: arrays and
    objects are then distinct references and never equal. *)
Definition strict_eq (a b : option json) : bool :=
  match a, b with
  | None, None => true
  | Some JNull, Some JNull => true
  | Some (JBool x), Some (JBool y) => Bool.eqb x y
  | Some (JNum x), Some (JNum y) => Num.eqb x y
  | Some (JStr x), Some (JStr y) => String.eqb x y
  | _, _ => false
  end.

(** [v.k] for one of the property names the server reads ([id], [title],
    [email], ...): none of them is a built-in property of a string, number,
    boolean or array. *)
Definition prop (v : option json) (k : string) : js (option json) :=
  match v with
  | None | Some JNull => Throw
  | Some (JObj o) => Ret (o !! k)
  | Some _ => Ret None
  end.

(** [v.k] where [v] is known not to be null. *)
Definition field (v : json) (k : string) : option json :=
  match v with
  | JObj o => o !! k
  | _ => None
  end.

(** [v?.trim()] *)
Definition opt_trim (v : option json) : js (option json) :=
  match v with
  | None | Some JNull => Ret None
  | Some (JStr s) => Ret (Some (JStr (Str.trim s)))
  | Some _ => Throw
  end.

(** A key whose value is [undefined] is dropped when the object is
    serialized, in the response as in the users file. *)
Definition set_prop (k : string) (v : option json) (o : obj) : obj :=
  match v with
  | Some x => <[k := x]> o
  | None => delete k o
  end.

(** [Array.isArray(v) ? v : []] *)
Definition array_or_empty (v : option json) : list json :=
  match v with
  | Some (JArr l) => l
  | _ => []
  end.

(** Splitting a string into its code points, as iterating it does. *)
Definition is_continuation (a : ascii) : bool :=
  let n := N_of_ascii a in ((128 <=? n) && (n <? 192))%N.

Fixpoint code_points (l : list ascii) : list (list ascii) :=
  match l with
  | [] => []
  | a :: r =>
      match code_points r with
      | (b :: g) :: gs =>
          if is_continuation b then (a :: b :: g) :: gs
          else [a] :: (b :: g) :: gs
      | gs => [a] :: gs
      end
  end.

(** [[...v]]: arrays and strings are iterable, nothing else in JSON is. *)
Definition spread (v : option json) : js (list json) :=
  match v with
  | Some (JArr l) => Ret l
  | Some (JStr s) => Ret (map (fun g => JStr (Str.text g)) (code_points (Str.bytes s)))
  | _ => Throw
  end.

(** [{...v}] for an object or an array: an array contributes its indices
    as keys. *)
Definition spread_props (v : json) : obj :=
  match v with
  | JObj o => o
  | JArr l => list_to_map (imap (fun i x => (pretty i, x)) l)
  | _ => ∅
  end.

(** [l.findIndex(p)] and [l.find(p)]: the first element satisfying [p];
    elements after it are not examined. *)
Fixpoint findIndexM {A} (p : A -> js bool) (l : list A) : js (option nat) :=
  match l with
  | [] => Ret None
  | x :: r =>
      b ← p x;
      if b : bool then Ret (Some 0)
      else i ← findIndexM p r; Ret (fmap (M:=option) S i)
  end.

Fixpoint findIndex {A} (p : A -> bool) (l : list A) : option nat :=
  match l with
  | [] => None
  | x :: r => if p x then Some 0 else S <$> findIndex p r
  end.

Fixpoint find {A} (p : A -> bool) (l : list A) : option A :=
  match l with
  | [] => None
  | x :: r => if p x then Some x else find p r
  end.

(* ===================================================================== *)
(** ** HTTP responses *)
(* ===================================================================== *)

(** The number of values in a value. *)
Fixpoint json_size (v : json) : nat :=
  match v with
  | JArr l => S (foldr (fun x n => json_size x + n) 0 l)
  | JObj o => S (map_fold (fun _ x n => json_size x + n) 0 o)
  | _ => 1
  end.

(** [l.find(p)] for a callback that may throw. *)
Fixpoint findM {A} (p : A -> js bool) (l : list A) : js (option A) :=
  match l with
  | [] => Ret None
  | x :: r =>
      b ← p x;
      if b : bool then Ret (Some x) else findM p r
  end.

(** *** [JSON.stringify]

    What [JSON.parse] reads back from what [JSON.stringify] has written:
    NaN and the infinities have become [null] and -0 has become 0; every
    other number, and every string, is read back as it was.  (A key whose
    value is [undefined] is left out; [set_prop] has done that.) *)
Definition JSON_number (x : Num.number) : json :=
  match x with
  | S754_nan | S754_infinity _ => JNull
  | S754_zero _ => JNum (S754_zero false)
  | S754_finite _ _ _ => JNum x
  end.

Fixpoint JSON_written (v : json) : json :=
  match v with
  | JNum x => JSON_number x
  | JArr l => JArr (JSON_written <$> l)
  | JObj o => JObj (JSON_written <$> o)
  | _ => v
  end.

Definition JSON_written_obj (o : obj) : obj := JSON_written <$> o.

(* ===================================================================== *)
(** ** HTTP requests and responses *)
(* ===================================================================== *)

(** The value of [req.cookies.session].  cookie-parser leaves a cookie the
    string it is, unless it starts with "j:" and what follows parses as
    JSON to a truthy value: the cookie is then that value.  What
    [Buffer.from] makes of such a value when it is an array or an object
    depends on its shape (bytes for an array, for an object with a
    [length] and for [{type: "Buffer", data}], a [TypeError] otherwise),
    and is carried along as [buffer]; it is not looked at for a value of
    another kind. *)
Inductive cookie :=
  | Text (s : string)
  | Parsed (v : json) (buffer : js (list ascii)).

(** Whether [sessionToken] is truthy. *)
Definition truthy_cookie (c : cookie) : bool :=
  match c with
  | Text s => truthy (Some (JStr s))
  | Parsed v _ => truthy (Some v)
  end.

(** [Buffer.from(sessionToken, "base64")]: a number or a boolean is a
    [TypeError]. *)
Definition Buffer_from_base64 (c : cookie) : js (list ascii) :=
  match c with
  | Text s | Parsed (JStr s) _ => Ret (Base64.decode_bytes (Str.bytes s))
  | Parsed (JArr _) buffer | Parsed (JObj _) buffer => buffer
  | Parsed _ _ => Throw
  end.

Record cookie_options := {
  httpOnly : bool;
  secure : bool;
  maxAge : option Z;          (* milliseconds; [None] is a session cookie *)
  sameSite : string;
  path : string;
  domain : string
}.

Inductive cookie_op :=
  | SetCookie (name value : string) (options : cookie_options)
  | ClearCookie (name path domain : string).

#[global] Instance cookie_options_eq_dec : EqDecision cookie_options.
Proof. solve_decision. Defined.
#[global] Instance cookie_op_eq_dec : EqDecision cookie_op.
Proof. solve_decision. Defined.

Record response := {
  status : Z;
  body : json;
  cookies : list cookie_op
}.

(** [res.status(code).json(b)] after the cookie operations [ops]: the
    body that the client reads is [b] as [JSON.stringify] writes it. *)
Definition reply (code : Z) (b : json) (ops : list cookie_op) : response :=
  {| status := code; body := JSON_written b; cookies := ops |}.

Definition error (msg : string) : json := JObj {[ "error" := JStr msg ]}.

(** [res.clearCookie("session", { path: "/", domain: "localhost" })] *)
Definition clearSession : cookie_op := ClearCookie "session" "/" "localhost".

Definition clears_session (r : response) : bool :=
  bool_decide (cookies r = [clearSession]).

(** What a handler draws from the platform while it serves one request. *)
Record env := {
  Date_now : N;                 (* Date.now() *)
  randomBytes16 : list ascii;   (* crypto.randomBytes(16) *)
  randomUUID : nat -> string;   (* the successive crypto.randomUUID() *)
  NODE_ENV : option string;     (* process.env.NODE_ENV *)
  isoDate : string;             (* new Date().toISOString().split("T")[0] *)
  localeTime : string           (* new Date().toLocaleTimeString([], ...) *)
}.

(* ===================================================================== *)
(** ** server/server.js *)
(* ===================================================================== *)

Section Server.

(** [Number.prototype.toString], used only by [String(u.id)] when a user
    record carries a numeric id.  Its digits play no role below. *)
Variable Number_toString : Num.number -> string.

(** [String(v)], and [v] in a template literal.  An object that has a
    [toString] property of its own has lost the method it inherits, and
    nothing parsed from JSON can be called in its place: a [TypeError].
    The elements of an array are joined, [null] counting as the empty
    string. *)
Fixpoint String_ (v : json) : js string :=
  match v with
  | JNull => Ret "null"
  | JBool true => Ret "true"
  | JBool false => Ret "false"
  | JNum x => Ret (Number_toString x)
  | JStr s => Ret s
  | JArr l =>
      parts ← (fix join (l : list json) : js (list string) :=
                 match l with
                 | [] => Ret []
                 | e :: r =>
                     s ← match e with JNull => Ret "" | _ => String_ e end;
                     rest ← join r;
                     Ret (s :: rest)
                 end) l;
      Ret (String.concat "," parts)
  | JObj o =>
      match o !! "toString" with
      | Some _ => Throw
      | None => Ret "[object Object]"
      end
  end.

Definition ToString (v : option json) : js string :=
  match v with
  | None => Ret "undefined"
  | Some j => String_ j
  end.

(** *** generateSessionToken *)
Definition generateSessionToken (e : env) (userId : option json)
  : js string :=
  let timestamp := Date_now e in
  let random := Str.hex (randomBytes16 e) in
  id ← ToString userId;
  Ret (Str.text
         (Base64.encode_bytes
            (Str.Buffer_from
               (id +:+ ":" +:+ pretty timestamp +:+ ":" +:+ random)))).

(** [const decoded = Buffer.from(sessionToken, "base64").toString();
     const [userId] = decoded.split(":");] *)
Definition decodeUserId (sessionToken : cookie) : js string :=
  buf ← Buffer_from_base64 sessionToken;
  let decoded := Str.toString buf in
  Ret (Str.first_field ":" decoded).

(** [users.find((u) => String(u.id) === userId)] *)
Definition findUser (users : list obj) (userId : string) : js (option obj) :=
  findM (fun u => id ← ToString (u !! "id"); Ret (String.eqb id userId)) users.

(** [users.findIndex((u) => String(u.id) === String(req.user.id))] *)
Definition findUserIndex (users : list obj) (reqUser : obj)
  : js (option nat) :=
  findIndexM
    (fun u => id ← ToString (u !! "id");
              mine ← ToString (reqUser !! "id");
              Ret (String.eqb id mine))
    users.

(** [!sessionToken] for the cookie [req.cookies?.session] *)
Definition no_token (session : option cookie) : bool :=
  match session with
  | None => true
  | Some c => negb (truthy_cookie c)
  end.

(** *** authenticate

    The middleware either answers itself or sets [req.user] and calls
    [next()]. *)
Inductive auth_result :=
  | Rejected (r : response)
  | Next (user : obj).

(** The [try] block. *)
Definition authenticate_try (users : list obj) (sessionToken : cookie)
  : js auth_result :=
  userId ← decodeUserId sessionToken;
  if negb (truthy (Some (JStr userId))) then
    Ret (Rejected (reply 401 (error "Invalid session token") [clearSession]))
  else
    user ← findUser users userId;
    match user with
    | None => Ret (Rejected (reply 401 (error "User not found") [clearSession]))
    | Some user => Ret (Next user)
    end.

Definition authenticate (users : list obj) (session : option cookie)
  : auth_result :=
  match session with
  | Some sessionToken =>
      if truthy_cookie sessionToken then
        match authenticate_try users sessionToken with
        | Ret result => result
        | Throw =>
            Rejected
              (reply 401 (error "Session validation failed") [clearSession])
        end
      else Rejected (reply 401 (error "Not authenticated") [])
  | None => Rejected (reply 401 (error "Not authenticated") [])
  end.

(** [userData.tasks || []] *)
Definition tasks_or_empty (u : obj) : json :=
  default (JArr []) (or_else (u !! "tasks") (Some (JArr []))).

(** [const { password, ...userData } = user;
     { ...userData, tasks: userData.tasks || [] }] *)
Definition publicUser (user : obj) : obj :=
  let userData := delete "password" user in
  <["tasks" := tasks_or_empty userData]> userData.

(** *** POST /api/login

    The destructuring of [req.body] and the test of the credentials stand
    before the [try]: a [Throw] there leaves the handler.  The source
    annotates the [maxAge] line with "30 days if rememberMe". *)

(** The [try] block. *)
Definition login_try (e : env) (users : list obj)
    (trimmed password rememberMe : option json) : js response :=
  match find (fun u => strict_eq (u !! "email") trimmed
                       && strict_eq (u !! "password") password) users with
  | None => Ret (reply 401 (error "Invalid credentials") [])
  | Some user =>
      sessionToken ← generateSessionToken e (user !! "id");
      let options :=
        {| httpOnly := true;
           secure := bool_decide (NODE_ENV e = Some "production");
           maxAge := if truthy rememberMe
                     then Some (1 * 24 * 60 * 60 * 1000)%Z else None;
           sameSite := "lax";
           path := "/";
           domain := "localhost" |} in
      Ret (reply 200
             (JObj {[ "message" := JStr "Login successful";
                      "user" := JObj (publicUser user) ]})
             [SetCookie "session" sessionToken options])
  end.

Definition login (e : env) (users : list obj) (reqBody : option json)
  : js response :=
  email ← prop reqBody "email";
  password ← prop reqBody "password";
  rememberMe ← prop reqBody "rememberMe";
  trimmed ← opt_trim email;
  if negb (truthy trimmed) || negb (truthy password) then
    Ret (reply 400 (error "Email and password are required") [])
  else
    match login_try e users trimmed password rememberMe with
    | Ret r => Ret r
    | Throw => Ret (reply 500 (error "Server error during login") [])
    end.

(** *** GET /api/check-session *)

(** The [try] block. *)
Definition check_session_try (users : list obj) (sessionToken : cookie)
  : js response :=
  userId ← decodeUserId sessionToken;
  user ← findUser users userId;
  match user with
  | None => Ret (reply 200 (JObj {[ "user" := JNull ]}) [clearSession])
  | Some user =>
      Ret (reply 200 (JObj {[ "user" := JObj (publicUser user) ]}) [])
  end.

Definition check_session (users : list obj) (session : option cookie)
  : response :=
  match session with
  | Some sessionToken =>
      if truthy_cookie sessionToken then
        match check_session_try users sessionToken with
        | Ret r => r
        | Throw => reply 200 (JObj {[ "user" := JNull ]}) []
        end
      else reply 200 (JObj {[ "user" := JNull ]}) []
  | None => reply 200 (JObj {[ "user" := JNull ]}) []
  end.

(** *** GET /api/tasks *)
Definition get_tasks (reqUser : obj) : response :=
  reply 200 (JObj {[ "tasks" := tasks_or_empty reqUser ]}) [].

(** [users[userIndex]] followed by a property access: a [TypeError] when
    the index is -1. *)
Definition user_at (users : list obj) (userIndex : option nat) : js obj :=
  match userIndex ≫= (fun i => users !! i) with
  | Some u => Ret u
  | None => Throw
  end.

(** [await writeUsers(users)]: the users file as the next request reads
    it. *)
Definition writeUsers (users : list obj) : list obj :=
  JSON_written_obj <$> users.

(** [users[userIndex].tasks = tasks; await writeUsers(users)] *)
Definition write_tasks (users : list obj) (userIndex : option nat)
    (user : obj) (tasks : list json) : list obj :=
  match userIndex with
  | Some i => writeUsers (<[i := <["tasks" := JArr tasks]> user]> users)
  | None => users
  end.

(** *** POST /api/tasks *)
Definition newTask (e : env) (title date time icon : option json) : obj :=
  let required : obj :=
    {[ "id" := JStr (randomUUID e 0);
       "subTasks" := JArr [];
       "percentage" := JNum (Num.ofZ 0) ]} in
  set_prop "title" title
    (set_prop "date" (or_else date (Some (JStr (isoDate e))))
       (set_prop "time" (or_else time (Some (JStr (localeTime e))))
          (set_prop "icon" (or_else icon None) required))).

Definition create_task_try (e : env) (users : list obj) (reqUser : obj)
    (reqBody : option json) : js (list obj * response) :=
  title ← prop reqBody "title";
  date ← prop reqBody "date";
  time ← prop reqBody "time";
  icon ← prop reqBody "icon";
  trimmed ← opt_trim title;
  if negb (truthy trimmed) then
    Ret (users, reply 400 (error "Title is required") [])
  else
    userIndex ← findUserIndex users reqUser;
    let task := JObj (newTask e trimmed date time icon) in
    user ← user_at users userIndex;
    old ← spread (or_else (user !! "tasks") (Some (JArr [])));
    Ret (write_tasks users userIndex user (old ++ [task]),
         reply 201 (JObj {[ "message" := JStr "Task created";
                            "task" := task ]}) []).

Definition create_task (e : env) (users : list obj) (reqUser : obj)
    (reqBody : option json) : list obj * response :=
  match create_task_try e users reqUser reqBody with
  | Ret out => out
  | Throw => (users, reply 500 (error "Failed to create task") [])
  end.

(** [users[userIndex].tasks.findIndex((t) => t.id === taskId)]: only an
    array has [findIndex]. *)
Definition tasks_array (user : obj) : js (list json) :=
  match user !! "tasks" with
  | Some (JArr l) => Ret l
  | _ => Throw
  end.

Definition findTaskIndex (tasks : list json) (taskId : string)
  : js (option nat) :=
  findIndexM
    (fun t => id ← prop (Some t) "id"; Ret (strict_eq id (Some (JStr taskId))))
    tasks.

(** *** PUT /api/tasks/:id *)

(** One subtask of the [map]; [k] counts the ids drawn so far. *)
Definition normalizeSubTask (e : env) (k : nat) (st : json)
  : js (json * nat) :=
  id ← prop (Some st) "id";
  title ← prop (Some st) "title" ≫= opt_trim;
  description ← prop (Some st) "description" ≫= opt_trim;
  completed ← prop (Some st) "completed";
  let k' := if truthy id then k else S k in
  Ret (JObj
         (set_prop "id" (or_else id (Some (JStr (randomUUID e k))))
            (set_prop "title" (or_else title (Some (JStr "")))
               (set_prop "description" (or_else description (Some (JStr "")))
                  {[ "completed" := JBool (truthy completed) ]}))),
       k').

Fixpoint normalizeSubTasks (e : env) (k : nat) (l : list json)
  : js (list json) :=
  match l with
  | [] => Ret []
  | st :: r =>
      '(st', k') ← normalizeSubTask e k st;
      r' ← normalizeSubTasks e k' r;
      Ret (st' :: r')
  end.

(** [subTasks.filter((st) => st.completed).length], on the objects that
    [normalizeSubTasks] has built. *)
Definition completedCount (subTasks : list json) : nat :=
  length (filter (fun st => Is_true (truthy (field st "completed"))) subTasks).

Definition percentageOf (subTasks : list json) : Num.number :=
  if (0 <? Z.of_nat (length subTasks))%Z then
    Num.Math_round
      (Num.mul
         (Num.div (Num.ofZ (Z.of_nat (completedCount subTasks)))
                  (Num.ofZ (Z.of_nat (length subTasks))))
         (Num.ofZ 100))
  else Num.ofZ 0.

(** [!updates || typeof updates !== "object"] *)
Definition invalid_payload (updates : option json) : bool :=
  negb (truthy updates)
  || negb (match updates with
           | Some (JObj _) | Some (JArr _) | Some JNull => true
           | _ => false
           end).

Definition updatedTask (e : env) (originalTask updates : json) : js obj :=
  newSubTasks ← prop (Some updates) "subTasks";
  let merged :=
    set_prop "subTasks" (or_else newSubTasks (field originalTask "subTasks"))
      (set_prop "id" (field originalTask "id")
         (spread_props updates ∪ spread_props originalTask)) in
  subTasks ← normalizeSubTasks e 0 (array_or_empty (merged !! "subTasks"));
  Ret (<["percentage" := JNum (percentageOf subTasks)]>
         (<["subTasks" := JArr subTasks]> merged)).

Definition update_task_try (e : env) (users : list obj) (reqUser : obj)
    (taskId : string) (updates : option json) : js (list obj * response) :=
  if invalid_payload updates then
    Ret (users, reply 400 (error "Invalid update payload") [])
  else
    userIndex ← findUserIndex users reqUser;
    user ← user_at users userIndex;
    tasks ← tasks_array user;
    taskIndex ← findTaskIndex tasks taskId;
    match taskIndex with
    | None => Ret (users, reply 404 (error "Task not found") [])
    | Some i =>
        let originalTask := default JNull (tasks !! i) in
        task ← updatedTask e originalTask (default JNull updates);
        Ret (write_tasks users userIndex user (<[i := JObj task]> tasks),
             reply 200 (JObj {[ "message" := JStr "Task updated";
                                "task" := JObj task ]}) [])
    end.

Definition update_task (e : env) (users : list obj) (reqUser : obj)
    (taskId : string) (updates : option json) : list obj * response :=
  match update_task_try e users reqUser taskId updates with
  | Ret out => out
  | Throw => (users, reply 500 (error "Failed to update task") [])
  end.

(** *** DELETE /api/tasks/:id *)
Definition delete_task_try (users : list obj) (reqUser : obj)
    (taskId : string) : js (list obj * response) :=
  userIndex ← findUserIndex users reqUser;
  user ← user_at users userIndex;
  tasks ← tasks_array user;
  taskIndex ← findTaskIndex tasks taskId;
  match taskIndex with
  | None => Ret (users, reply 404 (error "Task not found") [])
  | Some i =>
      Ret (write_tasks users userIndex user (delete i tasks),
           reply 200 (JObj {[ "message" := JStr "Task deleted" ]}) [])
  end.

Definition delete_task (users : list obj) (reqUser : obj) (taskId : string)
  : list obj * response :=
  match delete_task_try users reqUser taskId with
  | Ret out => out
  | Throw => (users, reply 500 (error "Failed to delete task") [])
  end.

(** *** [app.use("/api/tasks", authenticate)] in front of the task routes *)
Definition protected (handler : list obj -> obj -> list obj * response)
    (users : list obj) (session : option cookie) : list obj * response :=
  match authenticate users session with
  | Rejected r => (users, r)
  | Next user => handler users user
  end.

Definition GET_tasks (users : list obj) (session : option cookie) :=
  protected (fun users reqUser => (users, get_tasks reqUser)) users session.

Definition POST_tasks (e : env) (users : list obj) (session : option cookie)
    (reqBody : option json) :=
  protected (fun users reqUser => create_task e users reqUser reqBody)
    users session.

Definition PUT_task (e : env) (users : list obj) (session : option cookie)
    (taskId : string) (reqBody : option json) :=
  protected (fun users reqUser => update_task e users reqUser taskId reqBody)
    users session.

Definition DELETE_task (users : list obj) (session : option cookie)
    (taskId : string) :=
  protected (fun users reqUser => delete_task users reqUser taskId)
    users session.

End Server.

(* ===================================================================== *)
(** ** The client: TaskView and CircularProgress *)
(* ===================================================================== *)

Module Client.

Record SubTask := {
  id : string;
  title : string;
  description : string;
  completed : bool
}.

(** TaskView's [calculatePercentage] *)
Definition calculatePercentage (subTasks : list SubTask) : Num.number :=
  if (length subTasks =? 0)%nat then Num.ofZ 0
  else
    let completedCount := length (List.filter completed subTasks) in
    Num.Math_round
      (Num.mul
         (Num.div (Num.ofZ (Z.of_nat completedCount))
                  (Num.ofZ (Z.of_nat (length subTasks))))
         (Num.ofZ 100)).

Definition green : string := "text-green-600 dark:text-green-500".
Definition red : string := "text-red-600 dark:text-red-500".

(** The colour classes of CircularProgress's progress circle:
    [percentage > 50 ? green : red]. *)
Definition progressColor (percentage : Num.number) : string :=
  if Num.gtb percentage (Num.ofZ 50) then green else red.

End Client.

(* ===================================================================== *)
(** ** The percentage as the specification words it *)
(* ===================================================================== *)

(** [round(100 * completed / total)] when [total > 0], else 0, with the
    exact quotient rounded to the nearest integer, a tie going up:
    [floor(100 * completed / total + 1/2)]. *)
Definition spec_percentage (completed total : Z) : Z :=
  if (0 <? total)%Z then (200 * completed + total) / (2 * total) else 0.

(* ===================================================================== *)
(** ** Vocabulary of the statements *)
(* ===================================================================== *)

(** The task [t] carries the id [taskId]. *)
Definition has_id (taskId : string) (t : json) : bool :=
  strict_eq (field t "id") (Some (JStr taskId)).

(** A submitted subtask that [normalizeSubTask] accepts: it is not [null],
    and its title and description are strings, [null] or absent. *)
Definition text_or_absent (v : option json) : bool :=
  match v with
  | None | Some JNull | Some (JStr _) => true
  | _ => false
  end.

Definition normalizable (st : json) : bool :=
  match st with
  | JNull => false
  | _ => text_or_absent (field st "title")
         && text_or_absent (field st "description")
  end.

(** The subtask has no usable [id]. *)
Definition missing_id (st : json) : bool := negb (truthy (field st "id")).

(** A normalized subtask, in the words of the specification: a missing id
    is generated, title and description are trimmed or default to the empty
    string, [completed] is coerced to a boolean.  [uuid] is the id
    generated for this subtask if it needs one. *)
Definition trimmed_or_empty (v : option json) : json :=
  match v with
  | Some (JStr s) => JStr (Str.trim s)
  | _ => JStr ""
  end.

Definition normalized (uuid : string) (st : json) : json :=
  JObj {[ "id" := if missing_id st then JStr uuid
                  else default JNull (field st "id");
          "title" := trimmed_or_empty (field st "title");
          "description" := trimmed_or_empty (field st "description");
          "completed" := JBool (truthy (field st "completed")) ]}.

(** The subtasks an update is going to store, before normalization:
    [updates.subTasks || originalTask.subTasks], if that is an array. *)
Definition incoming_subTasks (originalTask updates : obj) : list json :=
  array_or_empty (or_else (updates !! "subTasks") (originalTask !! "subTasks")).

(** A value that [JSON.stringify] writes as it is: none of its numbers is
    NaN, infinite or -0. *)
Definition as_written (v : json) : Prop := JSON_written v = v.

(** A number that [JSON.stringify] writes as it is: finite and not -0. *)
Definition number_as_written (x : Num.number) : bool :=
  match x with
  | S754_finite _ _ _ | S754_zero false => true
  | _ => false
  end.

(** A users file that [writeUsers] would write as it is.  Every file that
    the server has written is one. *)
Definition file_as_written (users : list obj) : Prop :=
  writeUsers users = users.

(** A subtask in the form in which the server writes subtasks. *)
Definition normal_subTask (st : json) : Prop :=
  exists (id : json) (title description : string) (completed : bool),
    truthy (Some id) = true
    /\ as_written id
    /\ Str.trim title = title
    /\ Str.trim description = description
    /\ st = JObj {[ "id" := id;
                    "title" := JStr title;
                    "description" := JStr description;
                    "completed" := JBool completed ]}.

(** A submitted subtask with an id of its own, one that [JSON.stringify]
    writes as it is. *)
Definition has_written_id (st : json) : Prop :=
  exists id,
    field st "id" = Some id /\ truthy (Some id) = true /\ as_written id.

(** [Math.round((completedCount / length) * 100)], the expression both
    [percentageOf] and the client's [calculatePercentage] evaluate, on the
    two counts. *)
Definition rounded_ratio (completedCount total : Z) : Num.number :=
  Num.Math_round
    (Num.mul (Num.div (Num.ofZ completedCount) (Num.ofZ total)) (Num.ofZ 100)).

(** The task stored at position [ti] of the list of the user at position
    [ui] of the users file. *)
Definition stored_task (users : list obj) (ui ti : nat) : option json :=
  match users !! ui ≫= (fun u => u !! "tasks") with
  | Some (JArr tasks) => tasks !! ti
  | _ => None
  end.

(* ===================================================================== *)
(** ** A users file and some requests, for the concrete cases *)
(* ===================================================================== *)

Module Scenario.

Definition Number_toString : Num.number -> string := Num.toString.

Definition e : env :=
  {| Date_now := 1700000000000;
     randomBytes16 := Str.bytes "0123456789abcdef";
     randomUUID := fun k => "uuid-" +:+ pretty k;
     NODE_ENV := None;
     isoDate := "2025-01-01";
     localeTime := "10:00" |}.

(** A user that has never had a task. *)
(** Another request, later: another clock and other ids at hand. *)
Definition later : env :=
  {| Date_now := 1700000060000;
     randomBytes16 := Str.bytes "fedcba9876543210";
     randomUUID := fun k => "later-" +:+ pretty k;
     NODE_ENV := None;
     isoDate := "2025-01-01";
     localeTime := "10:01" |}.

Definition alice : obj :=
  {[ "id" := JStr "u1";
     "email" := JStr "alice@example.com";
     "password" := JStr "secret" ]}.

(** A user with one task, as POST /api/tasks writes it. *)
Definition groceries : obj :=
  {[ "id" := JStr "t1";
     "title" := JStr "Groceries";
     "subTasks" := JArr [];
     "percentage" := JNum (Num.ofZ 0);
     "date" := JStr "2025-01-01";
     "time" := JStr "10:00" ]}.

Definition bob : obj :=
  {[ "id" := JStr "u2";
     "email" := JStr "bob@example.com";
     "password" := JStr "hunter2";
     "tasks" := JArr [JObj groceries] ]}.

Definition users : list obj := [alice; bob].

(** A record whose id is an object with a [toString] property of its
    own, so that [String(u.id)] throws. *)
Definition carol : obj :=
  {[ "id" := JObj {[ "toString" := JNum (Num.ofZ 1) ]};
     "email" := JStr "carol@example.com";
     "password" := JStr "pass" ]}.

Definition carol_credentials : obj :=
  {[ "email" := JStr "carol@example.com"; "password" := JStr "pass" ]}.

(** A record with the empty id. *)
Definition nobody : obj :=
  {[ "id" := JStr ""; "email" := JStr "nobody@example.com" ]}.

(** A user id that is one unpaired surrogate, U+D800, and U+FFFD, the
    replacement character. *)
Definition unpaired : string :=
  Str.text [ascii_of_N 237; ascii_of_N 160; ascii_of_N 128].

Definition replaced : string := Str.text Str.replacement.

(** The cookie that a login of the user sets. *)
Definition session_of (user : obj) : option cookie :=
  match generateSessionToken Number_toString e (user !! "id") with
  | Ret token => Some (Text token)
  | Throw => None
  end.

Definition alice_session : option cookie := session_of alice.
Definition bob_session : option cookie := session_of bob.

Definition credentials : obj :=
  {[ "email" := JStr "alice@example.com";
     "password" := JStr "secret";
     "rememberMe" := JBool true ]}.

Definition bob_credentials : obj :=
  {[ "email" := JStr "bob@example.com"; "password" := JStr "hunter2" ]}.

(** Subtasks as a client may submit them: no id, a title with blanks
    around it, no description, and [completed] given as a string or not
    at all. *)
Definition submitted (done : bool) : json :=
  JObj (if done
        then {[ "title" := JStr " milk "; "completed" := JStr "yes" ]}
        else {[ "title" := JStr " eggs " ]}).

(** Subtasks that come with an id: a string, with [completed] given as
    the number 1; and the number that [JSON.parse] reads from 1e400, which
    is infinite, with a title that is [null] and [completed] given as 0. *)
Definition tea : json :=
  JObj {[ "id" := JStr "s3";
          "title" := JStr "tea";
          "description" := JStr "  green ";
          "completed" := JNum (Num.ofZ 1) ]}.

Definition overflow : json :=
  JObj {[ "id" := JNum (S754_infinity false);
          "title" := JNull;
          "completed" := JNum (Num.ofZ 0) ]}.

Definition mixed : list json :=
  [submitted true; submitted false; tea; overflow].


(** 23 subtasks completed out of 40. *)
Definition forty : list json :=
  replicate 23 (submitted true) ++ replicate 17 (submitted false).

Definition forty_client : list Client.SubTask :=
  replicate 23 {| Client.id := "s"; Client.title := "milk";
                  Client.description := ""; Client.completed := true |}
  ++ replicate 17 {| Client.id := "s"; Client.title := "eggs";
                     Client.description := ""; Client.completed := false |}.

End Scenario.

(* ===================================================================== *)
(** ** More of the code *)
(* ===================================================================== *)

(** *** server/server.js: what a task route leaves of the users file

    The users file after a handler has written: the [tasks] of the record
    at the caller's index replaced, and the whole written anew. *)
Definition rewritten (Number_toString : Num.number -> string)
    (users : list obj) (reqUser : obj) (users' : list obj) : Prop :=
  exists i u tasks,
    findUserIndex Number_toString users reqUser = Ret (Some i)
    /\ users !! i = Some u
    /\ users' = writeUsers (<[i := <["tasks" := JArr tasks]> u]> users).

(** *** Features/TaskSlice.ts *)

Module TaskSlice.

Record Task := {
  id : string;
  title : string;
  subTasks : list Client.SubTask;
  percentage : Num.number;
  date : string;
  time : string;
  icon : option string
}.

Record TaskState := {
  tasks : list Task;
  isLoading : bool;
  error : option string;
  searchQuery : string
}.

Definition initialState : TaskState :=
  {| tasks := []; isLoading := false; error := None; searchQuery := "" |}.

Definition with_tasks (state : TaskState) (l : list Task) : TaskState :=
  {| tasks := l; isLoading := isLoading state; error := error state;
     searchQuery := searchQuery state |}.

Definition setTasks (state : TaskState) (payload : list Task) : TaskState :=
  {| tasks := payload; isLoading := false; error := None;
     searchQuery := searchQuery state |}.

Definition addTask (state : TaskState) (payload : Task) : TaskState :=
  with_tasks state (tasks state ++ [payload]).

Definition updateTask (state : TaskState) (payload : Task) : TaskState :=
  match findIndex (fun task => String.eqb (id task) (id payload))
          (tasks state) with
  | Some index => with_tasks state (<[index := payload]> (tasks state))
  | None => state
  end.

Definition deleteTask (state : TaskState) (payload : string) : TaskState :=
  with_tasks state
    (List.filter (fun task => negb (String.eqb (id task) payload))
       (tasks state)).

Definition setLoading (state : TaskState) (payload : bool) : TaskState :=
  {| tasks := tasks state; isLoading := payload; error := error state;
     searchQuery := searchQuery state |}.

Definition setError (state : TaskState) (payload : option string) : TaskState :=
  {| tasks := tasks state; isLoading := false; error := payload;
     searchQuery := searchQuery state |}.

Definition setSearchQuery (state : TaskState) (payload : string) : TaskState :=
  {| tasks := tasks state; isLoading := isLoading state; error := error state;
     searchQuery := Str.trim payload |}.

Definition clearSearchQuery (state : TaskState) : TaskState :=
  {| tasks := tasks state; isLoading := isLoading state; error := error state;
     searchQuery := "" |}.

End TaskSlice.

(** *** TaskView: the subtask actions *)

Module TaskView.

(** [text.includes(query)] *)
Fixpoint starts_with (query text : list ascii) : bool :=
  match query, text with
  | [], _ => true
  | _ :: _, [] => false
  | q :: query', c :: text' => Ascii.eqb q c && starts_with query' text'
  end.

Fixpoint includes_bytes (text query : list ascii) : bool :=
  starts_with query text
  || match text with
     | [] => false
     | _ :: text' => includes_bytes text' query
     end.

Definition includes (text query : string) : bool :=
  includes_bytes (Str.bytes text) (Str.bytes query).

(** The status filter: ["all" | "to do" | "done"]. *)
Inductive Status := All | ToDo | Done.

(** [tasks.find((task) => task.id === id)], [id] being the route
    parameter. *)
Definition chosenTask (tasks : list TaskSlice.Task) (id : option string)
  : option TaskSlice.Task :=
  match id with
  | Some i => find (fun task => String.eqb (TaskSlice.id task) i) tasks
  | None => None
  end.

(** [saveTask]: the task that is sent in the PUT and, when the PUT
    succeeds, dispatched to the store with [updateTask].  [None] when the
    function returns before sending. *)
Definition saveTask (chosenTask : option TaskSlice.Task) (id : option string)
    (updatedSubTasks : list Client.SubTask) (newIcon : option string)
  : option TaskSlice.Task :=
  match chosenTask with
  | Some task =>
      if truthy (JStr <$> id) then
        Some {| TaskSlice.id := TaskSlice.id task;
                TaskSlice.title := TaskSlice.title task;
                TaskSlice.subTasks := updatedSubTasks;
                TaskSlice.percentage :=
                  Client.calculatePercentage updatedSubTasks;
                TaskSlice.date := TaskSlice.date task;
                TaskSlice.time := TaskSlice.time task;
                TaskSlice.icon :=
                  match newIcon with
                  | Some i => Some i
                  | None => TaskSlice.icon task
                  end |}
      else None
  | None => None
  end.

(** The subtask lists that the actions hand to [saveTask]. *)

Definition handleAddSubTask (uuid4 : string) (subTasks : list Client.SubTask)
    (title description : string) : list Client.SubTask :=
  let newSubTask :=
    {| Client.id := uuid4; Client.title := title;
       Client.description := description; Client.completed := false |} in
  subTasks ++ [newSubTask].

(** [saveEdit]: [None] when the title or the description is blank. *)
Definition saveEdit (subTasks : list Client.SubTask) (subTaskId : string)
    (editTitle editDescription : string) : option (list Client.SubTask) :=
  if String.eqb (Str.trim editTitle) ""
     || String.eqb (Str.trim editDescription) ""
  then None
  else
    Some (map (fun st =>
                 if String.eqb (Client.id st) subTaskId
                 then {| Client.id := Client.id st;
                         Client.title := Str.trim editTitle;
                         Client.description := Str.trim editDescription;
                         Client.completed := Client.completed st |}
                 else st)
              subTasks).

Definition toggleComplete (subTasks : list Client.SubTask) (subTaskId : string)
  : list Client.SubTask :=
  map (fun st =>
         if String.eqb (Client.id st) subTaskId
         then {| Client.id := Client.id st;
                 Client.title := Client.title st;
                 Client.description := Client.description st;
                 Client.completed := negb (Client.completed st) |}
         else st)
      subTasks.

Definition deleteSubTask (subTasks : list Client.SubTask) (subTaskId : string)
  : list Client.SubTask :=
  List.filter (fun st => negb (String.eqb (Client.id st) subTaskId)) subTasks.

(** [onDragEnd]: [splice(source, 1)] takes the moved element out, and it is
    [undefined] ([None]) when [source] is past the end;
    [splice(destination, 0, moved)] puts it in, at the end when
    [destination] is past it. *)
Definition onDragEnd {A} (subTasks : list A) (source destination : nat)
  : list (option A) :=
  let moved := subTasks !! source in
  let reordered := Some <$> delete source subTasks in
  take destination reordered ++ moved :: drop destination reordered.

(** [filteredSubTasks] *)
Section Filter.

(** [String.prototype.toLowerCase] *)
Variable toLowerCase : string -> string.

Definition matches (searchQuery : string) (status : Status)
    (subTask : Client.SubTask) : bool :=
  let searchMatch :=
    if String.eqb searchQuery "" then true
    else includes (toLowerCase (Client.title subTask))
                  (toLowerCase searchQuery) in
  let statusMatch :=
    match status with
    | All => true
    | ToDo => negb (Client.completed subTask)
    | Done => Client.completed subTask
    end in
  searchMatch && statusMatch.

Definition filteredSubTasks (chosenTask : option TaskSlice.Task)
    (searchQuery : string) (status : Status) : list Client.SubTask :=
  match chosenTask with
  | Some task =>
      List.filter (matches searchQuery status) (TaskSlice.subTasks task)
  | None => []
  end.

End Filter.

(** The body of the PUT, as [JSON.stringify] writes the task and the server
    parses it: a key whose value is [undefined] is left out, and the
    percentage is written as [JSON_number] has it. *)
Definition subTask_json (st : Client.SubTask) : json :=
  JObj {[ "id" := JStr (Client.id st);
          "title" := JStr (Client.title st);
          "description" := JStr (Client.description st);
          "completed" := JBool (Client.completed st) ]}.

Definition task_json (task : TaskSlice.Task) : obj :=
  set_prop "icon" (JStr <$> TaskSlice.icon task)
    {[ "id" := JStr (TaskSlice.id task);
       "title" := JStr (TaskSlice.title task);
       "subTasks" := JArr (subTask_json <$> TaskSlice.subTasks task);
       "percentage" := JSON_number (TaskSlice.percentage task);
       "date" := JStr (TaskSlice.date task);
       "time" := JStr (TaskSlice.time task) ]}.

(** [saveTask] for a list in which an entry may be [undefined], as
    [onDragEnd] can build one: [calculatePercentage] filters the list,
    if it is not empty, by [st.completed], a [TypeError] at an entry that
    is [undefined], and that before anything is sent. *)
Definition calculatePercentage_entries
    (subTasks : list (option Client.SubTask)) : js Num.number :=
  if (length subTasks =? 0)%nat then Ret (Num.ofZ 0)
  else
    match mapM (M := option) (fun st => st) subTasks with
    | Some defined => Ret (Client.calculatePercentage defined)
    | None => Throw
    end.

Definition saveTask_entries (chosenTask : option TaskSlice.Task)
    (id : option string) (updatedSubTasks : list (option Client.SubTask))
    (newIcon : option string) : js (option TaskSlice.Task) :=
  match chosenTask with
  | Some task =>
      if truthy (JStr <$> id) then
        _ ← calculatePercentage_entries updatedSubTasks;
        Ret (saveTask chosenTask id (omap (fun st => st) updatedSubTasks)
               newIcon)
      else Ret None
  | None => Ret None
  end.

(** [onDragEnd] as a whole, for a drop with a destination: the task that
    is sent, [None] when the handler returns before sending. *)
Definition onDragEnd_save (chosenTask : option TaskSlice.Task)
    (id : option string) (source : nat) (destination : option nat)
  : js (option TaskSlice.Task) :=
  match destination, chosenTask with
  | Some destination, Some task =>
      saveTask_entries chosenTask id
        (onDragEnd (TaskSlice.subTasks task) source destination) None
  | _, _ => Ret None
  end.

(** The effect that fetches the tasks when the store has none,
    [tasks.length === 0 && !loading && id]: each fetched task is dispatched
    with [updateTask].  The slice has no [loading] property ([isLoading] is
    its name), so that [loading] is [undefined]. *)
Definition fetchTasks (state : TaskSlice.TaskState) (id : option string)
    (fetched : list TaskSlice.Task) : TaskSlice.TaskState :=
  if (length (TaskSlice.tasks state) =? 0)%nat
     && negb (truthy None) && truthy (JStr <$> id)
  then foldl TaskSlice.updateTask state fetched
  else state.

End TaskView.

(** *** TaskView: the keyboard *)

Module Keyboard.

(** What a key press sets off. *)
Inductive Action :=
| setShowForm
| setSelectedIndex (index : Z)
| toggleComplete (subTaskId : string)
| startEditing (subTask : Client.SubTask)
| deleteSubTask (subTaskId : string).

(** [filteredSubTasks[selectedIndex]]: [undefined] outside the list. *)
Definition at_index (l : list Client.SubTask) (index : Z)
  : option Client.SubTask :=
  if (index <? 0)%Z then None else l !! Z.to_nat index.

(** [currentSubTask.id] and [startEditing(currentSubTask)], which reads
    [subTask.id]: a [TypeError] when [currentSubTask] is [undefined]. *)
Definition defined (currentSubTask : option Client.SubTask)
  : js Client.SubTask :=
  match currentSubTask with
  | Some st => Ret st
  | None => Throw
  end.

Section Keys.

Variable toLowerCase : string -> string.

(** [handleKeyDown], as the effect registers it for the task, the selected
    index and the list shown at that moment. *)
Definition handleKeyDown (ctrlKey : bool) (key : string)
    (chosenTask : option TaskSlice.Task) (selectedIndex : Z)
    (filteredSubTasks : list Client.SubTask) : js (list Action) :=
  let form :=
    if ctrlKey && String.eqb (toLowerCase key) "q" then [setShowForm] else [] in
  let len := Z.of_nat (length filteredSubTasks) in
  if bool_decide (is_Some chosenTask)
     && (0 <=? selectedIndex)%Z && (0 <? len)%Z
  then
    let currentSubTask := at_index filteredSubTasks selectedIndex in
    let up :=
      if String.eqb key "ArrowUp" && (0 <? selectedIndex)%Z
      then [setSelectedIndex (selectedIndex - 1)] else [] in
    let down :=
      if String.eqb key "ArrowDown" && (selectedIndex <? len - 1)%Z
      then [setSelectedIndex (selectedIndex + 1)] else [] in
    toggle ← (if String.eqb key " "
              then st ← defined currentSubTask;
                   Ret [toggleComplete (Client.id st)]
              else Ret []);
    edit ← (if String.eqb key "Enter" || String.eqb (toLowerCase key) "e"
            then st ← defined currentSubTask; Ret [startEditing st]
            else Ret []);
    del ← (if String.eqb key "Delete"
           then st ← defined currentSubTask;
                Ret [deleteSubTask (Client.id st)]
           else Ret []);
    Ret (form ++ up ++ down ++ toggle ++ edit ++ del)
  else Ret form.

End Keys.

End Keyboard.

(** *** TaskForm and EditTask: the task that a form submits *)

Module TaskForm.

(** [handleSubmit]: the task that is posted, [None] when the form returns
    before posting.  [uuid4], [isoDate] and [localeTime] are what [uuid4()],
    [new Date().toISOString().split("T")[0]] and [toLocaleTimeString] give
    at that moment. *)
Definition handleSubmit (uuid4 isoDate localeTime : string) (title : string)
    (icon : option string) : option TaskSlice.Task :=
  let trimmedTitle := Str.trim title in
  if negb (truthy (Some (JStr trimmedTitle))) then None
  else
    Some {| TaskSlice.id := uuid4;
            TaskSlice.title := trimmedTitle;
            TaskSlice.subTasks := [];
            TaskSlice.percentage := Num.ofZ 0;
            TaskSlice.date := isoDate;
            TaskSlice.time := localeTime;
            TaskSlice.icon := icon |}.

End TaskForm.

Module EditTask.

(** [handleSubmit]: the task that is sent in the PUT and then dispatched
    with [updateTask], [None] when the title is blank. *)
Definition handleSubmit (taskList : TaskSlice.Task) (title : string)
    (icon : option string) : option TaskSlice.Task :=
  if String.eqb (Str.trim title) "" then None
  else
    Some {| TaskSlice.id := TaskSlice.id taskList;
            TaskSlice.title := Str.trim title;
            TaskSlice.subTasks := TaskSlice.subTasks taskList;
            TaskSlice.percentage := TaskSlice.percentage taskList;
            TaskSlice.date := TaskSlice.date taskList;
            TaskSlice.time := TaskSlice.time taskList;
            TaskSlice.icon := icon |}.

End EditTask.

(** *** CircularProgress: the length of the arc *)

Module Circle.

(** [Math.max] and [Math.min] of two numbers: NaN if either is NaN, and
    +0 counts as greater than -0. *)
Definition Math_max (x y : Num.number) : Num.number :=
  match x, y with
  | S754_nan, _ | _, S754_nan => S754_nan
  | S754_zero sx, S754_zero sy => S754_zero (sx && sy)
  | _, _ => if SFltb x y then y else x
  end.

Definition Math_min (x y : Num.number) : Num.number :=
  match x, y with
  | S754_nan, _ | _, S754_nan => S754_nan
  | S754_zero sx, S754_zero sy => S754_zero (sx || sy)
  | _, _ => if SFltb y x then y else x
  end.

(** [Math.min(Math.max(percentage, 0), 100)] *)
Definition clamped (percentage : Num.number) : Num.number :=
  Math_min (Math_max percentage (Num.ofZ 0)) (Num.ofZ 100).

(** [strokeDashoffset={100 - Math.min(Math.max(percentage, 0), 100)}] *)
Definition strokeDashoffset (percentage : Num.number) : Num.number :=
  SFsub Num.prec Num.emax (Num.ofZ 100) (clamped percentage).

End Circle.

(* ===================================================================== *)
(** ** A client store, for the concrete cases *)
(* ===================================================================== *)

Module Store.

(** The task of [Scenario.bob], as the client holds it. *)
Definition groceries : TaskSlice.Task :=
  {| TaskSlice.id := "t1";
     TaskSlice.title := "Groceries";
     TaskSlice.subTasks := [];
     TaskSlice.percentage := Num.ofZ 0;
     TaskSlice.date := "2025-01-01";
     TaskSlice.time := "10:00";
     TaskSlice.icon := None |}.

Definition state : TaskSlice.TaskState :=
  {| TaskSlice.tasks := [groceries];
     TaskSlice.isLoading := false;
     TaskSlice.error := None;
     TaskSlice.searchQuery := "" |}.

Definition milk : Client.SubTask :=
  {| Client.id := "s1"; Client.title := "Milk";
     Client.description := "2 l"; Client.completed := true |}.

Definition eggs : Client.SubTask :=
  {| Client.id := "s2"; Client.title := "Eggs";
     Client.description := "a dozen"; Client.completed := false |}.

Definition bread : Client.SubTask :=
  {| Client.id := "s3"; Client.title := "Bread";
     Client.description := "rye"; Client.completed := false |}.

Definition shopping : TaskSlice.Task :=
  {| TaskSlice.id := "t1";
     TaskSlice.title := "Groceries";
     TaskSlice.subTasks := [milk; eggs; bread];
     TaskSlice.percentage := Num.ofZ 33;
     TaskSlice.date := "2025-01-01";
     TaskSlice.time := "10:00";
     TaskSlice.icon := None |}.

(** The task that TaskForm posts for the title " Tea ". *)
Definition tea : TaskSlice.Task :=
  {| TaskSlice.id := "c1";
     TaskSlice.title := "Tea";
     TaskSlice.subTasks := [];
     TaskSlice.percentage := Num.ofZ 0;
     TaskSlice.date := "2025-02-02";
     TaskSlice.time := "09:30";
     TaskSlice.icon := None |}.

(** [String.prototype.toLowerCase] on the letters A to Z.  No other
    letter that has a lower case occurs in the cases below. *)
Definition lower (a : ascii) : ascii :=
  let n := N_of_ascii a in
  if ((65 <=? n) && (n <=? 90))%N then ascii_of_N (n + 32) else a.

Definition toLowerCase (s : string) : string :=
  Str.text (map lower (Str.bytes s)).

End Store.

(* ===================================================================== *)
(** * Properties *)
(* ===================================================================== *)

(** ** Strings *)

Lemma text_bytes (s : string) : Str.text (Str.bytes s) = s.
Proof. apply string_of_list_ascii_of_string. Qed.

Lemma bytes_text (l : list ascii) : Str.bytes (Str.text l) = l.
Proof. apply list_ascii_of_string_of_list_ascii. Qed.

Lemma bytes_app (s t : string) :
  Str.bytes (s +:+ t) = Str.bytes s ++ Str.bytes t.
Proof.
  induction s as [|c s IH]; simpl; [reflexivity|].
  unfold Str.bytes in *. simpl. now rewrite IH.
Qed.

Lemma first_field_bytes_app (sep : ascii) (u rest : list ascii) :
  sep ∉ u -> Str.first_field_bytes sep (u ++ sep :: rest) = u.
Proof.
  induction u as [|c u IH]; intros Hnot; simpl.
  - now rewrite Ascii.eqb_refl.
  - destruct (Ascii.eqb c sep) eqn:E.
    + apply Ascii.eqb_eq in E. subst c. exfalso. apply Hnot. left.
    + f_equal. apply IH. intros Hin. apply Hnot. now right.
Qed.

Lemma first_field_app (sep : ascii) (u rest : string) :
  sep ∉ Str.bytes u ->
  Str.first_field sep (u +:+ String sep rest) = u.
Proof.
  intros Hnot. unfold Str.first_field. rewrite bytes_app.
  change (Str.bytes (String sep rest)) with (sep :: Str.bytes rest).
  rewrite first_field_bytes_app by exact Hnot. apply text_bytes.
Qed.

(** *** [trim] is idempotent *)

Lemma strip_go_fixed (len : list ascii -> nat) (fuel : nat) (l : list ascii) :
  len l = 0 -> Str.strip_go len fuel l = l.
Proof. intros H. destruct fuel; simpl; [reflexivity | now rewrite H]. Qed.

Lemma strip_go_done (len : list ascii -> nat) (fuel : nat) (l : list ascii) :
  length l <= fuel ->
  len [] = 0 ->
  len (Str.strip_go len fuel l) = 0.
Proof.
  revert l. induction fuel as [|fuel IH]; intros l Hlen Hnil; simpl.
  - destruct l; [exact Hnil | simpl in Hlen; lia].
  - destruct (len l) as [|k] eqn:E; [exact E|].
    apply IH; [|exact Hnil].
    rewrite length_drop. lia.
Qed.

Lemma strip_go_suffix (len : list ascii -> nat) (fuel : nat) (l : list ascii) :
  exists p, l = p ++ Str.strip_go len fuel l.
Proof.
  revert l. induction fuel as [|fuel IH]; intros l; simpl.
  - now exists [].
  - destruct (len l) as [|k]; [now exists []|].
    destruct (IH (drop (S k) l)) as [p Hp].
    exists (take (S k) l ++ p).
    rewrite <- app_assoc, <- Hp. symmetry. apply take_drop.
Qed.

Lemma ws_len_prefix (p q : list ascii) :
  Str.ws_len (p ++ q) = 0 -> Str.ws_len p = 0.
Proof.
  destruct p as [|a [|b [|c p]]]; simpl; try reflexivity.
  - destruct (Str.ws1 (N_of_ascii a)); [|reflexivity].
    destruct q as [|? [|? ?]]; simpl; intros H; try exact H;
      destruct (Str.ws1 (N_of_ascii a)); discriminate || exact H.
  - destruct (Str.ws1 (N_of_ascii a)); [intros H; exact H|].
    destruct (Str.ws2 (N_of_ascii a) (N_of_ascii b)); [intros H; exact H|].
    reflexivity.
  - intros H; exact H.
Qed.

Lemma strip_fixed (len : list ascii -> nat) (l : list ascii) :
  len l = 0 -> Str.strip len l = l.
Proof. apply strip_go_fixed. Qed.

Lemma trim_bytes_idem (l : list ascii) :
  Str.trim_bytes (Str.trim_bytes l) = Str.trim_bytes l.
Proof.
  unfold Str.trim_bytes, Str.trimStart_bytes, Str.trimEnd_bytes.
  set (x := Str.strip Str.ws_len l).
  set (y := Str.strip Str.ws_len_rev (rev x)).
  assert (Hx : Str.ws_len x = 0).
  { apply strip_go_done; [lia | reflexivity]. }
  assert (Hy : Str.ws_len_rev y = 0).
  { apply strip_go_done; [lia | reflexivity]. }
  assert (Hpre : Str.ws_len (rev y) = 0).
  { destruct (strip_go_suffix Str.ws_len_rev (length (rev x)) (rev x)) as [p Hp].
    fold (Str.strip Str.ws_len_rev (rev x)) in Hp. fold y in Hp.
    apply (ws_len_prefix (rev y) (rev p)).
    rewrite <- rev_app_distr, <- Hp, rev_involutive. exact Hx. }
  rewrite (strip_fixed Str.ws_len (rev y) Hpre).
  rewrite rev_involutive.
  now rewrite (strip_fixed Str.ws_len_rev y Hy).
Qed.

(** What [trim] returns has no white space at either end. *)
Lemma trim_bytes_no_white_space (l : list ascii) :
  Str.ws_len (Str.trim_bytes l) = 0
  /\ Str.ws_len_rev (rev (Str.trim_bytes l)) = 0.
Proof.
  unfold Str.trim_bytes, Str.trimStart_bytes, Str.trimEnd_bytes.
  set (x := Str.strip Str.ws_len l).
  set (y := Str.strip Str.ws_len_rev (rev x)).
  assert (Hx : Str.ws_len x = 0).
  { apply strip_go_done; [lia | reflexivity]. }
  assert (Hy : Str.ws_len_rev y = 0).
  { apply strip_go_done; [lia | reflexivity]. }
  split; [|now rewrite rev_involutive].
  destruct (strip_go_suffix Str.ws_len_rev (length (rev x)) (rev x)) as [p Hp].
  fold (Str.strip Str.ws_len_rev (rev x)) in Hp. fold y in Hp.
  apply (ws_len_prefix (rev y) (rev p)).
  rewrite <- rev_app_distr, <- Hp, rev_involutive. exact Hx.
Qed.

Lemma trim_no_white_space (s : string) :
  Str.ws_len (Str.bytes (Str.trim s)) = 0
  /\ Str.ws_len_rev (rev (Str.bytes (Str.trim s))) = 0.
Proof. unfold Str.trim. rewrite bytes_text. apply trim_bytes_no_white_space. Qed.

Lemma trim_idem (s : string) : Str.trim (Str.trim s) = Str.trim s.
Proof.
  unfold Str.trim. rewrite bytes_text. now rewrite trim_bytes_idem.
Qed.

(** ** UTF-8 *)

Section Utf8Facts.

Import Str.

Lemma utf8_ind (P : list ascii -> Prop) :
  P [] ->
  (forall a r, (N_of_ascii a <=? 127)%N = true -> utf8 r = true -> P r ->
               P (a :: r)) ->
  (forall a b r, (N_of_ascii a <=? 127)%N = false ->
     following (N_of_ascii a) = 1 ->
     between (lower_bound (N_of_ascii a)) (upper_bound (N_of_ascii a))
       (N_of_ascii b) = true ->
     utf8 r = true -> P r -> P (a :: b :: r)) ->
  (forall a b c r, (N_of_ascii a <=? 127)%N = false ->
     following (N_of_ascii a) = 2 ->
     between (lower_bound (N_of_ascii a)) (upper_bound (N_of_ascii a))
       (N_of_ascii b) = true ->
     between 128 191 (N_of_ascii c) = true ->
     utf8 r = true -> P r -> P (a :: b :: c :: r)) ->
  (forall a b c d r, (N_of_ascii a <=? 127)%N = false ->
     following (N_of_ascii a) = 3 ->
     between (lower_bound (N_of_ascii a)) (upper_bound (N_of_ascii a))
       (N_of_ascii b) = true ->
     between 128 191 (N_of_ascii c) = true ->
     between 128 191 (N_of_ascii d) = true ->
     utf8 r = true -> P r -> P (a :: b :: c :: d :: r)) ->
  forall l, utf8 l = true -> P l.
Proof.
  intros H0 H1 H2 H3 H4 l.
  induction l as [l IH] using (induction_ltof1 _ (@length ascii)).
  unfold ltof in IH. intros Hl.
  destruct l as [|a r]; [exact H0|].
  cbn [utf8] in Hl. cbv zeta in Hl.
  destruct (N_of_ascii a <=? 127)%N eqn:E.
  { apply H1; [exact E | exact Hl | apply IH; [simpl; lia | exact Hl]]. }
  destruct (following (N_of_ascii a)) as [|[|[|[|k]]]] eqn:F; try discriminate.
  - destruct r as [|b r]; [discriminate|].
    apply andb_true_iff in Hl as [Hb Hr].
    apply H2; [exact E | exact F | exact Hb | exact Hr
               | apply IH; [simpl; lia | exact Hr]].
  - destruct r as [|b [|c r]]; try discriminate.
    apply andb_true_iff in Hl as [Hl Hr]. apply andb_true_iff in Hl as [Hb Hc].
    apply H3; [exact E | exact F | exact Hb | exact Hc | exact Hr
               | apply IH; [simpl; lia | exact Hr]].
  - destruct r as [|b [|c [|d r]]]; try discriminate.
    apply andb_true_iff in Hl as [Hl Hr]. apply andb_true_iff in Hl as [Hl Hd].
    apply andb_true_iff in Hl as [Hb Hc].
    apply H4; [exact E | exact F | exact Hb | exact Hc | exact Hd | exact Hr
               | apply IH; [simpl; lia | exact Hr]].
Qed.

Lemma toString_go_app (l r : list ascii) :
  utf8 l = true ->
  toString_go 0 128 191 [] (l ++ r) = l ++ toString_go 0 128 191 [] r.
Proof.
  revert l. apply utf8_ind.
  - reflexivity.
  - intros a l H _ IH.
    cbn [toString_go app]. cbv zeta. rewrite H. simpl. now rewrite IH.
  - intros a b l H F Hb _ IH.
    cbn [toString_go app]. cbv zeta. rewrite H, F.
    cbn [toString_go app]. cbv zeta. rewrite Hb. simpl. now rewrite IH.
  - intros a b c l H F Hb Hc _ IH.
    cbn [toString_go app]. cbv zeta. rewrite H, F.
    cbn [toString_go app]. cbv zeta. rewrite Hb.
    cbn [toString_go app]. cbv zeta. rewrite Hc. simpl. now rewrite IH.
  - intros a b c d l H F Hb Hc Hd _ IH.
    cbn [toString_go app]. cbv zeta. rewrite H, F.
    cbn [toString_go app]. cbv zeta. rewrite Hb.
    cbn [toString_go app]. cbv zeta. rewrite Hc.
    cbn [toString_go app]. cbv zeta. rewrite Hd. simpl. now rewrite IH.
Qed.

Lemma toString_bytes_utf8 (l : list ascii) :
  utf8 l = true -> toString_bytes l = l.
Proof.
  intros H. unfold toString_bytes.
  rewrite <- (app_nil_r l) at 1. rewrite toString_go_app by exact H.
  apply app_nil_r.
Qed.

Lemma Buffer_from_go_cons (a : ascii) (r : list ascii) :
  (N_of_ascii a =? 237)%N = false ->
  Buffer_from_go (a :: r) = a :: Buffer_from_go r.
Proof.
  intros H. cbn [Buffer_from_go]. rewrite H.
  destruct r as [|b [|c r]]; reflexivity.
Qed.

Lemma between_not_237 (n : N) :
  between 128 191 n = true -> (n =? 237)%N = false.
Proof.
  unfold between. intros H. apply andb_true_iff in H as [_ H].
  apply N.leb_le in H. apply N.eqb_neq. lia.
Qed.

Lemma low_not_237 (n : N) : (n <=? 127)%N = true -> (n =? 237)%N = false.
Proof. intros H. apply N.leb_le in H. apply N.eqb_neq. lia. Qed.

Lemma second_byte (n m : N) :
  between (lower_bound n) (upper_bound n) m = true ->
  between 128 191 m = true
  /\ ((n =? 237)%N = true -> between 160 191 m = false).
Proof.
  unfold between, lower_bound, upper_bound. intros H.
  apply andb_true_iff in H as [H1 H2].
  apply N.leb_le in H1. apply N.leb_le in H2.
  split.
  - apply andb_true_iff. split; apply N.leb_le;
      repeat (destruct (_ =? _)%N); lia.
  - intros E. rewrite E in H2.
    apply andb_false_iff. left. apply N.leb_gt. lia.
Qed.

Lemma Buffer_from_go_lead (a b : ascii) (r : list ascii) :
  between (lower_bound (N_of_ascii a)) (upper_bound (N_of_ascii a))
    (N_of_ascii b) = true ->
  Buffer_from_go (a :: b :: r) = a :: b :: Buffer_from_go r.
Proof.
  intros H. apply second_byte in H as [Hb Hs].
  rewrite <- (Buffer_from_go_cons b r) by now apply between_not_237.
  destruct (N_of_ascii a =? 237)%N eqn:E.
  - cbn [Buffer_from_go]. rewrite E, (Hs eq_refl).
    destruct r as [|c r]; reflexivity.
  - now apply Buffer_from_go_cons.
Qed.

Lemma Buffer_from_go_app (l r : list ascii) :
  utf8 l = true -> Buffer_from_go (l ++ r) = l ++ Buffer_from_go r.
Proof.
  revert l. apply utf8_ind.
  - reflexivity.
  - intros a l H _ IH. simpl app.
    rewrite Buffer_from_go_cons by now apply low_not_237. now rewrite IH.
  - intros a b l H F Hb _ IH. simpl app.
    rewrite Buffer_from_go_lead by assumption. now rewrite IH.
  - intros a b c l H F Hb Hc _ IH. simpl app.
    rewrite Buffer_from_go_lead by assumption.
    rewrite Buffer_from_go_cons by now apply between_not_237. now rewrite IH.
  - intros a b c d l H F Hb Hc Hd _ IH. simpl app.
    rewrite Buffer_from_go_lead by assumption.
    rewrite !Buffer_from_go_cons by now apply between_not_237. now rewrite IH.
Qed.

Lemma Buffer_from_go_utf8 (l : list ascii) :
  utf8 l = true -> Buffer_from_go l = l.
Proof.
  intros H. rewrite <- (app_nil_r l) at 1.
  rewrite Buffer_from_go_app by exact H. apply app_nil_r.
Qed.

End Utf8Facts.

(** A string without unpaired surrogates comes back from the bytes that
    [Buffer.from] makes of it. *)
Lemma toString_Buffer_from (s : string) :
  Str.wellformed s = true -> Str.toString (Str.Buffer_from s) = s.
Proof.
  intros H. unfold Str.toString, Str.Buffer_from.
  rewrite Buffer_from_go_utf8 by exact H.
  rewrite toString_bytes_utf8 by exact H.
  apply text_bytes.
Qed.

Lemma toString_go_ascii (a : ascii) (r : list ascii) :
  (N_of_ascii a <=? 127)%N = true ->
  Str.toString_go 0 128 191 [] (a :: r) = a :: Str.toString_go 0 128 191 [] r.
Proof. intros H. cbn [Str.toString_go]. cbv zeta. now rewrite H. Qed.

(** The text before the first ":" of a string comes back as well,
    whatever follows. *)
Lemma toString_Buffer_from_field (u rest : string) :
  Str.wellformed u = true ->
  exists tail,
    Str.toString (Str.Buffer_from (u +:+ String ":" rest))
    = u +:+ String ":" tail.
Proof.
  intros H. unfold Str.toString, Str.Buffer_from, Str.toString_bytes.
  rewrite bytes_app.
  change (Str.bytes (String ":" rest)) with (":"%char :: Str.bytes rest).
  rewrite Buffer_from_go_app by exact H.
  rewrite Buffer_from_go_cons by reflexivity.
  rewrite toString_go_app by exact H.
  rewrite toString_go_ascii by reflexivity.
  exists (Str.text (Str.toString_go 0 128 191 []
                      (Str.Buffer_from_go (Str.bytes rest)))).
  rewrite <- (bytes_text (Str.toString_go _ _ _ _ _)) at 1.
  change (":"%char :: Str.bytes ?t) with (Str.bytes (String ":" t)).
  rewrite <- bytes_app. apply text_bytes.
Qed.

Lemma Buffer_from_nil (s : string) : Str.Buffer_from s = [] -> s = "".
Proof.
  unfold Str.Buffer_from. destruct s as [|a s]; [reflexivity|].
  change (Str.bytes (String a s)) with (a :: Str.bytes s).
  simpl. destruct (Str.bytes s) as [|b [|c r]]; try discriminate.
  destruct (_ && _); discriminate.
Qed.

(** ** Base64 *)

Lemma sextet_of_char_of_sextet (s : Base64.sextet) :
  Base64.sextet_of_char (Base64.char_of_sextet s) = Some s.
Proof. destruct s as [[] [] [] [] [] []]; reflexivity. Qed.

Lemma char_of_sextet_not_pad (s : Base64.sextet) :
  Ascii.eqb (Base64.char_of_sextet s) Base64.pad = false.
Proof. destruct s as [[] [] [] [] [] []]; reflexivity. Qed.

Lemma unsplit3 (a b c : ascii) :
  let '(s1, s2, s3, s4) := Base64.split3 a b c in
  Base64.byte1 s1 s2 = a /\ Base64.byte2 s2 s3 = b /\ Base64.byte3 s3 s4 = c.
Proof. destruct a, b, c. simpl. auto. Qed.

Lemma decode_bytes_step (s1 s2 s3 s4 : Base64.sextet) (r : list ascii) :
  Base64.decode_bytes
    (Base64.char_of_sextet s1 :: Base64.char_of_sextet s2
       :: Base64.char_of_sextet s3 :: Base64.char_of_sextet s4 :: r)
  = Base64.byte1 s1 s2 :: Base64.byte2 s2 s3 :: Base64.byte3 s3 s4
      :: Base64.decode_bytes r.
Proof.
  unfold Base64.decode_bytes. simpl.
  rewrite !char_of_sextet_not_pad. simpl.
  now rewrite !sextet_of_char_of_sextet.
Qed.

Lemma decode_encode_bytes (l : list ascii) :
  Base64.decode_bytes (Base64.encode_bytes l) = l.
Proof.
  assert (H : forall n (l : list ascii), length l <= n ->
              Base64.decode_bytes (Base64.encode_bytes l) = l).
  { clear l. induction n as [|n IH]; intros l Hn.
    - destruct l; [reflexivity | simpl in Hn; lia].
    - destruct l as [|a [|b [|c r]]].
      + reflexivity.
      + simpl. pose proof (unsplit3 a Base64.zero Base64.zero) as U.
        destruct (Base64.split3 a Base64.zero Base64.zero) as [[[s1 s2] s3] s4].
        destruct U as (U1 & _ & _).
        unfold Base64.decode_bytes. simpl.
        rewrite !char_of_sextet_not_pad. simpl.
        rewrite !sextet_of_char_of_sextet. simpl. now rewrite U1.
      + simpl. pose proof (unsplit3 a b Base64.zero) as U.
        destruct (Base64.split3 a b Base64.zero) as [[[s1 s2] s3] s4].
        destruct U as (U1 & U2 & _).
        unfold Base64.decode_bytes. simpl.
        rewrite !char_of_sextet_not_pad. simpl.
        rewrite !sextet_of_char_of_sextet. simpl. now rewrite U1, U2.
      + change (Base64.encode_bytes (a :: b :: c :: r))
          with (let '(s1, s2, s3, s4) := Base64.split3 a b c in
                Base64.char_of_sextet s1 :: Base64.char_of_sextet s2
                  :: Base64.char_of_sextet s3 :: Base64.char_of_sextet s4
                  :: Base64.encode_bytes r).
        pose proof (unsplit3 a b c) as U.
        destruct (Base64.split3 a b c) as [[[s1 s2] s3] s4].
        destruct U as (U1 & U2 & U3).
        rewrite decode_bytes_step, U1, U2, U3.
        rewrite IH; [reflexivity | simpl in Hn; lia]. }
  apply (H (length l)). lia.
Qed.

Lemma encode_bytes_nil (l : list ascii) : Base64.encode_bytes l = [] -> l = [].
Proof.
  intros H. rewrite <- (decode_encode_bytes l), H. reflexivity.
Qed.

Lemma decode_encode (s : string) : Base64.decode (Base64.encode s) = s.
Proof.
  unfold Base64.decode, Base64.encode.
  rewrite bytes_text, decode_encode_bytes. apply text_bytes.
Qed.

(** ** [JSON.stringify] *)

Lemma json_ind' (P : json -> Prop) :
  P JNull -> (forall b, P (JBool b)) -> (forall x, P (JNum x)) ->
  (forall s, P (JStr s)) ->
  (forall l, Forall P l -> P (JArr l)) ->
  (forall o, map_Forall (fun _ => P) o -> P (JObj o)) ->
  forall v, P v.
Proof.
  intros Hnull Hbool Hnum Hstr Harr Hobj v.
  remember (json_size v) as n eqn:Hn. revert v Hn.
  induction (lt_wf n) as [n _ IH]. intros v ->.
  destruct v as [| | | |l|o]; auto.
  - apply Harr. simpl in IH.
    induction l as [|x l IHl]; constructor.
    + eapply IH; [|reflexivity]. simpl. lia.
    + apply IHl. intros m Hm. apply IH. simpl. lia.
  - apply Hobj. simpl in IH.
    induction o as [|k x o Hk Hfold IHo] using map_first_key_ind.
    + apply map_Forall_empty.
    + rewrite map_fold_insert_first_key in IH by assumption.
      apply map_Forall_insert; [assumption|]. split.
      * eapply IH; [|reflexivity]. lia.
      * apply IHo. intros m Hm. apply IH. lia.
Qed.

Lemma JSON_number_written (x : Num.number) :
  JSON_written (JSON_number x) = JSON_number x.
Proof. destruct x as [s|s| |s m e]; reflexivity. Qed.

(** Writing what has been written changes nothing. *)
Lemma JSON_written_idem (v : json) :
  JSON_written (JSON_written v) = JSON_written v.
Proof.
  induction v as [| | | |l IH|o IH] using json_ind'; try reflexivity.
  - apply JSON_number_written.
  - simpl. f_equal. rewrite <- list_fmap_compose.
    apply Forall_fmap_ext_1. exact IH.
  - simpl. f_equal. rewrite <- map_fmap_compose.
    apply map_fmap_ext. intros k x Hk. apply (IH k x Hk).
Qed.

Lemma JSON_written_obj_idem (o : obj) :
  JSON_written_obj (JSON_written_obj o) = JSON_written_obj o.
Proof.
  unfold JSON_written_obj. rewrite <- map_fmap_compose.
  apply map_fmap_ext. intros k x _. apply JSON_written_idem.
Qed.

Lemma lookup_JSON_written_obj (o : obj) (k : string) :
  JSON_written_obj o !! k = JSON_written <$> o !! k.
Proof. apply lookup_fmap. Qed.

Lemma JSON_written_obj_insert (o : obj) (k : string) (v : json) :
  JSON_written_obj (<[k := v]> o) = <[k := JSON_written v]> (JSON_written_obj o).
Proof. apply fmap_insert. Qed.

Lemma JSON_written_obj_as_written (o : obj) :
  JSON_written_obj o = o <-> as_written (JObj o).
Proof.
  unfold as_written, JSON_written_obj. simpl.
  split; [now intros -> | now intros [= ->]].
Qed.

Lemma as_written_JSON_written (v : json) : as_written (JSON_written v).
Proof. apply JSON_written_idem. Qed.

Lemma as_written_JArr (l : list json) :
  as_written (JArr l) <-> Forall as_written l.
Proof.
  unfold as_written. simpl. split.
  - intros [= H]. apply Forall_lookup. intros i x Hi.
    apply (f_equal (fun l => l !! i)) in H.
    rewrite list_lookup_fmap, Hi in H. now injection H.
  - intros H. f_equal. rewrite <- (list_fmap_id l) at 2.
    apply Forall_fmap_ext_1. exact H.
Qed.

Lemma as_written_lookup (o : obj) (k : string) (v : json) :
  as_written (JObj o) -> o !! k = Some v -> as_written v.
Proof.
  unfold as_written. simpl. intros [= H] Hk.
  apply (f_equal (fun o : obj => o !! k)) in H.
  rewrite lookup_fmap, Hk in H. now injection H.
Qed.

(** ** [find] and [findIndex] *)

Lemma find_findIndex {A} (p : A -> bool) (l : list A) (x : A) :
  find p l = Some x ->
  exists i, findIndex p l = Some i /\ l !! i = Some x /\ p x = true.
Proof.
  induction l as [|y l IH]; simpl; [discriminate|].
  destruct (p y) eqn:E.
  - intros [= <-]. exists 0. auto.
  - intros H. destruct (IH H) as (i & Hi & Hl & Hp).
    exists (S i). rewrite Hi. auto.
Qed.

Lemma findIndex_lookup {A} (p : A -> bool) (l : list A) (i : nat) :
  findIndex p l = Some i -> exists x, l !! i = Some x /\ p x = true.
Proof.
  revert i. induction l as [|y l IH]; intros i; simpl; [discriminate|].
  destruct (p y) eqn:E.
  - intros [= <-]. exists y. auto.
  - destruct (findIndex p l) as [j|]; [|discriminate].
    intros [= <-]. destruct (IH j eq_refl) as (x & Hx & Hp). exists x. auto.
Qed.

Lemma findIndex_ext {A} (p q : A -> bool) (l : list A) :
  (forall x, p x = q x) -> findIndex p l = findIndex q l.
Proof.
  intros H. induction l as [|y l IH]; simpl; [reflexivity|].
  now rewrite H, IH.
Qed.

Lemma find_elem_of {A} (p : A -> bool) (l : list A) (x : A) :
  find p l = Some x -> x ∈ l.
Proof.
  intros H. destruct (find_findIndex p l x H) as (i & _ & Hl & _).
  apply list_elem_of_lookup. eauto.
Qed.

(** Replacing the first match by another match keeps it the first match. *)
Lemma find_insert_first {A} (p : A -> bool) (l : list A) (i : nat) (x' : A) :
  findIndex p l = Some i -> p x' = true -> find p (<[i := x']> l) = Some x'.
Proof.
  revert i. induction l as [|y l IH]; intros i; simpl; [discriminate|].
  destruct (p y) eqn:E.
  - intros [= <-] Hp. simpl. now rewrite Hp.
  - destruct (findIndex p l) as [j|] eqn:Ej; [|discriminate].
    intros [= <-] Hp. simpl. rewrite E. now apply IH.
Qed.

Lemma findIndexM_total {A} (p : A -> js bool) (q : A -> bool) (l : list A) :
  Forall (fun x => p x = Ret (q x)) l ->
  findIndexM p l = Ret (findIndex q l).
Proof.
  induction 1 as [|x l Hx _ IH]; simpl; [reflexivity|].
  rewrite Hx. simpl. destruct (q x); [reflexivity|].
  rewrite IH. reflexivity.
Qed.

Lemma findIndex_None {A} (p : A -> bool) (l : list A) :
  findIndex p l = None <-> Forall (fun x => p x = false) l.
Proof.
  induction l as [|y l IH]; simpl.
  - split; [constructor | reflexivity].
  - destruct (p y) eqn:E.
    + split; [discriminate|]. intros H. inversion H; congruence.
    + destruct (findIndex p l) as [j|]; split.
      * discriminate.
      * intros H. inversion H as [|? ? _ Hl]. apply IH in Hl. discriminate.
      * intros _. constructor; [exact E | now apply IH].
      * reflexivity.
Qed.

(** The same for a callback that may throw. *)

Lemma findM_findIndexM {A} (p : A -> js bool) (l : list A) (x : A) :
  findM p l = Ret (Some x) ->
  exists i, findIndexM p l = Ret (Some i) /\ l !! i = Some x /\ p x = Ret true.
Proof.
  induction l as [|y l IH]; simpl; [discriminate|].
  destruct (p y) as [[|]|] eqn:E; simpl; try discriminate.
  - intros [= <-]. exists 0. auto.
  - intros H. destruct (IH H) as (i & Hi & Hl & Hp).
    exists (S i). rewrite Hi. auto.
Qed.

Lemma findM_elem_of {A} (p : A -> js bool) (l : list A) (x : A) :
  findM p l = Ret (Some x) -> x ∈ l.
Proof.
  intros H. destruct (findM_findIndexM _ _ _ H) as (i & _ & Hl & _).
  apply list_elem_of_lookup. eauto.
Qed.

Lemma findM_None {A} (p : A -> js bool) (l : list A) (x : A) :
  findM p l = Ret None -> x ∈ l -> p x = Ret false.
Proof.
  induction l as [|y l IH]; intros H Hin.
  - now apply elem_of_nil in Hin.
  - simpl in H. destruct (p y) as [[|]|] eqn:E; simpl in H; try discriminate.
    apply elem_of_cons in Hin as [->|Hin]; [exact E | now apply IH].
Qed.

Lemma findIndexM_ext {A} (p q : A -> js bool) (l : list A) :
  (forall x, p x = q x) -> findIndexM p l = findIndexM q l.
Proof.
  intros H. induction l as [|x l IH]; simpl; [reflexivity|].
  now rewrite H, IH.
Qed.

Lemma findM_ext {A} (p q : A -> js bool) (l : list A) :
  (forall x, x ∈ l -> p x = q x) -> findM p l = findM q l.
Proof.
  induction l as [|x l IH]; intros H; simpl; [reflexivity|].
  rewrite (H x) by apply list_elem_of_here.
  destruct (q x) as [[|]|]; simpl; try reflexivity.
  apply IH. intros y Hy. apply H. now apply list_elem_of_further.
Qed.

Lemma findM_insert_first {A} (p : A -> js bool) (l : list A) (i : nat) (x' : A) :
  findIndexM p l = Ret (Some i) -> p x' = Ret true ->
  findM p (<[i := x']> l) = Ret (Some x').
Proof.
  revert i. induction l as [|x l IH]; intros i; simpl; [discriminate|].
  destruct (p x) as [[|]|] eqn:E; simpl; try discriminate.
  - intros [= <-] Hx. simpl. now rewrite Hx.
  - destruct (findIndexM p l) as [[j|]|] eqn:F; simpl; try discriminate.
    intros [= <-] Hx. simpl. rewrite E. simpl. now apply IH.
Qed.

Lemma findIndexM_lookup {A} (p : A -> js bool) (l : list A) (i : nat) :
  findIndexM p l = Ret (Some i) -> exists x, l !! i = Some x /\ p x = Ret true.
Proof.
  revert i. induction l as [|y l IH]; intros i; simpl; [discriminate|].
  destruct (p y) as [[|]|] eqn:E; simpl; try discriminate.
  - intros [= <-]. eauto.
  - destruct (findIndexM p l) as [[j|]|] eqn:F; simpl; try discriminate.
    intros [= <-]. simpl. now apply IH.
Qed.

(** ** Normalization of subtasks *)

Lemma prop_field (st : json) (k : string) :
  st <> JNull -> prop (Some st) k = Ret (field st k).
Proof. destruct st; intros H; try reflexivity. contradiction. Qed.

Lemma normalizable_not_null (st : json) : normalizable st = true -> st <> JNull.
Proof. intros H ->. discriminate. Qed.

Lemma opt_trim_text (v : option json) :
  text_or_absent v = true ->
  exists t, opt_trim v = Ret t
            /\ default (JStr "") (or_else t (Some (JStr ""))) = trimmed_or_empty v.
Proof.
  destruct v as [[| | |s| |]|]; try discriminate; intros _; simpl.
  - exists None. split; reflexivity.
  - exists (Some (JStr (Str.trim s))). split; [reflexivity|].
    unfold or_else. simpl.
    destruct (String.eqb_spec (Str.trim s) "") as [->|]; reflexivity.
  - exists None. split; reflexivity.
Qed.

Lemma or_else_text (t : option json) :
  or_else t (Some (JStr "")) = Some (default (JStr "") (or_else t (Some (JStr "")))).
Proof. unfold or_else. destruct (truthy t) eqn:E; [|reflexivity]. destruct t; [reflexivity | discriminate]. Qed.

Lemma normalizeSubTask_spec (e : env) (k : nat) (st : json) :
  normalizable st = true ->
  normalizeSubTask e k st =
  Ret (normalized (randomUUID e k) st, if missing_id st then S k else k).
Proof.
  intros Hn. pose proof (normalizable_not_null st Hn) as Hnull.
  unfold normalizeSubTask. rewrite !prop_field by exact Hnull.
  assert (Ht : text_or_absent (field st "title") = true
               /\ text_or_absent (field st "description") = true).
  { destruct st; try contradiction; simpl in Hn |- *;
      try (split; reflexivity); now apply andb_prop in Hn. }
  destruct Ht as [Ht Hd].
  destruct (opt_trim_text _ Ht) as (t & Et & Vt).
  destruct (opt_trim_text _ Hd) as (d & Ed & Vd).
  simpl. rewrite Et. simpl. rewrite Ed. simpl.
  rewrite (or_else_text t), (or_else_text d), Vt, Vd. simpl.
  unfold normalized, missing_id, or_else.
  destruct (truthy (field st "id")) eqn:Ti; simpl.
  - destruct (field st "id") as [v|]; [reflexivity | discriminate].
  - reflexivity.
Qed.

(** Every submitted subtask is normalized in its place; the subtasks
    without id receive the successive generated ids, one each. *)
Lemma normalizeSubTasks_spec (e : env) (sts : list json) :
  Forall (fun st => normalizable st = true) sts ->
  forall k, exists sts',
    normalizeSubTasks e k sts = Ret sts'
    /\ length sts' = length sts
    /\ forall j st, sts !! j = Some st ->
         sts' !! j =
         Some (normalized
                 (randomUUID e (k + length (List.filter missing_id (take j sts))))
                 st).
Proof.
  induction 1 as [|st sts Hst _ IH]; intros k.
  - exists []. repeat split. intros j st Hj. destruct j; discriminate.
  - simpl. rewrite (normalizeSubTask_spec e k st Hst). simpl.
    destruct (IH (if missing_id st then S k else k)) as (r' & Hr & Hlen & Hidx).
    rewrite Hr. simpl. exists (normalized (randomUUID e k) st :: r').
    repeat split.
    + simpl. now rewrite Hlen.
    + intros [|j] st0 Hj; simpl in *.
      * injection Hj as <-. now rewrite Nat.add_0_r.
      * rewrite (Hidx j st0 Hj). do 3 f_equal.
        destruct (missing_id st); simpl; lia.
Qed.

(** A subtask the server wrote is accepted and left as it is. *)
Lemma normal_subTask_normalizable (st : json) :
  normal_subTask st -> normalizable st = true.
Proof.
  intros (i & t & d & c & _ & _ & _ & _ & ->). reflexivity.
Qed.

Lemma normal_subTask_fixed (uuid : string) (st : json) :
  normal_subTask st -> normalized uuid st = st.
Proof.
  intros (i & t & d & c & Hi & _ & Ht & Hd & ->).
  unfold normalized, missing_id. simpl.
  rewrite lookup_insert_eq.
  rewrite !(lookup_insert_ne _ "id") by discriminate.
  rewrite lookup_insert_eq.
  rewrite !(lookup_insert_ne _ "title") by discriminate.
  rewrite lookup_insert_eq.
  rewrite !(lookup_insert_ne _ "description") by discriminate.
  rewrite lookup_singleton_eq. simpl in Hi |- *. rewrite Hi. simpl.
  rewrite Ht, Hd. now destruct c.
Qed.

Lemma normalizeSubTasks_normal (e : env) (k : nat) (sts : list json) :
  Forall normal_subTask sts -> normalizeSubTasks e k sts = Ret sts.
Proof.
  intros H.
  destruct (normalizeSubTasks_spec e sts) with (k := k) as (sts' & Hr & Hlen & Hidx).
  { eapply Forall_impl; [exact H|]. apply normal_subTask_normalizable. }
  rewrite Hr. f_equal. apply list_eq. intros j.
  destruct (sts !! j) as [st|] eqn:Ej.
  - rewrite (Hidx j st Ej). f_equal. apply normal_subTask_fixed.
    eapply Forall_lookup_1; eauto.
  - apply lookup_ge_None. apply lookup_ge_None in Ej. lia.
Qed.

(** Conversely, [normalizeSubTasks] returns only on subtasks it accepts,
    so that everything an update stores is in that form. *)
Lemma normalizeSubTask_Ret (e : env) (k : nat) (st : json) (out : json * nat) :
  normalizeSubTask e k st = Ret out -> normalizable st = true.
Proof.
  unfold normalizeSubTask.
  destruct st as [| | | | |o]; try discriminate; try reflexivity.
  simpl.
  destruct (o !! "title") as [[| | |t| |]|]; simpl; try discriminate;
    destruct (o !! "description") as [[| | |d| |]|]; simpl;
    try discriminate; reflexivity.
Qed.

Lemma normalizeSubTasks_Ret (e : env) (sts : list json) :
  forall k sts',
    normalizeSubTasks e k sts = Ret sts' ->
    Forall (fun st => normalizable st = true) sts.
Proof.
  induction sts as [|st sts IH]; intros k sts' H; [constructor|].
  simpl in H.
  destruct (normalizeSubTask e k st) as [[st1 k1]|] eqn:E; [|discriminate].
  simpl in H.
  destruct (normalizeSubTasks e k1 sts) as [r|] eqn:Er; [|discriminate].
  constructor.
  - eapply normalizeSubTask_Ret. exact E.
  - eapply IH. exact Er.
Qed.

(** A subtask that came with an id of its own, written as it is, is
    stored in that form. *)
Lemma normalized_normal (uuid : string) (st : json) :
  has_written_id st -> normal_subTask (normalized uuid st).
Proof.
  intros (id & Hid & Ht & Hw). unfold normalized, missing_id.
  rewrite Hid, Ht. simpl.
  assert (T : forall v, exists s, trimmed_or_empty v = JStr s /\ Str.trim s = s).
  { intros [[| | |s| |]|]; simpl; try (exists ""; split; reflexivity).
    exists (Str.trim s). split; [reflexivity | apply trim_idem]. }
  destruct (T (field st "title")) as (t & -> & Ht').
  destruct (T (field st "description")) as (d & -> & Hd).
  exists id, t, d, (truthy (field st "completed")).
  repeat split; assumption.
Qed.

Lemma normalizeSubTasks_stores_normal (e : env) (k : nat) (sts sts' : list json) :
  Forall has_written_id sts ->
  normalizeSubTasks e k sts = Ret sts' ->
  Forall normal_subTask sts'.
Proof.
  intros Hid H.
  pose proof (normalizeSubTasks_Ret e sts k sts' H) as Hn.
  destruct (normalizeSubTasks_spec e sts Hn k) as (r & Hr & Hlen & Hidx).
  assert (r = sts') as -> by congruence.
  apply Forall_lookup. intros j x Hj.
  destruct (sts !! j) as [st|] eqn:Ej.
  - rewrite (Hidx j st Ej) in Hj. injection Hj as <-.
    apply normalized_normal. eapply Forall_lookup_1; eauto.
  - apply lookup_ge_None in Ej. apply lookup_lt_Some in Hj. lia.
Qed.

(** A subtask in that form is written as it is. *)
Lemma normal_subTask_as_written (st : json) :
  normal_subTask st -> as_written st.
Proof.
  intros (i & t & d & c & _ & Hw & _ & _ & ->).
  unfold as_written in *. simpl. f_equal.
  rewrite !fmap_insert, map_fmap_singleton. simpl. now rewrite Hw.
Qed.

(** ** The server *)

Section ServerFacts.

Variable Number_toString : Num.number -> string.

Local Abbreviation ToString := (ToString Number_toString).
Local Abbreviation findUser := (findUser Number_toString).
Local Abbreviation findUserIndex := (findUserIndex Number_toString).
Local Abbreviation authenticate_try := (authenticate_try Number_toString).
Local Abbreviation authenticate := (authenticate Number_toString).
Local Abbreviation generateSessionToken := (generateSessionToken Number_toString).
Local Abbreviation login_try := (login_try Number_toString).
Local Abbreviation login := (login Number_toString).
Local Abbreviation check_session_try := (check_session_try Number_toString).
Local Abbreviation check_session := (check_session Number_toString).
Local Abbreviation create_task := (create_task Number_toString).
Local Abbreviation update_task := (update_task Number_toString).
Local Abbreviation delete_task := (delete_task Number_toString).
Local Abbreviation GET_tasks := (GET_tasks Number_toString).
Local Abbreviation POST_tasks := (POST_tasks Number_toString).
Local Abbreviation PUT_task := (PUT_task Number_toString).
Local Abbreviation DELETE_task := (DELETE_task Number_toString).

(** *** What is answered *)

Lemma JSON_written_error (msg : string) : JSON_written (error msg) = error msg.
Proof. unfold error. simpl. now rewrite map_fmap_singleton. Qed.

Lemma JSON_written_singleton (k : string) (v : json) :
  JSON_written (JObj {[ k := v ]}) = JObj {[ k := JSON_written v ]}.
Proof. simpl. now rewrite map_fmap_singleton. Qed.

Lemma JSON_written_message (msg k : string) (v : json) :
  JSON_written (JObj {[ "message" := JStr msg; k := v ]})
  = JObj {[ "message" := JStr msg; k := JSON_written v ]}.
Proof. simpl. now rewrite fmap_insert, map_fmap_singleton. Qed.

Lemma body_reply (code : Z) (b : json) (ops : list cookie_op) :
  body (reply code b ops) = JSON_written b.
Proof. reflexivity. Qed.

(** An answer reads the same whether the value sent had been written
    before or not. *)
Lemma reply_message_written (code : Z) (msg k : string) (v : json)
    (ops : list cookie_op) :
  reply code (JObj {[ "message" := JStr msg; k := JSON_written v ]}) ops
  = reply code (JObj {[ "message" := JStr msg; k := v ]}) ops.
Proof.
  unfold reply. f_equal.
  now rewrite !JSON_written_message, JSON_written_idem.
Qed.

(** *** The users file as it is written *)

Lemma writeUsers_idem (users : list obj) :
  writeUsers (writeUsers users) = writeUsers users.
Proof.
  unfold writeUsers. rewrite <- list_fmap_compose.
  apply list_fmap_ext. intros i u _. apply JSON_written_obj_idem.
Qed.

Lemma file_as_written_writeUsers (users : list obj) :
  file_as_written (writeUsers users).
Proof. apply writeUsers_idem. Qed.

Lemma file_as_written_lookup (users : list obj) (i : nat) (u : obj) :
  file_as_written users -> users !! i = Some u -> JSON_written_obj u = u.
Proof.
  unfold file_as_written, writeUsers. intros H Hi.
  apply (f_equal (fun l => l !! i)) in H.
  rewrite list_lookup_fmap, Hi in H. now injection H.
Qed.

Lemma writeUsers_insert (users : list obj) (i : nat) (u : obj) :
  writeUsers (<[i := u]> users) = <[i := JSON_written_obj u]> (writeUsers users).
Proof. apply list_fmap_insert. Qed.

Lemma JSON_written_obj_tasks (u : obj) (tasks : list json) :
  JSON_written_obj (<["tasks" := JArr tasks]> u)
  = <["tasks" := JArr (JSON_written <$> tasks)]> (JSON_written_obj u).
Proof. apply JSON_written_obj_insert. Qed.

(** In a file as it is written, a record whose task list is replaced is
    written with the new tasks as they are written, and nothing else of
    the file changes. *)
Lemma writeUsers_tasks (users : list obj) (i : nat) (u : obj)
    (tasks : list json) :
  file_as_written users -> users !! i = Some u ->
  writeUsers (<[i := <["tasks" := JArr tasks]> u]> users)
  = <[i := <["tasks" := JArr (JSON_written <$> tasks)]> u]> users.
Proof.
  intros Hw Hi. rewrite writeUsers_insert, JSON_written_obj_tasks.
  now rewrite (file_as_written_lookup _ _ _ Hw Hi), Hw.
Qed.

Lemma written_tasks (users : list obj) (i : nat) (u : obj)
    (tasks : list json) :
  file_as_written users -> users !! i = Some u ->
  u !! "tasks" = Some (JArr tasks) -> Forall as_written tasks.
Proof.
  intros Hw Hi Ht. apply as_written_JArr.
  eapply as_written_lookup; [|exact Ht].
  apply JSON_written_obj_as_written. eapply file_as_written_lookup; eauto.
Qed.

Lemma fmap_as_written (l : list json) :
  Forall as_written l -> JSON_written <$> l = l.
Proof.
  intros H. apply as_written_JArr in H. now injection H.
Qed.

(** *** The session cookie *)

Lemma no_token_false (session : option cookie) :
  no_token session = false <->
  exists c, session = Some c /\ truthy_cookie c = true.
Proof.
  unfold no_token. destruct session as [c|]; simpl.
  - destruct (truthy_cookie c) eqn:T; simpl; split.
    + eauto.
    + reflexivity.
    + discriminate.
    + intros (c' & [= <-] & H). congruence.
  - split; [discriminate | intros (c' & H & _); discriminate].
Qed.

Lemma truthy_string (s : string) :
  truthy (Some (JStr s)) = true <-> s <> "".
Proof.
  simpl. destruct (String.eqb_spec s ""); simpl; split; congruence.
Qed.

Lemma authenticate_Next (users : list obj) (session : option cookie)
    (user : obj) :
  authenticate users session = Next user <->
  exists c userId,
    session = Some c /\ truthy_cookie c = true
    /\ decodeUserId c = Ret userId /\ userId <> ""
    /\ findUser users userId = Ret (Some user).
Proof.
  unfold authenticate. split.
  - destruct session as [c|]; [|discriminate].
    destruct (truthy_cookie c) eqn:T; [|discriminate].
    unfold authenticate_try.
    destruct (decodeUserId c) as [userId|] eqn:D; simpl; [|discriminate].
    destruct (String.eqb_spec userId "") as [->|Hne]; simpl; [discriminate|].
    destruct (findUser users userId) as [[u|]|] eqn:F; simpl; try discriminate.
    intros [= ->]. exists c, userId. auto.
  - intros (c & userId & -> & T & D & Hne & F).
    rewrite T. unfold authenticate_try. rewrite D. simpl.
    destruct (String.eqb_spec userId "") as [|_]; [contradiction|]. simpl.
    now rewrite F.
Qed.

Lemma token_of_id (e : env) (id : option json) (s : string) :
  ToString id = Ret s ->
  generateSessionToken e id
  = Ret (Str.text
           (Base64.encode_bytes
              (Str.Buffer_from
                 (s +:+ ":" +:+ pretty (Date_now e) +:+ ":"
                    +:+ Str.hex (randomBytes16 e))))).
Proof. intros H. unfold generateSessionToken. now rewrite H. Qed.

Lemma token_Ret (e : env) (id : option json) (token : string) :
  generateSessionToken e id = Ret token ->
  exists s, ToString id = Ret s
            /\ token = Str.text
                 (Base64.encode_bytes
                    (Str.Buffer_from
                       (s +:+ ":" +:+ pretty (Date_now e) +:+ ":"
                          +:+ Str.hex (randomBytes16 e)))).
Proof.
  unfold generateSessionToken.
  destruct (ToString id) as [s|]; simpl; [|discriminate].
  intros [= <-]. eauto.
Qed.

Lemma token_plain_nonempty (a b : string) : a +:+ ":" +:+ b <> "".
Proof. destruct a; discriminate. Qed.

Lemma token_nonempty (e : env) (id : option json) (token : string) :
  generateSessionToken e id = Ret token -> token <> "".
Proof.
  intros H. destruct (token_Ret _ _ _ H) as (s & _ & ->). intros E.
  apply (f_equal Str.bytes) in E. rewrite bytes_text in E.
  apply encode_bytes_nil, Buffer_from_nil in E.
  now apply token_plain_nonempty in E.
Qed.

(** Decoding a token gives back the text of the user id it was issued
    for, when that text has no ':' and no unpaired surrogate. *)
Lemma decodeUserId_token (e : env) (id : option json) (s token : string) :
  ToString id = Ret s ->
  Str.wellformed s = true ->
  ":"%char ∉ Str.bytes s ->
  generateSessionToken e id = Ret token ->
  decodeUserId (Text token) = Ret s.
Proof.
  intros Hs Hw Hnot Ht. rewrite (token_of_id e id s Hs) in Ht.
  injection Ht as <-.
  unfold decodeUserId. simpl. rewrite bytes_text, decode_encode_bytes.
  change (s +:+ ":" +:+ pretty (Date_now e) +:+ ":"
            +:+ Str.hex (randomBytes16 e))
    with (s +:+ String ":"%char
            (pretty (Date_now e) +:+ ":" +:+ Str.hex (randomBytes16 e))).
  destruct (toString_Buffer_from_field s
              (pretty (Date_now e) +:+ ":" +:+ Str.hex (randomBytes16 e)) Hw)
    as (tail & ->).
  f_equal. now apply first_field_app.
Qed.

Lemma truthy_token (e : env) (id : option json) (token : string) :
  generateSessionToken e id = Ret token -> truthy_cookie (Text token) = true.
Proof. intros H. apply truthy_string. eapply token_nonempty. exact H. Qed.

(** C2, as amended.  The gate answers 401 in every case in which it does
    not let the request through.  Without a session cookie, or with an
    empty one, it issues no cookie operation at all.  With a cookie it
    clears the session cookie when the cookie cannot be decoded (the
    [catch] branch), when the decoded user id is empty, when no stored
    user has that id, and when looking for the user throws (the [catch]
    branch again).  When a stored user has the decoded id, the first such
    record, whole, becomes [req.user] and the request proceeds. *)
Theorem authenticate_gate (users : list obj) (session : option cookie) :
  (no_token session = true ->
     exists r, authenticate users session = Rejected r
               /\ status r = 401%Z /\ cookies r = [])
  /\ (forall c, session = Some c -> truthy_cookie c = true ->
        (decodeUserId c = Throw ->
           exists r, authenticate users session = Rejected r
                     /\ status r = 401%Z /\ clears_session r = true)
        /\ (decodeUserId c = Ret "" ->
              exists r, authenticate users session = Rejected r
                        /\ status r = 401%Z /\ clears_session r = true)
        /\ (forall userId, decodeUserId c = Ret userId -> userId <> "" ->
              (findUser users userId = Ret None ->
                 exists r, authenticate users session = Rejected r
                           /\ status r = 401%Z /\ clears_session r = true)
              /\ (findUser users userId = Throw ->
                    exists r, authenticate users session = Rejected r
                              /\ status r = 401%Z /\ clears_session r = true)
              /\ (forall user, findUser users userId = Ret (Some user) ->
                    authenticate users session = Next user /\ user ∈ users))).
Proof.
  split.
  - unfold authenticate, no_token. destruct session as [c|].
    + destruct (truthy_cookie c); [discriminate|].
      intros _. eexists. repeat split.
    + intros _. eexists. repeat split.
  - intros c -> T. unfold authenticate. rewrite T. unfold authenticate_try.
    split; [|split].
    + intros ->. simpl. eexists. repeat split.
    + intros ->. simpl. eexists. repeat split.
    + intros userId -> Hne. simpl.
      destruct (String.eqb_spec userId "") as [|_]; [contradiction|]. simpl.
      split; [|split].
      * intros ->. simpl. eexists. repeat split.
      * intros ->. simpl. eexists. repeat split.
      * intros user F. rewrite F. simpl. split; [reflexivity|].
        eapply findM_elem_of. exact F.
Qed.

(** C9, as amended.  Issuing a token for a user id without ':' and
    without unpaired surrogate and decoding it gives the user id back,
    whatever the time of issue and the nonce; and what the gate answers to
    such a token is determined by the user id and the users file alone:
    neither the embedded timestamp nor the nonce is looked at, and no
    clock is consulted, so the token does not expire. *)
Theorem session_token_roundtrip (e : env) (userId : string) :
  ":"%char ∉ Str.bytes userId ->
  Str.wellformed userId = true ->
  exists token,
    generateSessionToken e (Some (JStr userId)) = Ret token
    /\ decodeUserId (Text token) = Ret userId
    /\ forall users,
         authenticate users (Some (Text token)) =
         if decide (userId = "") then
           Rejected (reply 401 (error "Invalid session token") [clearSession])
         else
           match findUser users userId with
           | Ret None =>
               Rejected (reply 401 (error "User not found") [clearSession])
           | Ret (Some user) => Next user
           | Throw =>
               Rejected
                 (reply 401 (error "Session validation failed") [clearSession])
           end.
Proof.
  intros Hnot Hw.
  destruct (generateSessionToken e (Some (JStr userId))) as [token|] eqn:G;
    [|discriminate].
  assert (Hdec : decodeUserId (Text token) = Ret userId).
  { eapply (decodeUserId_token e (Some (JStr userId))); eauto. }
  exists token. split; [reflexivity|]. split; [exact Hdec|].
  intros users. unfold authenticate.
  rewrite (truthy_token _ _ _ G). unfold authenticate_try. rewrite Hdec. simpl.
  destruct (decide (userId = "")) as [->|Hne]; [reflexivity|].
  destruct (String.eqb_spec userId "") as [|_]; [contradiction|]. simpl.
  destruct (findUser users userId) as [[user|]|]; reflexivity.
Qed.

(** *** What is sent back about a user *)

Lemma publicUser_no_password (user : obj) :
  publicUser user !! "password" = None.
Proof.
  unfold publicUser. rewrite lookup_insert_ne by discriminate.
  apply lookup_delete_eq.
Qed.

Lemma written_publicUser_no_password (user : obj) :
  JSON_written_obj (publicUser user) !! "password" = None.
Proof.
  now rewrite lookup_JSON_written_obj, publicUser_no_password.
Qed.

Lemma login_success (e : env) (users : list obj) (reqBody : option json)
    (r : response) :
  login e users reqBody = Ret r -> status r = 200%Z ->
  exists user password rememberMe token,
    user ∈ users
    /\ prop reqBody "password" = Ret password
    /\ prop reqBody "rememberMe" = Ret rememberMe
    /\ truthy password = true
    /\ strict_eq (user !! "password") password = true
    /\ generateSessionToken e (user !! "id") = Ret token
    /\ body r = JObj {[ "message" := JStr "Login successful";
                        "user" := JObj (JSON_written_obj (publicUser user)) ]}
    /\ cookies r =
         [SetCookie "session" token
            {| httpOnly := true;
               secure := bool_decide (NODE_ENV e = Some "production");
               maxAge := if truthy rememberMe
                         then Some (1 * 24 * 60 * 60 * 1000)%Z else None;
               sameSite := "lax"; path := "/"; domain := "localhost" |}].
Proof.
  unfold login.
  destruct (prop reqBody "email") as [email|]; [simpl|discriminate].
  destruct (prop reqBody "password") as [password|]; [simpl|discriminate].
  destruct (prop reqBody "rememberMe") as [rememberMe|]; [simpl|discriminate].
  destruct (opt_trim email) as [trimmed|]; [simpl|discriminate].
  destruct (truthy trimmed); simpl; [|intros [= <-]; discriminate].
  destruct (truthy password) eqn:Tp; simpl; [|intros [= <-]; discriminate].
  unfold login_try.
  destruct (find _ users) as [user|] eqn:F; [|intros [= <-]; discriminate].
  destruct (generateSessionToken e (user !! "id")) as [token|] eqn:G; simpl;
    [|intros [= <-]; discriminate].
  intros [= <-] _.
  destruct (find_findIndex _ _ _ F) as (i & _ & Hl & Hp).
  apply andb_prop in Hp as [_ Hp].
  exists user, password, rememberMe, token.
  repeat split; try assumption; try reflexivity.
  apply list_elem_of_lookup. eauto.
Qed.

(** C10.  The user object in a successful login response and in a
    check-session response that returns a user is the stored record, as
    JSON writes it, without its [password] property, although the login
    itself compares the submitted password with the one stored in the
    record. *)
Theorem responses_hide_password (e : env) (users : list obj)
    (reqBody : option json) (session : option cookie) :
  (forall r, login e users reqBody = Ret r -> status r = 200%Z ->
     exists user password,
       user ∈ users
       /\ prop reqBody "password" = Ret password
       /\ strict_eq (user !! "password") password = true
       /\ field (body r) "user"
          = Some (JObj (JSON_written_obj (publicUser user)))
       /\ JSON_written_obj (publicUser user) !! "password" = None)
  /\ (forall v, field (body (check_session users session)) "user" = Some v ->
        v = JNull
        \/ exists user,
             user ∈ users
             /\ v = JObj (JSON_written_obj (publicUser user))
             /\ JSON_written_obj (publicUser user) !! "password" = None).
Proof.
  split.
  - intros r Hr Hs.
    destruct (login_success e users reqBody r Hr Hs)
      as (user & password & rememberMe & token
          & Hin & Hp & _ & _ & Heq & _ & Hb & _).
    exists user, password. repeat split; try assumption.
    + rewrite Hb. simpl. rewrite lookup_insert_ne by discriminate.
      apply lookup_singleton_eq.
    + apply written_publicUser_no_password.
  - intros v. unfold check_session.
    assert (N : forall ops,
              field (body (reply 200 (JObj {[ "user" := JNull ]}) ops)) "user"
              = Some v -> v = JNull).
    { intros ops. rewrite body_reply, JSON_written_singleton. simpl.
      rewrite lookup_singleton_eq. now intros [= <-]. }
    destruct session as [c|]; [|intros H; left; apply (N []); exact H].
    destruct (truthy_cookie c); [|intros H; left; apply (N []); exact H].
    unfold check_session_try.
    destruct (decodeUserId c) as [userId|]; simpl;
      [|intros H; left; apply (N []); exact H].
    destruct (findUser users userId) as [[user|]|] eqn:F; simpl;
      try (intros H; left; apply (N []); exact H).
    rewrite map_fmap_singleton, lookup_singleton_eq. intros [= <-]. right.
    exists user. split; [|split].
    + eapply findM_elem_of. exact F.
    + reflexivity.
    + apply written_publicUser_no_password.
Qed.

(** *** The caller's record in the users file *)

Lemma matches_id (u : obj) (userId : string) :
  (id ← ToString (u !! "id"); Ret (String.eqb id userId)) = Ret true ->
  ToString (u !! "id") = Ret userId.
Proof.
  destruct (ToString (u !! "id")) as [s|]; simpl; [|discriminate].
  intros [= H]. apply String.eqb_eq in H. now subst.
Qed.

Lemma findUserIndex_as_findUser (users : list obj) (user : obj)
    (userId : string) :
  ToString (user !! "id") = Ret userId ->
  findUserIndex users user
  = findIndexM (fun u => id ← ToString (u !! "id");
                         Ret (String.eqb id userId)) users.
Proof.
  intros H. unfold findUserIndex. apply findIndexM_ext. intros u.
  rewrite H. now destruct (ToString (u !! "id")).
Qed.

Lemma caller_index (users : list obj) (session : option cookie) (user : obj) :
  authenticate users session = Next user ->
  exists ui, findUserIndex users user = Ret (Some ui) /\ users !! ui = Some user.
Proof.
  intros Ha. apply authenticate_Next in Ha as (c & userId & _ & _ & _ & _ & Hf).
  destruct (findM_findIndexM _ _ _ Hf) as (ui & Hi & Hl & Hp).
  apply matches_id in Hp.
  exists ui. split; [|exact Hl].
  now rewrite (findUserIndex_as_findUser _ _ _ Hp).
Qed.

(** After a task route has written the file, the gate lets the same
    cookie through, with the record as it has been written. *)
Lemma authenticate_after_write (users : list obj) (session : option cookie)
    (user : obj) (ui : nat) (tasks : list json) :
  file_as_written users ->
  authenticate users session = Next user ->
  findUserIndex users user = Ret (Some ui) ->
  authenticate (writeUsers (<[ui := <["tasks" := JArr tasks]> user]> users))
    session
  = Next (<["tasks" := JArr (JSON_written <$> tasks)]> user).
Proof.
  intros Hw Ha Hi.
  destruct (caller_index _ _ _ Ha) as (ui' & Hi' & Hl).
  assert (ui' = ui) as -> by congruence.
  rewrite (writeUsers_tasks _ _ _ _ Hw Hl).
  apply authenticate_Next.
  apply authenticate_Next in Ha as (c & userId & Hs & T & D & He & Hf).
  exists c, userId. repeat split; try assumption.
  destruct (findM_findIndexM _ _ _ Hf) as (ui' & Hi'' & _ & Hp).
  pose proof (matches_id _ _ Hp) as Hid.
  rewrite (findUserIndex_as_findUser _ _ _ Hid) in Hi.
  apply findM_insert_first; [exact Hi|].
  rewrite lookup_insert_ne by discriminate. exact Hp.
Qed.

Lemma user_at_found (users : list obj) (ui : nat) (user : obj) :
  users !! ui = Some user -> user_at users (Some ui) = Ret user.
Proof. intros H. unfold user_at. simpl. now rewrite H. Qed.

Lemma findTaskIndex_has_id (tasks : list json) (taskId : string) :
  JNull ∉ tasks ->
  findTaskIndex tasks taskId = Ret (findIndex (has_id taskId) tasks).
Proof.
  intros Hnull. unfold findTaskIndex. apply findIndexM_total.
  apply Forall_forall. intros t Ht.
  rewrite prop_field; [reflexivity|]. intros ->. contradiction.
Qed.

Lemma has_id_object (taskId : string) (t : json) :
  has_id taskId t = true ->
  exists o, t = JObj o /\ o !! "id" = Some (JStr taskId).
Proof.
  unfold has_id. destruct t as [| | | | |o]; simpl; try discriminate.
  destruct (o !! "id") as [[| | |s| |]|] eqn:E; simpl; try discriminate.
  intros H. apply String.eqb_eq in H. subst. eauto.
Qed.

(** *** DELETE /api/tasks/:id *)

Lemma delete_absent (users : list obj) (session : option cookie) (user : obj)
    (tasks : list json) (taskId : string) :
  authenticate users session = Next user ->
  user !! "tasks" = Some (JArr tasks) ->
  JNull ∉ tasks ->
  Forall (fun t => has_id taskId t = false) tasks ->
  DELETE_task users session taskId
  = (users, reply 404 (error "Task not found") []).
Proof.
  intros Ha Ht Hnull Habs.
  unfold DELETE_task, protected. rewrite Ha.
  destruct (caller_index _ _ _ Ha) as (ui & Hi & Hl).
  unfold delete_task, delete_task_try. rewrite Hi. simpl.
  rewrite (user_at_found _ _ _ Hl).
  simpl. unfold tasks_array. rewrite Ht. simpl.
  rewrite (findTaskIndex_has_id _ _ Hnull). simpl.
  apply findIndex_None in Habs. now rewrite Habs.
Qed.

Lemma delete_present (users : list obj) (session : option cookie) (user : obj)
    (tasks : list json) (taskId : string) (i : nat) :
  authenticate users session = Next user ->
  user !! "tasks" = Some (JArr tasks) ->
  JNull ∉ tasks ->
  findIndex (has_id taskId) tasks = Some i ->
  exists ui,
    findUserIndex users user = Ret (Some ui)
    /\ DELETE_task users session taskId
       = (writeUsers (<[ui := <["tasks" := JArr (delete i tasks)]> user]> users),
          reply 200 (JObj {[ "message" := JStr "Task deleted" ]}) []).
Proof.
  intros Ha Ht Hnull Hfound.
  destruct (caller_index _ _ _ Ha) as (ui & Hi & Hl).
  exists ui. split; [exact Hi|].
  unfold DELETE_task, protected. rewrite Ha.
  unfold delete_task, delete_task_try. rewrite Hi. simpl.
  rewrite (user_at_found _ _ _ Hl).
  simpl. unfold tasks_array. rewrite Ht. simpl.
  rewrite (findTaskIndex_has_id _ _ Hnull). simpl.
  now rewrite Hfound.
Qed.




(** *** POST /api/tasks, then GET /api/tasks *)

Lemma lookup_set_prop_eq (k : string) (v : option json) (o : obj) :
  set_prop k v o !! k = v.
Proof.
  destruct v; simpl; [apply lookup_insert_eq | apply lookup_delete_eq].
Qed.

Lemma lookup_set_prop_ne (k k' : string) (v : option json) (o : obj) :
  k <> k' -> set_prop k v o !! k' = o !! k'.
Proof.
  intros H. destruct v; simpl;
    [now apply lookup_insert_ne | now apply lookup_delete_ne].
Qed.

Lemma insert_set_prop (k : string) (v : option json) (x : json) (o : obj) :
  <[k := x]> (set_prop k v o) = <[k := x]> o.
Proof.
  destruct v; simpl; [apply insert_insert_eq | apply insert_delete_eq].
Qed.

Lemma create_task_ok (e : env) (users : list obj) (session : option cookie)
    (user : obj) (reqBody : obj) (title : string) :
  authenticate users session = Next user ->
  reqBody !! "title" = Some (JStr title) ->
  Str.trim title <> "" ->
  (user !! "tasks" = None \/ exists l, user !! "tasks" = Some (JArr l)) ->
  exists ui,
    findUserIndex users user = Ret (Some ui)
    /\ users !! ui = Some user
    /\ let task := newTask e (Some (JStr (Str.trim title)))
                     (reqBody !! "date") (reqBody !! "time") (reqBody !! "icon") in
       POST_tasks e users session (Some (JObj reqBody))
       = (writeUsers
            (<[ui := <["tasks" := JArr (array_or_empty (user !! "tasks")
                                        ++ [JObj task])]> user]> users),
          reply 201 (JObj {[ "message" := JStr "Task created";
                             "task" := JObj task ]}) []).
Proof.
  intros Ha Htitle Hne Htasks.
  destruct (caller_index _ _ _ Ha) as (ui & Hi & Hl).
  exists ui. split; [exact Hi|]. split; [exact Hl|]. intros task.
  unfold POST_tasks, protected. rewrite Ha.
  unfold create_task, create_task_try. simpl. rewrite Htitle. simpl.
  destruct (String.eqb_spec (Str.trim title) "") as [|_]; [contradiction|].
  simpl. rewrite Hi. simpl. rewrite (user_at_found _ _ _ Hl). simpl.
  destruct Htasks as [Hn | (l & Hsome)].
  - rewrite Hn. reflexivity.
  - rewrite Hsome. reflexivity.
Qed.

Lemma tasks_or_empty_tasks (user : obj) (tasks : list json) :
  tasks_or_empty (<["tasks" := JArr tasks]> user) = JArr tasks.
Proof. unfold tasks_or_empty. now rewrite lookup_insert_eq. Qed.

(** C3.  For an authenticated caller whose record has no [tasks] property
    or an array there, and a body whose title is a string that is not empty
    once trimmed: POST /api/tasks answers 201 with a task whose id is the
    generated one, whose title is the trimmed title, whose [subTasks] is the
    empty array and whose [percentage] is 0; and, in a users file as the
    server writes it, the GET /api/tasks that follows, on the users file as
    the POST left it, answers with a list that contains that very task. *)
Theorem create_then_list (e : env) (users : list obj)
    (session : option cookie) (user : obj) (reqBody : obj) (title : string) :
  authenticate users session = Next user ->
  reqBody !! "title" = Some (JStr title) ->
  Str.trim title <> "" ->
  (user !! "tasks" = None \/ exists l, user !! "tasks" = Some (JArr l)) ->
  exists (users' : list obj) (task : obj) (tasks : list json),
    POST_tasks e users session (Some (JObj reqBody))
    = (users', reply 201 (JObj {[ "message" := JStr "Task created";
                                  "task" := JObj task ]}) [])
    /\ task !! "id" = Some (JStr (randomUUID e 0))
    /\ task !! "title" = Some (JStr (Str.trim title))
    /\ task !! "subTasks" = Some (JArr [])
    /\ task !! "percentage" = Some (JNum (Num.ofZ 0))
    /\ JObj task ∈ tasks
    /\ (file_as_written users ->
        GET_tasks users' session
        = (users', reply 200 (JObj {[ "tasks" := JArr tasks ]}) [])).
Proof.
  intros Ha Htitle Hne Htasks.
  destruct (create_task_ok e _ _ _ _ _ Ha Htitle Hne Htasks)
    as (ui & Hi & Hl & Hpost).
  simpl in Hpost.
  set (task := newTask e (Some (JStr (Str.trim title)))
                 (reqBody !! "date") (reqBody !! "time") (reqBody !! "icon")) in *.
  set (tasks := array_or_empty (user !! "tasks") ++ [JObj task]) in *.
  exists (writeUsers (<[ui := <["tasks" := JArr tasks]> user]> users)),
         (JSON_written_obj task), (JSON_written <$> tasks).
  split.
  { rewrite Hpost. f_equal. symmetry.
    apply (reply_message_written 201 "Task created" "task" (JObj task)). }
  assert (L : forall k, k <> "title" -> k <> "date" -> k <> "time" -> k <> "icon" ->
              task !! k = ({[ "id" := JStr (randomUUID e 0);
                              "subTasks" := JArr [];
                              "percentage" := JNum (Num.ofZ 0) ]} : obj) !! k).
  { intros k H1 H2 H3 H4. unfold task, newTask.
    now rewrite !lookup_set_prop_ne by congruence. }
  split; [now rewrite lookup_JSON_written_obj, L by discriminate|].
  split.
  { rewrite lookup_JSON_written_obj. unfold task, newTask.
    now rewrite lookup_set_prop_eq. }
  split; [now rewrite lookup_JSON_written_obj, L by discriminate|].
  split; [now rewrite lookup_JSON_written_obj, L by discriminate|].
  split.
  - unfold tasks. rewrite fmap_app. apply elem_of_app. right.
    apply list_elem_of_here.
  - intros Hw. unfold GET_tasks, protected.
    rewrite (authenticate_after_write _ _ _ _ tasks Hw Ha Hi).
    unfold get_tasks. now rewrite tasks_or_empty_tasks.
Qed.

(** *** PUT /api/tasks/:id *)


(** The task as the handler has it in memory when it writes and
    answers. *)
Lemma update_found (e : env) (users : list obj) (session : option cookie)
    (user : obj) (tasks : list json) (taskId : string) (i : nat)
    (originalTask updates : obj) :
  authenticate users session = Next user ->
  user !! "tasks" = Some (JArr tasks) ->
  JNull ∉ tasks ->
  findIndex (has_id taskId) tasks = Some i ->
  tasks !! i = Some (JObj originalTask) ->
  Forall (fun st => normalizable st = true)
         (incoming_subTasks originalTask updates) ->
  exists ui subTasks,
    findUserIndex users user = Ret (Some ui)
    /\ users !! ui = Some user
    /\ normalizeSubTasks e 0 (incoming_subTasks originalTask updates)
       = Ret subTasks
    /\ let task : obj :=
         <["percentage" := JNum (percentageOf subTasks)]>
           (<["subTasks" := JArr subTasks]>
              (set_prop "id" (originalTask !! "id") (updates ∪ originalTask))) in
       PUT_task e users session taskId (Some (JObj updates))
       = (writeUsers
            (<[ui := <["tasks" := JArr (<[i := JObj task]> tasks)]> user]> users),
          reply 200 (JObj {[ "message" := JStr "Task updated";
                             "task" := JObj task ]}) []).
Proof.
  intros Ha Ht Hnull Hfound Horig Hnorm.
  destruct (caller_index _ _ _ Ha) as (ui & Hi & Hl).
  destruct (normalizeSubTasks_spec e _ Hnorm 0) as (subTasks & Hsub & _ & _).
  exists ui, subTasks. split; [exact Hi|]. split; [exact Hl|].
  split; [exact Hsub|]. intros task.
  unfold PUT_task, protected. rewrite Ha.
  unfold update_task, update_task_try. simpl.
  rewrite Hi. simpl. rewrite (user_at_found _ _ _ Hl).
  simpl. unfold tasks_array. rewrite Ht. simpl.
  rewrite (findTaskIndex_has_id _ _ Hnull). simpl.
  rewrite Hfound, Horig. simpl.
  unfold updatedTask. simpl.
  rewrite lookup_set_prop_eq.
  fold (incoming_subTasks originalTask updates). rewrite Hsub. simpl.
  rewrite insert_set_prop. reflexivity.
Qed.

(** Writing a file into which a task has been put gives the same file
    whether the task had been written before or not, and the task is found
    in it as it is written. *)
Lemma writeUsers_task_written (users : list obj) (ui : nat) (user : obj)
    (tasks : list json) (i : nat) (task : obj) :
  writeUsers
    (<[ui := <["tasks" := JArr (<[i := JObj (JSON_written_obj task)]> tasks)]>
               user]> users)
  = writeUsers
      (<[ui := <["tasks" := JArr (<[i := JObj task]> tasks)]> user]> users).
Proof.
  rewrite !writeUsers_insert, !JSON_written_obj_tasks, !list_fmap_insert.
  do 4 f_equal. simpl. f_equal. apply JSON_written_obj_idem.
Qed.

Lemma stored_task_written (users : list obj) (ui : nat) (user : obj)
    (tasks : list json) (i : nat) (t : json) :
  ui < length users -> i < length tasks ->
  stored_task
    (writeUsers (<[ui := <["tasks" := JArr (<[i := t]> tasks)]> user]> users))
    ui i
  = Some (JSON_written t).
Proof.
  intros Hu Hi. unfold stored_task.
  rewrite writeUsers_insert, JSON_written_obj_tasks.
  rewrite list_lookup_insert_eq by (unfold writeUsers; now rewrite length_fmap).
  simpl. rewrite lookup_insert_eq.
  rewrite list_fmap_insert. apply list_lookup_insert_eq.
  now rewrite length_fmap.
Qed.


(** ToBoolean of a number, by the comparisons of IEEE 754: false for what
    equals zero and for what does not equal itself. *)
Lemma truthy_number (x : Num.number) :
  Num.truthy x = negb (Num.eqb x (Num.ofZ 0)) && Num.eqb x x.
Proof.
  destruct x as [s|s| |s m e]; try reflexivity.
  - now destruct s.
  - unfold Num.eqb, SFeqb. simpl.
    destruct s; simpl; rewrite ?Z.compare_refl, ?Pos.compare_refl;
      reflexivity.
Qed.

Lemma JSON_written_normalized (uuid : string) (st : json) :
  JSON_written (normalized uuid st)
  = JObj {[ "id" := if missing_id st then JStr uuid
                    else JSON_written (default JNull (field st "id"));
            "title" := trimmed_or_empty (field st "title");
            "description" := trimmed_or_empty (field st "description");
            "completed" := JBool (truthy (field st "completed")) ]}.
Proof.
  unfold normalized. simpl. rewrite !fmap_insert, map_fmap_singleton.
  f_equal. f_equal; [now destruct (missing_id st)|].
  f_equal; [unfold trimmed_or_empty; now destruct (field st "title") as [[]|]|].
  f_equal. unfold trimmed_or_empty.
  now destruct (field st "description") as [[]|].
Qed.

Lemma trimmed_or_empty_text (v : option json) :
  exists s,
    trimmed_or_empty v = JStr s
    /\ s = match v with Some (JStr t) => Str.trim t | _ => "" end
    /\ Str.ws_len (Str.bytes s) = 0
    /\ Str.ws_len_rev (rev (Str.bytes s)) = 0.
Proof.
  destruct v as [[| | |t| |]|]; simpl;
    try (exists ""; repeat split; reflexivity).
  exists (Str.trim t). split; [reflexivity|]. split; [reflexivity|].
  apply trim_no_white_space.
Qed.

(** C4.  An update of an existing task whose body carries a [subTasks]
    array of subtasks that are not null and whose titles and descriptions
    are strings, null or absent is stored, and the stored subtasks, which
    are also the ones answered, are the submitted ones normalized, as JSON
    writes them, each in its place: a subtask without usable id gets a
    generated id (the subtasks in that case get the successive generated
    ids), an id that is given is kept as JSON writes it; title and
    description are trimmed, so that they neither start nor end with white
    space, or are the empty string when they are not given; and
    [completed] is the boolean its value coerces to: false for a value
    that is absent, [null], [false], a number that equals zero or is NaN,
    or the empty string, and true for any other. *)
Theorem update_normalizes_subTasks (e : env) (users : list obj)
    (session : option cookie) (user : obj) (tasks : list json)
    (taskId : string) (i : nat) (updates : obj) (submitted : list json) :
  authenticate users session = Next user ->
  user !! "tasks" = Some (JArr tasks) ->
  JNull ∉ tasks ->
  findIndex (has_id taskId) tasks = Some i ->
  updates !! "subTasks" = Some (JArr submitted) ->
  Forall (fun st => normalizable st = true) submitted ->
  exists (ui : nat) (users' : list obj) (task : obj) (stored : list json),
    findUserIndex users user = Ret (Some ui)
    /\ PUT_task e users session taskId (Some (JObj updates))
       = (users',
          reply 200 (JObj {[ "message" := JStr "Task updated";
                             "task" := JObj task ]}) [])
    /\ users'
       = writeUsers
           (<[ui := <["tasks" := JArr (<[i := JObj task]> tasks)]> user]> users)
    /\ stored_task users' ui i = Some (JObj task)
    /\ task !! "subTasks" = Some (JArr stored)
    /\ length stored = length submitted
    /\ forall j st, submitted !! j = Some st ->
         let uuid :=
           randomUUID e (length (List.filter missing_id (take j submitted))) in
         stored !! j = Some (JSON_written (normalized uuid st))
         /\ exists (id : json) (title description : string) (completed : bool),
              stored !! j
              = Some (JObj {[ "id" := id;
                              "title" := JStr title;
                              "description" := JStr description;
                              "completed" := JBool completed ]})
              /\ id = (if truthy (field st "id")
                       then JSON_written (default JNull (field st "id"))
                       else JStr uuid)
              /\ title = match field st "title" with
                         | Some (JStr s) => Str.trim s
                         | _ => ""
                         end
              /\ Str.ws_len (Str.bytes title) = 0
              /\ Str.ws_len_rev (rev (Str.bytes title)) = 0
              /\ description = match field st "description" with
                               | Some (JStr s) => Str.trim s
                               | _ => ""
                               end
              /\ Str.ws_len (Str.bytes description) = 0
              /\ Str.ws_len_rev (rev (Str.bytes description)) = 0
              /\ completed = match field st "completed" with
                             | None | Some JNull => false
                             | Some (JBool b) => b
                             | Some (JNum x) =>
                                 negb (Num.eqb x (Num.ofZ 0)) && Num.eqb x x
                             | Some (JStr s) => negb (String.eqb s "")
                             | Some (JArr _) | Some (JObj _) => true
                             end.
Proof.
  intros Ha Ht Hnull Hfound Hsub Hnorm.
  destruct (findIndex_lookup _ _ _ Hfound) as (t & Hti & Hid).
  destruct (has_id_object _ _ Hid) as (originalTask & -> & _).
  assert (Hin : incoming_subTasks originalTask updates = submitted).
  { unfold incoming_subTasks. now rewrite Hsub. }
  destruct (update_found e _ _ _ _ _ _ originalTask updates Ha Ht Hnull Hfound Hti)
    as (ui & stored & Hi & Hl & Hstored & Hput).
  { now rewrite Hin. }
  rewrite Hin in Hstored.
  destruct (normalizeSubTasks_spec e _ Hnorm 0) as (stored' & Hs' & Hlen & Hidx).
  assert (stored' = stored) as -> by congruence.
  simpl in Hput.
  set (task := <["percentage" := JNum (percentageOf stored)]>
                 (<["subTasks" := JArr stored]>
                    (set_prop "id" (originalTask !! "id")
                       (updates ∪ originalTask)))) in *.
  exists ui, (writeUsers
                (<[ui := <["tasks" := JArr (<[i := JObj task]> tasks)]> user]>
                   users)),
         (JSON_written_obj task), (JSON_written <$> stored).
  split; [exact Hi|]. split.
  { rewrite Hput. f_equal. symmetry.
    apply (reply_message_written 200 "Task updated" "task" (JObj task)). }
  split; [symmetry; apply writeUsers_task_written|].
  split.
  { apply stored_task_written.
    - eapply lookup_lt_Some; exact Hl.
    - eapply lookup_lt_Some; exact Hti. }
  split.
  { rewrite lookup_JSON_written_obj. unfold task.
    rewrite lookup_insert_ne by discriminate. now rewrite lookup_insert_eq. }
  split; [now rewrite length_fmap|].
  intros j st Hj uuid.
  assert (Ej : (JSON_written <$> stored) !! j
               = Some (JSON_written (normalized uuid st))).
  { rewrite list_lookup_fmap, (Hidx j st Hj). reflexivity. }
  split; [exact Ej|].
  rewrite Ej, JSON_written_normalized.
  destruct (trimmed_or_empty_text (field st "title")) as (ti & -> & Eti & W1 & W2).
  destruct (trimmed_or_empty_text (field st "description"))
    as (de & -> & Ede & W3 & W4).
  eexists _, ti, de, _. split; [reflexivity|].
  split; [unfold missing_id; now destruct (truthy (field st "id"))|].
  repeat (split; [assumption|]).
  destruct (field st "completed") as [[|b|x|s|l|o]|]; try reflexivity.
  apply truthy_number.
Qed.






(** *** POST /api/login, then GET /api/check-session *)

Lemma find_first_match {A} (p : A -> bool) (l : list A) (x : A) :
  x ∈ l -> p x = true -> exists y, find p l = Some y /\ p y = true.
Proof.
  induction l as [|z l IH]; intros Hin Hp.
  - now apply elem_of_nil in Hin.
  - simpl. destruct (p z) eqn:E; [eauto|].
    apply elem_of_cons in Hin as [->|Hin]; [congruence | now apply IH].
Qed.

(** The cookie set by a successful login, presented to check-session,
    gives back the first user with the same id, provided that id has no
    ':' and no unpaired surrogate; when the id of a record that stands
    before cannot be made a string, check-session answers without a
    user. *)
Lemma check_session_after_login (e : env) (users : list obj)
    (reqBody : option json) (r : response) :
  login e users reqBody = Ret r -> status r = 200%Z ->
  exists user token options s,
    user ∈ users
    /\ cookies r = [SetCookie "session" token options]
    /\ ToString (user !! "id") = Ret s
    /\ (":"%char ∉ Str.bytes s -> Str.wellformed s = true ->
          findUser users s <> Ret None
          /\ check_session users (Some (Text token))
             = match findUser users s with
               | Ret (Some user') =>
                   reply 200 (JObj {[ "user" := JObj (publicUser user') ]}) []
               | Ret None =>
                   reply 200 (JObj {[ "user" := JNull ]}) [clearSession]
               | Throw => reply 200 (JObj {[ "user" := JNull ]}) []
               end).
Proof.
  intros Hr Hs.
  destruct (login_success e users reqBody r Hr Hs)
    as (user & password & rememberMe & token
        & Hin & _ & _ & _ & _ & G & _ & Hc).
  destruct (token_Ret _ _ _ G) as (s & Hid & _).
  eexists user, token, _, s. split; [exact Hin|]. split; [exact Hc|].
  split; [exact Hid|].
  intros Hcolon Hw. split.
  - intros F. pose proof (findM_None _ _ _ F Hin) as Hp. simpl in Hp.
    rewrite Hid in Hp. simpl in Hp. rewrite String.eqb_refl in Hp.
    discriminate.
  - unfold check_session. rewrite (truthy_token _ _ _ G).
    unfold check_session_try.
    rewrite (decodeUserId_token e _ s token Hid Hw Hcolon G). simpl.
    destruct (findUser users s) as [[user'|]|]; reflexivity.
Qed.

End ServerFacts.

(** ** The percentage *)

Lemma percentageOf_rounded (subTasks : list json) :
  percentageOf subTasks =
  if (0 <? Z.of_nat (length subTasks))%Z
  then rounded_ratio (Z.of_nat (completedCount subTasks))
                     (Z.of_nat (length subTasks))
  else Num.ofZ 0.
Proof. reflexivity. Qed.

Lemma calculatePercentage_rounded (subTasks : list Client.SubTask) :
  Client.calculatePercentage subTasks =
  if (0 <? Z.of_nat (length subTasks))%Z
  then rounded_ratio
         (Z.of_nat (length (List.filter Client.completed subTasks)))
         (Z.of_nat (length subTasks))
  else Num.ofZ 0.
Proof.
  unfold Client.calculatePercentage. destruct subTasks; reflexivity.
Qed.

(** Up to 39 subtasks the stored percentage is the one the specification
    words: the rounding of the quotient and of the product never carries
    the value across a half. *)
Lemma rounded_ratio_below_40 (c n : Z) :
  (0 <= c <= n)%Z -> (0 < n < 40)%Z ->
  Num.toZ (rounded_ratio c n) = Some (spec_percentage c n).
Proof.
  intros Hc Hn.
  assert (H : forallb
                (fun n => forallb
                   (fun c => match Num.toZ (rounded_ratio c n) with
                             | Some z => (z =? spec_percentage c n)%Z
                             | None => false
                             end)
                   (seqZ 0 (n + 1)))
                (seqZ 1 39) = true) by (vm_compute; reflexivity).
  rewrite forallb_forall in H.
  assert (Hin : In n (seqZ 1 39)).
  { apply list_elem_of_In, elem_of_seqZ. lia. }
  specialize (H n Hin). rewrite forallb_forall in H.
  assert (Hic : In c (seqZ 0 (n + 1))).
  { apply list_elem_of_In, elem_of_seqZ. lia. }
  specialize (H c Hic).
  destruct (Num.toZ (rounded_ratio c n)) as [z|]; [|discriminate].
  apply Z.eqb_eq in H. now subst.
Qed.

Lemma completedCount_le (subTasks : list json) :
  completedCount subTasks <= length subTasks.
Proof. unfold completedCount. apply length_filter. Qed.

Lemma percentageOf_below_40 (subTasks : list json) :
  length subTasks < 40 ->
  Num.toZ (percentageOf subTasks)
  = Some (spec_percentage (Z.of_nat (completedCount subTasks))
                          (Z.of_nat (length subTasks))).
Proof.
  intros Hlen. rewrite percentageOf_rounded. unfold spec_percentage.
  pose proof (completedCount_le subTasks).
  destruct (Z.ltb_spec 0 (Z.of_nat (length subTasks))).
  - rewrite rounded_ratio_below_40 by lia.
    unfold spec_percentage.
    destruct (Z.ltb_spec 0 (Z.of_nat (length subTasks))); [reflexivity | lia].
  - reflexivity.
Qed.

Lemma calculatePercentage_below_40 (subTasks : list Client.SubTask) :
  length subTasks < 40 ->
  Num.toZ (Client.calculatePercentage subTasks)
  = Some (spec_percentage
            (Z.of_nat (length (List.filter Client.completed subTasks)))
            (Z.of_nat (length subTasks))).
Proof.
  intros Hlen. rewrite calculatePercentage_rounded.
  pose proof (List.filter_length_le Client.completed subTasks).
  destruct (Z.ltb_spec 0 (Z.of_nat (length subTasks))) as [Hpos|Hzero].
  - rewrite rounded_ratio_below_40 by lia. reflexivity.
  - unfold spec_percentage.
    destruct (Z.ltb_spec 0 (Z.of_nat (length subTasks))); [lia | reflexivity].
Qed.

(** Up to 100 subtasks the percentage is a number that JSON writes as it
    is. *)
Lemma JSON_number_as_written (x : Num.number) :
  number_as_written x = true -> JSON_number x = JNum x.
Proof. destruct x as [[|]|[|]| |s m e]; try discriminate; reflexivity. Qed.

Lemma rounded_ratio_as_written (c n : Z) :
  (0 <= c <= n)%Z -> (0 < n <= 100)%Z ->
  number_as_written (rounded_ratio c n) = true.
Proof.
  intros Hc Hn.
  assert (H : forallb
                (fun n => forallb
                   (fun c => number_as_written (rounded_ratio c n))
                   (seqZ 0 (n + 1)))
                (seqZ 1 100) = true) by (vm_compute; reflexivity).
  rewrite forallb_forall in H.
  assert (Hin : In n (seqZ 1 100)).
  { apply list_elem_of_In, elem_of_seqZ. lia. }
  specialize (H n Hin). rewrite forallb_forall in H.
  apply H. apply list_elem_of_In, elem_of_seqZ. lia.
Qed.

Lemma calculatePercentage_as_written (subTasks : list Client.SubTask) :
  length subTasks <= 100 ->
  JSON_number (Client.calculatePercentage subTasks)
  = JNum (Client.calculatePercentage subTasks).
Proof.
  intros Hlen. apply JSON_number_as_written.
  rewrite calculatePercentage_rounded.
  pose proof (List.filter_length_le Client.completed subTasks).
  destruct (Z.ltb_spec 0 (Z.of_nat (length subTasks))) as [Hpos|Hzero].
  - apply rounded_ratio_as_written; lia.
  - reflexivity.
Qed.

(** The processor's binary64 division and multiplication give the same
    product for 23 completed subtasks out of 40, just below 57.5. *)
Example processor_23_of_40 :
  FloatOps.Prim2SF
    (PrimFloat.mul
       (PrimFloat.div (FloatOps.SF2Prim (Num.ofZ 23))
                      (FloatOps.SF2Prim (Num.ofZ 40)))
       (FloatOps.SF2Prim (Num.ofZ 100)))
  = Num.mul (Num.div (Num.ofZ 23) (Num.ofZ 40)) (Num.ofZ 100)
  /\ Num.mul (Num.div (Num.ofZ 23) (Num.ofZ 40)) (Num.ofZ 100)
     = S754_finite false 8092405580431359 (-47)
  /\ (8092405580431359 < 115 * 2 ^ 46)%Z.
Proof. repeat split; vm_compute; reflexivity. Qed.

(** C1, at 23 completed subtasks out of 40.  The update is accepted, the
    40 subtasks are stored with 23 of them completed, and the percentage
    stored with them is 57; the client computes 57 for the same list.
    100 * 23 / 40 is 57.5, which rounds to 58, also when it is evaluated in
    binary64 in that order: the code divides first, the quotient 23 / 40 is
    rounded to a binary64 number, and its rounded product with 100 lies
    below 57.5. *)
Theorem percentage_23_of_40 :
  let out := PUT_task Scenario.Number_toString Scenario.e Scenario.users
               Scenario.bob_session "t1"
               (Some (JObj {[ "subTasks" := JArr Scenario.forty ]})) in
  status out.2 = 200%Z
  /\ (exists stored,
        stored_task out.1 1 0 ≫= (fun t => field t "subTasks")
        = Some (JArr stored)
        /\ length stored = 40 /\ completedCount stored = 23)
  /\ stored_task out.1 1 0 ≫= (fun t => field t "percentage")
     = Some (JNum (Num.ofZ 57))
  /\ Client.calculatePercentage Scenario.forty_client = Num.ofZ 57
  /\ spec_percentage 23 40 = 58%Z
  /\ Num.Math_round (Num.div (Num.mul (Num.ofZ 100) (Num.ofZ 23)) (Num.ofZ 40))
     = Num.ofZ 58.
Proof.
  cbv zeta. split; [vm_compute; reflexivity|].
  split.
  - eexists. split; [vm_compute; reflexivity|].
    split; vm_compute; reflexivity.
  - repeat split; vm_compute; reflexivity.
Qed.

(** ** The colour of the progress circle *)

(** C6, as amended.  For a percentage from 0 to 100, an integer as the
    server stores it, the circle is green when the percentage is above 50
    and red otherwise: 50 itself is red. *)
Theorem progressColor_threshold (percentage : Z) :
  (0 <= percentage <= 100)%Z ->
  Client.progressColor (Num.ofZ percentage)
  = if (50 <? percentage)%Z then Client.green else Client.red.
Proof.
  intros Hp.
  assert (H : forallb
                (fun p => String.eqb
                            (Client.progressColor (Num.ofZ p))
                            (if (50 <? p)%Z then Client.green else Client.red))
                (seqZ 0 101) = true) by (vm_compute; reflexivity).
  rewrite forallb_forall in H.
  apply String.eqb_eq, H, list_elem_of_In, elem_of_seqZ. lia.
Qed.

Lemma progressColor_threshold_witness :
  (0 <= 50 <= 100)%Z
  /\ Client.progressColor (Num.ofZ 50)
     = if (50 <? 50)%Z then Client.green else Client.red.
Proof.
  split; [lia|]. apply (progressColor_threshold 50). lia.
Defined.

(** At 50 the circle is red, not green. *)
Lemma progressColor_50_not_green :
  ~ (Client.progressColor (Num.ofZ 50) = Client.green).
Proof. vm_compute. discriminate. Qed.

(** ** The concrete cases *)

Ltac run := vm_compute; first [reflexivity | discriminate].

(** C5, at a valid login with [rememberMe: true].  The login succeeds and
    sets the session cookie with a [maxAge] of 86 400 000 ms, which is one
    day, where the comment beside the constant announces 30 days;
    check-session with that cookie then returns the user that logged in. *)
Theorem rememberMe_cookie_lasts_one_day :
  exists r token options,
    login Scenario.Number_toString Scenario.e Scenario.users
      (Some (JObj Scenario.credentials)) = Ret r
    /\ status r = 200%Z
    /\ cookies r = [SetCookie "session" token options]
    /\ maxAge options = Some 86400000%Z
    /\ (86400000 = 24 * 60 * 60 * 1000)%Z
    /\ check_session Scenario.Number_toString Scenario.users
         (Some (Text token))
       = reply 200 (JObj {[ "user" := JObj (publicUser Scenario.alice) ]}) []
    /\ publicUser Scenario.alice !! "id" = Some (JStr "u1").
Proof.
  eexists _, _, _. split; [vm_compute; reflexivity|].
  repeat split; run.
Qed.

Lemma authenticate_gate_witness :
  (* no cookie, and an empty one *)
  (no_token None = true
   /\ exists r, authenticate Scenario.Number_toString Scenario.users None
                = Rejected r
                /\ status r = 401%Z /\ cookies r = [])
  /\ (no_token (Some (Text "")) = true
      /\ exists r, authenticate Scenario.Number_toString Scenario.users
                     (Some (Text "")) = Rejected r
                   /\ status r = 401%Z /\ cookies r = [])
  (* the cookie "j:5", which cookie-parser makes the number 5 *)
  /\ (truthy_cookie (Parsed (JNum (Num.ofZ 5)) Throw) = true
      /\ decodeUserId (Parsed (JNum (Num.ofZ 5)) Throw) = Throw
      /\ exists r, authenticate Scenario.Number_toString Scenario.users
                     (Some (Parsed (JNum (Num.ofZ 5)) Throw)) = Rejected r
                   /\ status r = 401%Z /\ clears_session r = true)
  (* the cookie ":x" in base64: an empty user id *)
  /\ (truthy_cookie (Text "Ong=") = true
      /\ decodeUserId (Text "Ong=") = Ret ""
      /\ exists r, authenticate Scenario.Number_toString Scenario.users
                     (Some (Text "Ong=")) = Rejected r
                   /\ status r = 401%Z /\ clears_session r = true)
  (* the cookie "u9:x" in base64: no such user *)
  /\ (truthy_cookie (Text "dTk6eA==") = true
      /\ decodeUserId (Text "dTk6eA==") = Ret "u9"
      /\ "u9" <> ""
      /\ findUser Scenario.Number_toString Scenario.users "u9" = Ret None
      /\ exists r, authenticate Scenario.Number_toString Scenario.users
                     (Some (Text "dTk6eA==")) = Rejected r
                   /\ status r = 401%Z /\ clears_session r = true)
  (* the same cookie when the id of a record cannot be made a string *)
  /\ (findUser Scenario.Number_toString [Scenario.carol] "u9" = Throw
      /\ exists r, authenticate Scenario.Number_toString [Scenario.carol]
                     (Some (Text "dTk6eA==")) = Rejected r
                   /\ status r = 401%Z /\ clears_session r = true)
  (* the cookie "u1:x" in base64: alice *)
  /\ (truthy_cookie (Text "dTE6eA==") = true
      /\ decodeUserId (Text "dTE6eA==") = Ret "u1"
      /\ findUser Scenario.Number_toString Scenario.users "u1"
         = Ret (Some Scenario.alice)
      /\ authenticate Scenario.Number_toString Scenario.users
           (Some (Text "dTE6eA=="))
         = Next Scenario.alice
      /\ Scenario.alice ∈ Scenario.users).
Proof.
  assert (Hu9 : "u9" <> "") by discriminate.
  assert (Hu1 : "u1" <> "") by discriminate.
  split; [|split; [|split; [|split; [|split; [|split]]]]].
  - split; [reflexivity|].
    apply (proj1 (authenticate_gate Scenario.Number_toString Scenario.users None)).
    reflexivity.
  - split; [reflexivity|].
    apply (proj1 (authenticate_gate Scenario.Number_toString Scenario.users
                    (Some (Text "")))).
    reflexivity.
  - split; [reflexivity|]. split; [reflexivity|].
    apply (proj1 (proj2 (authenticate_gate Scenario.Number_toString
                           Scenario.users
                           (Some (Parsed (JNum (Num.ofZ 5)) Throw)))
                    _ eq_refl eq_refl)).
    reflexivity.
  - split; [reflexivity|]. split; [reflexivity|].
    apply (proj1 (proj2 (proj2 (authenticate_gate Scenario.Number_toString
                                  Scenario.users (Some (Text "Ong=")))
                           _ eq_refl eq_refl))).
    reflexivity.
  - split; [reflexivity|]. split; [reflexivity|]. split; [exact Hu9|].
    split; [reflexivity|].
    apply (proj1 (proj2 (proj2 (proj2 (authenticate_gate
                                         Scenario.Number_toString
                                         Scenario.users
                                         (Some (Text "dTk6eA==")))
                                  _ eq_refl eq_refl))
                    "u9" eq_refl Hu9)).
    reflexivity.
  - split; [reflexivity|].
    apply (proj1 (proj2 (proj2 (proj2 (proj2 (authenticate_gate
                                                Scenario.Number_toString
                                                [Scenario.carol]
                                                (Some (Text "dTk6eA==")))
                                         _ eq_refl eq_refl))
                           "u9" eq_refl Hu9))).
    reflexivity.
  - split; [reflexivity|]. split; [reflexivity|]. split; [reflexivity|].
    apply (proj2 (proj2 (proj2 (proj2 (proj2 (authenticate_gate
                                                Scenario.Number_toString
                                                Scenario.users
                                                (Some (Text "dTE6eA==")))
                                         _ eq_refl eq_refl))
                           "u1" eq_refl Hu1))).
    reflexivity.
Defined.

(** Without a session cookie the gate answers 401 and clears nothing. *)
Lemma authenticate_no_cookie_clears_nothing :
  ~ (exists r, authenticate Scenario.Number_toString Scenario.users None
               = Rejected r
               /\ status r = 401%Z /\ clears_session r = true).
Proof.
  intros (r & Hr & _ & Hc). vm_compute in Hr. injection Hr as <-.
  vm_compute in Hc. discriminate.
Qed.

(** The cookie "/w==" is the byte 255, which is not UTF-8: the gate reads
    the user id U+FFFD and lets the request through as the user that has
    this id. *)
Example replacement_character_id :
  decodeUserId (Text "/w==") = Ret Scenario.replaced
  /\ authenticate Scenario.Number_toString
       [{[ "id" := JStr Scenario.replaced ]}] (Some (Text "/w=="))
     = Next {[ "id" := JStr Scenario.replaced ]}.
Proof. split; vm_compute; reflexivity. Qed.

Lemma no_colon_in_u1 : ":"%char ∉ Str.bytes "u1".
Proof.
  intros Hin. repeat (apply elem_of_cons in Hin as [Hin|Hin]; [discriminate|]).
  now apply elem_of_nil in Hin.
Qed.

Lemma session_token_roundtrip_witness :
  (":"%char ∉ Str.bytes "u1")
  /\ Str.wellformed "u1" = true
  /\ exists token,
       generateSessionToken Scenario.Number_toString Scenario.e
         (Some (JStr "u1")) = Ret token
       /\ decodeUserId (Text token) = Ret "u1"
       /\ authenticate Scenario.Number_toString Scenario.users
            (Some (Text token))
          = Next Scenario.alice.
Proof.
  split; [exact no_colon_in_u1|]. split; [reflexivity|].
  destruct (session_token_roundtrip Scenario.Number_toString Scenario.e "u1"
              no_colon_in_u1 eq_refl)
    as (token & Htoken & Hdecode & Hgate).
  exists token. split; [exact Htoken|]. split; [exact Hdecode|].
  rewrite Hgate. reflexivity.
Defined.

(** The token issued for a user id that is an unpaired surrogate, which
    has no ':', decodes to U+FFFD and not to that user id. *)
Lemma session_token_unpaired_surrogate :
  ~ ((":"%char ∉ Str.bytes Scenario.unpaired) ->
     exists token,
       generateSessionToken Scenario.Number_toString Scenario.e
         (Some (JStr Scenario.unpaired)) = Ret token
       /\ decodeUserId (Text token) = Ret Scenario.unpaired).
Proof.
  intros H. destruct H as (token & G & D).
  - intros Hin.
    repeat (apply elem_of_cons in Hin as [Hin|Hin]; [discriminate|]).
    now apply elem_of_nil in Hin.
  - vm_compute in G. injection G as <-. vm_compute in D. discriminate.
Qed.

Example unpaired_surrogate_decodes_to_replacement :
  exists token,
    generateSessionToken Scenario.Number_toString Scenario.e
      (Some (JStr Scenario.unpaired)) = Ret token
    /\ decodeUserId (Text token) = Ret Scenario.replaced.
Proof. eexists. split; vm_compute; reflexivity. Qed.

Lemma responses_hide_password_witness :
  exists r,
    login Scenario.Number_toString Scenario.e Scenario.users
      (Some (JObj Scenario.credentials)) = Ret r
    /\ status r = 200%Z
    /\ exists user password,
         user ∈ Scenario.users
         /\ prop (Some (JObj Scenario.credentials)) "password" = Ret password
         /\ strict_eq (user !! "password") password = true
         /\ field (body r) "user"
            = Some (JObj (JSON_written_obj (publicUser user)))
         /\ JSON_written_obj (publicUser user) !! "password" = None.
Proof.
  eexists. split; [vm_compute; reflexivity|]. split; [reflexivity|].
  apply (proj1 (responses_hide_password Scenario.Number_toString Scenario.e
                  Scenario.users (Some (JObj Scenario.credentials)) None));
    reflexivity.
Defined.

Lemma scenario_as_written : file_as_written Scenario.users.
Proof. vm_compute. reflexivity. Qed.

Lemma create_then_list_witness :
  authenticate Scenario.Number_toString Scenario.users Scenario.alice_session
  = Next Scenario.alice
  /\ ({[ "title" := JStr "  Buy milk " ]} : obj) !! "title"
     = Some (JStr "  Buy milk ")
  /\ Str.trim "  Buy milk " <> ""
  /\ (Scenario.alice !! "tasks" = None
      \/ exists l, Scenario.alice !! "tasks" = Some (JArr l))
  /\ file_as_written Scenario.users
  /\ exists (users' : list obj) (task : obj) (tasks : list json),
       POST_tasks Scenario.Number_toString Scenario.e Scenario.users
         Scenario.alice_session (Some (JObj {[ "title" := JStr "  Buy milk " ]}))
       = (users', reply 201 (JObj {[ "message" := JStr "Task created";
                                     "task" := JObj task ]}) [])
       /\ task !! "id" = Some (JStr "uuid-0")
       /\ task !! "title" = Some (JStr "Buy milk")
       /\ task !! "subTasks" = Some (JArr [])
       /\ task !! "percentage" = Some (JNum (Num.ofZ 0))
       /\ JObj task ∈ tasks
       /\ GET_tasks Scenario.Number_toString users' Scenario.alice_session
          = (users', reply 200 (JObj {[ "tasks" := JArr tasks ]}) []).
Proof.
  assert (H1 : authenticate Scenario.Number_toString Scenario.users
                 Scenario.alice_session = Next Scenario.alice) by run.
  assert (H2 : ({[ "title" := JStr "  Buy milk " ]} : obj) !! "title"
               = Some (JStr "  Buy milk ")) by reflexivity.
  assert (H3 : Str.trim "  Buy milk " <> "") by run.
  assert (H4 : Scenario.alice !! "tasks" = None
               \/ exists l, Scenario.alice !! "tasks" = Some (JArr l))
    by (left; reflexivity).
  repeat (split; [assumption|]).
  split; [exact scenario_as_written|].
  destruct (create_then_list Scenario.Number_toString Scenario.e Scenario.users
              Scenario.alice_session Scenario.alice
              {[ "title" := JStr "  Buy milk " ]} "  Buy milk " H1 H2 H3 H4)
    as (users' & task & tasks & Hpost & Hid & Htitle & Hsub & Hpct & Hin & Hget).
  exists users', task, tasks.
  split; [exact Hpost|]. split; [exact Hid|].
  split; [rewrite Htitle; run|].
  split; [exact Hsub|]. split; [exact Hpct|]. split; [exact Hin|].
  exact (Hget scenario_as_written).
Defined.

Lemma no_null_in_bobs_list : JNull ∉ [JObj Scenario.groceries].
Proof.
  intros Hin. apply elem_of_cons in Hin as [Hin|Hin]; [discriminate|].
  now apply elem_of_nil in Hin.
Qed.

(** The four subtasks of the scenario, submitted together: what is stored
    is, in this order, the subtask with the first generated id, the title
    "milk" without the blanks around it, an empty description, and [true]
    for "yes"; the one with the second generated id, and [false] for the
    [completed] that was not given; the one that keeps its id "s3", with
    its description trimmed and [true] for 1; and the one whose id, the
    number 1e400, has been written as [null], with an empty title for
    [null] and [false] for 0. *)
Lemma update_normalizes_subTasks_witness :
  authenticate Scenario.Number_toString Scenario.users Scenario.bob_session
  = Next Scenario.bob
  /\ Scenario.bob !! "tasks" = Some (JArr [JObj Scenario.groceries])
  /\ (JNull ∉ [JObj Scenario.groceries])
  /\ findIndex (has_id "t1") [JObj Scenario.groceries] = Some 0
  /\ ({[ "subTasks" := JArr Scenario.mixed ]} : obj) !! "subTasks"
     = Some (JArr Scenario.mixed)
  /\ Forall (fun st => normalizable st = true) Scenario.mixed
  /\ exists (users' : list obj) (task : obj),
       PUT_task Scenario.Number_toString Scenario.e Scenario.users
         Scenario.bob_session "t1"
         (Some (JObj {[ "subTasks" := JArr Scenario.mixed ]}))
       = (users',
          reply 200 (JObj {[ "message" := JStr "Task updated";
                             "task" := JObj task ]}) [])
       /\ stored_task users' 1 0 = Some (JObj task)
       /\ task !! "subTasks"
          = Some (JArr
                    [JObj {[ "id" := JStr "uuid-0"; "title" := JStr "milk";
                             "description" := JStr "";
                             "completed" := JBool true ]};
                     JObj {[ "id" := JStr "uuid-1"; "title" := JStr "eggs";
                             "description" := JStr "";
                             "completed" := JBool false ]};
                     JObj {[ "id" := JStr "s3"; "title" := JStr "tea";
                             "description" := JStr "green";
                             "completed" := JBool true ]};
                     JObj {[ "id" := JNull; "title" := JStr "";
                             "description" := JStr "";
                             "completed" := JBool false ]}]).
Proof.
  assert (H1 : authenticate Scenario.Number_toString Scenario.users
                 Scenario.bob_session = Next Scenario.bob) by run.
  assert (H2 : Scenario.bob !! "tasks" = Some (JArr [JObj Scenario.groceries]))
    by reflexivity.
  assert (H4 : findIndex (has_id "t1") [JObj Scenario.groceries] = Some 0)
    by reflexivity.
  assert (H5 : ({[ "subTasks" := JArr Scenario.mixed ]} : obj) !! "subTasks"
               = Some (JArr Scenario.mixed))
    by reflexivity.
  assert (H6 : Forall (fun st => normalizable st = true) Scenario.mixed).
  { repeat constructor. }
  split; [exact H1|]. split; [exact H2|].
  split; [exact no_null_in_bobs_list|].
  split; [exact H4|]. split; [exact H5|]. split; [exact H6|].
  destruct (update_normalizes_subTasks Scenario.Number_toString Scenario.e
              Scenario.users Scenario.bob_session Scenario.bob
              [JObj Scenario.groceries] "t1" 0
              {[ "subTasks" := JArr Scenario.mixed ]} Scenario.mixed
              H1 H2 no_null_in_bobs_list H4 H5 H6)
    as (ui & users' & task & stored & Hui & Hput & _ & Hstored & Hsub & Hlen
        & Hidx).
  assert (Hui1 : ui = 1).
  { vm_compute in Hui. now injection Hui as <-. }
  subst ui.
  exists users', task. split; [exact Hput|]. split; [exact Hstored|].
  rewrite Hsub. do 2 f_equal.
  destruct stored as [|s0 [|s1 [|s2 [|s3 [|s4 stored]]]]]; try discriminate.
  destruct (Hidx 0 _ eq_refl) as (_ & id0 & t0 & d0 & c0 & E0 & -> & -> & _ & _
                                  & -> & _ & _ & ->).
  destruct (Hidx 1 _ eq_refl) as (_ & id1 & t1 & d1 & c1 & E1 & -> & -> & _ & _
                                  & -> & _ & _ & ->).
  destruct (Hidx 2 _ eq_refl) as (_ & id2 & t2 & d2 & c2 & E2 & -> & -> & _ & _
                                  & -> & _ & _ & ->).
  destruct (Hidx 3 _ eq_refl) as (_ & id3 & t3 & d3 & c3 & E3 & -> & -> & _ & _
                                  & -> & _ & _ & ->).
  injection E0 as ->. injection E1 as ->. injection E2 as ->.
  injection E3 as ->.
  vm_compute. reflexivity.
Defined.

(** The two submitted subtasks of the scenario, normalized: the id is the
    generated one, the title is trimmed, the description is the empty
    string, and ["yes"] and a missing value have become [true] and
    [false]. *)
Example normalized_submitted :
  normalized "uuid-0" (Scenario.submitted true)
  = JObj {[ "id" := JStr "uuid-0"; "title" := JStr "milk";
            "description" := JStr ""; "completed" := JBool true ]}
  /\ normalized "uuid-1" (Scenario.submitted false)
     = JObj {[ "id" := JStr "uuid-1"; "title" := JStr "eggs";
               "description" := JStr ""; "completed" := JBool false ]}.
Proof. split; vm_compute; reflexivity. Qed.




(** ** Outside the conditions of the statements above *)

(** A caller whose record has no [tasks] property: GET answers with the
    empty list, DELETE and PUT throw on [.tasks.findIndex] and answer 500,
    and the users file stays as it was. *)
Example without_task_list :
  GET_tasks Scenario.Number_toString Scenario.users Scenario.alice_session
  = (Scenario.users, reply 200 (JObj {[ "tasks" := JArr [] ]}) [])
  /\ DELETE_task Scenario.Number_toString Scenario.users
       Scenario.alice_session "t1"
     = (Scenario.users, reply 500 (error "Failed to delete task") [])
  /\ PUT_task Scenario.Number_toString Scenario.e Scenario.users
       Scenario.alice_session "t1" (Some (JObj {[ "title" := JStr "Food" ]}))
     = (Scenario.users, reply 500 (error "Failed to update task") []).
Proof. repeat split; vm_compute; reflexivity. Qed.

(** A submitted subtask that is [null], or whose title is a number: the
    update throws, answers 500 and stores nothing. *)
Example unacceptable_subtasks :
  PUT_task Scenario.Number_toString Scenario.e Scenario.users
    Scenario.bob_session "t1" (Some (JObj {[ "subTasks" := JArr [JNull] ]}))
  = (Scenario.users, reply 500 (error "Failed to update task") [])
  /\ PUT_task Scenario.Number_toString Scenario.e Scenario.users
       Scenario.bob_session "t1"
       (Some (JObj {[ "subTasks" :=
                        JArr [JObj {[ "title" := JNum (Num.ofZ 5) ]}] ]}))
     = (Scenario.users, reply 500 (error "Failed to update task") []).
Proof. split; vm_compute; reflexivity. Qed.

(** A users file written by hand in which the caller's id is the number
    1e400: the gate lets the cookie "Infinity:x" through, the POST writes
    the id as [null], and the GET that follows is turned away.  The files
    that the server writes have no such number. *)
Example file_not_as_written :
  let users : list obj := [{[ "id" := JNum (S754_infinity false) ]}] in
  let session := Some (Text "SW5maW5pdHk6eA==") in
  let out := POST_tasks Scenario.Number_toString Scenario.e users session
               (Some (JObj {[ "title" := JStr "Buy milk" ]})) in
  ~ file_as_written users
  /\ status out.2 = 201%Z
  /\ out.1 !! 0 ≫= (fun u => u !! "id") = Some JNull
  /\ status (GET_tasks Scenario.Number_toString out.1 session).2 = 401%Z.
Proof.
  cbv zeta. split; [vm_compute; discriminate|].
  repeat split; vm_compute; reflexivity.
Qed.

(* ===================================================================== *)
(** * More of the server *)
(* ===================================================================== *)

Section RouteFacts.

Variable Number_toString : Num.number -> string.

Local Abbreviation ToString := (ToString Number_toString).
Local Abbreviation findUser := (findUser Number_toString).
Local Abbreviation findUserIndex := (findUserIndex Number_toString).
Local Abbreviation authenticate_try := (authenticate_try Number_toString).
Local Abbreviation authenticate := (authenticate Number_toString).
Local Abbreviation generateSessionToken := (generateSessionToken Number_toString).
Local Abbreviation login_try := (login_try Number_toString).
Local Abbreviation login := (login Number_toString).
Local Abbreviation check_session_try := (check_session_try Number_toString).
Local Abbreviation check_session := (check_session Number_toString).
Local Abbreviation create_task_try := (create_task_try Number_toString).
Local Abbreviation create_task := (create_task Number_toString).
Local Abbreviation update_task_try := (update_task_try Number_toString).
Local Abbreviation update_task := (update_task Number_toString).
Local Abbreviation delete_task_try := (delete_task_try Number_toString).
Local Abbreviation delete_task := (delete_task Number_toString).
Local Abbreviation GET_tasks := (GET_tasks Number_toString).
Local Abbreviation POST_tasks := (POST_tasks Number_toString).
Local Abbreviation PUT_task := (PUT_task Number_toString).
Local Abbreviation DELETE_task := (DELETE_task Number_toString).
Local Abbreviation rewritten := (rewritten Number_toString).

(** ** What a task route does to the users file *)

Lemma write_tasks_rewritten (users : list obj) (reqUser user : obj)
    (userIndex : option nat) (tasks : list json) :
  findUserIndex users reqUser = Ret userIndex ->
  user_at users userIndex = Ret user ->
  rewritten users reqUser (write_tasks users userIndex user tasks).
Proof.
  unfold user_at, write_tasks, rewritten. intros Hi.
  destruct userIndex as [i|]; simpl; [|discriminate].
  destruct (users !! i) as [u|] eqn:E; [|discriminate].
  intros [= <-]. exists i, u, tasks. repeat split; assumption.
Qed.

Lemma create_task_effect (e : env) (users : list obj) (reqUser : obj)
    (reqBody : option json) :
  let out := create_task e users reqUser reqBody in
  (out.1 = users /\ (status out.2 = 400%Z \/ status out.2 = 500%Z))
  \/ (status out.2 = 201%Z /\ rewritten users reqUser out.1).
Proof.
  unfold create_task, create_task_try.
  destruct (prop reqBody "title") as [title|]; simpl; [|left; auto].
  destruct (prop reqBody "date") as [date|]; simpl; [|left; auto].
  destruct (prop reqBody "time") as [time|]; simpl; [|left; auto].
  destruct (prop reqBody "icon") as [icon|]; simpl; [|left; auto].
  destruct (opt_trim title) as [trimmed|]; simpl; [|left; auto].
  destruct (truthy trimmed); simpl; [|left; auto].
  destruct (findUserIndex users reqUser) as [userIndex|] eqn:I;
    simpl; [|left; auto].
  destruct (user_at users userIndex) as [user|] eqn:U; simpl; [|left; auto].
  destruct (spread (or_else (user !! "tasks") (Some (JArr [])))) as [old|];
    simpl; [|left; auto].
  right. split; [reflexivity|]. now apply write_tasks_rewritten.
Qed.

Lemma update_task_effect (e : env) (users : list obj) (reqUser : obj)
    (taskId : string) (updates : option json) :
  let out := update_task e users reqUser taskId updates in
  (out.1 = users
   /\ (status out.2 = 400%Z \/ status out.2 = 404%Z \/ status out.2 = 500%Z))
  \/ (status out.2 = 200%Z /\ rewritten users reqUser out.1).
Proof.
  unfold update_task, update_task_try.
  destruct (invalid_payload updates); simpl; [left; auto|].
  destruct (findUserIndex users reqUser) as [userIndex|] eqn:I;
    simpl; [|left; auto].
  destruct (user_at users userIndex) as [user|] eqn:U; simpl; [|left; auto].
  destruct (tasks_array user) as [tasks|]; simpl; [|left; auto].
  destruct (findTaskIndex tasks taskId) as [[i|]|]; simpl; [| left; auto | left; auto].
  destruct (updatedTask e (default JNull (tasks !! i)) (default JNull updates))
    as [task|]; simpl; [|left; auto].
  right. split; [reflexivity|]. now apply write_tasks_rewritten.
Qed.

Lemma delete_task_effect (users : list obj) (reqUser : obj) (taskId : string) :
  let out := delete_task users reqUser taskId in
  (out.1 = users /\ (status out.2 = 404%Z \/ status out.2 = 500%Z))
  \/ (status out.2 = 200%Z /\ rewritten users reqUser out.1).
Proof.
  unfold delete_task, delete_task_try.
  destruct (findUserIndex users reqUser) as [userIndex|] eqn:I;
    simpl; [|left; auto].
  destruct (user_at users userIndex) as [user|] eqn:U; simpl; [|left; auto].
  destruct (tasks_array user) as [tasks|]; simpl; [|left; auto].
  destruct (findTaskIndex tasks taskId) as [[i|]|]; simpl; [| left; auto | left; auto].
  right. split; [reflexivity|]. now apply write_tasks_rewritten.
Qed.

Lemma rejected_is_401 (users : list obj) (session : option cookie)
    (r : response) :
  authenticate users session = Rejected r -> status r = 401%Z.
Proof.
  unfold authenticate.
  destruct session as [c|]; [|intros [= <-]; reflexivity].
  destruct (truthy_cookie c); [|intros [= <-]; reflexivity].
  unfold authenticate_try.
  destruct (decodeUserId c) as [userId|]; simpl; [|intros [= <-]; reflexivity].
  destruct (negb _); [intros [= <-]; reflexivity|].
  destruct (findUser users userId) as [[user|]|]; simpl;
    [discriminate | intros [= <-]; reflexivity ..].
Qed.

(** X1.  The task routes answer with one of a few statuses, and the users
    file is rewritten only together with the status of success: 201 for
    POST, 200 for PUT and DELETE.  Whatever the request, a 400, 401, 404 or
    500 leaves the file as it was, and GET never writes. *)
Theorem task_routes_write_only_on_success (e : env) (users : list obj)
    (session : option cookie) (taskId : string) (reqBody : option json) :
  (let out := POST_tasks e users session reqBody in
   status out.2 ∈ [201; 400; 401; 500]%Z
   /\ (status out.2 <> 201%Z -> out.1 = users))
  /\ (let out := PUT_task e users session taskId reqBody in
      status out.2 ∈ [200; 400; 401; 404; 500]%Z
      /\ (status out.2 <> 200%Z -> out.1 = users))
  /\ (let out := DELETE_task users session taskId in
      status out.2 ∈ [200; 401; 404; 500]%Z
      /\ (status out.2 <> 200%Z -> out.1 = users))
  /\ (let out := GET_tasks users session in
      status out.2 ∈ [200; 401]%Z /\ out.1 = users).
Proof.
  unfold POST_tasks, PUT_task, DELETE_task, GET_tasks, protected.
  destruct (authenticate users session) as [r|user] eqn:A.
  - apply rejected_is_401 in A. simpl. rewrite A.
    repeat split; auto; set_solver.
  - split; [|split; [|split]].
    + destruct (create_task_effect e users user reqBody) as [[E S]|[S _]];
        cbv zeta in *.
      * split; [destruct S as [-> | ->]; set_solver | auto].
      * rewrite S. split; [set_solver | congruence].
    + destruct (update_task_effect e users user taskId reqBody) as [[E S]|[S _]];
        cbv zeta in *.
      * split; [destruct S as [-> | [-> | ->]]; set_solver | auto].
      * rewrite S. split; [set_solver | congruence].
    + destruct (delete_task_effect users user taskId) as [[E S]|[S _]];
        cbv zeta in *.
      * split; [destruct S as [-> | ->]; set_solver | auto].
      * rewrite S. split; [set_solver | congruence].
    + simpl. split; [set_solver | reflexivity].
Qed.

Lemma length_writeUsers (users : list obj) :
  length (writeUsers users) = length users.
Proof. apply length_fmap. Qed.

Lemma rewritten_frame (users : list obj) (session : option cookie)
    (reqUser : obj) (users' : list obj) :
  authenticate users session = Next reqUser ->
  rewritten users reqUser users' ->
  length users' = length users
  /\ forall j u u',
       users !! j = Some u -> users' !! j = Some u' ->
       u' <> JSON_written_obj u ->
       u = reqUser
       /\ forall k, k <> "tasks" -> u' !! k = JSON_written <$> u !! k.
Proof.
  intros A (i & u0 & tasks & Hi & Hu & ->).
  destruct (caller_index Number_toString _ _ _ A) as (i' & Hi' & Hl).
  assert (i' = i) as -> by congruence.
  assert (u0 = reqUser) as -> by congruence.
  split; [now rewrite length_writeUsers, length_insert|].
  intros j u u' Hj Hj' Hne.
  rewrite writeUsers_insert in Hj'.
  destruct (decide (i = j)) as [->|Hij].
  - assert (u = reqUser) as -> by congruence.
    rewrite list_lookup_insert_eq in Hj'
      by (rewrite length_writeUsers; eapply lookup_lt_Some; eauto).
    injection Hj' as <-. split; [reflexivity|].
    intros k Hk. rewrite lookup_JSON_written_obj.
    now rewrite lookup_insert_ne by congruence.
  - rewrite list_lookup_insert_ne in Hj' by exact Hij.
    unfold writeUsers in Hj'. rewrite list_lookup_fmap, Hj in Hj'.
    simpl in Hj'. congruence.
Qed.

(** X2.  A task route leaves the users file as it was or writes it anew,
    with as many records.  When it writes, every record is written as JSON
    writes it, and none but the caller's, the record the auth gate
    attached to the request, is written otherwise; the caller's differs
    from that in nothing but the [tasks] property.  In a users file as the
    server writes it, a record that differs afterwards is therefore the
    caller's, equal to what it was on every other property. *)
Theorem task_routes_touch_only_the_caller (e : env) (users : list obj)
    (session : option cookie) (taskId : string) (reqBody : option json)
    (users' : list obj) :
  users' = (POST_tasks e users session reqBody).1
  \/ users' = (PUT_task e users session taskId reqBody).1
  \/ users' = (DELETE_task users session taskId).1 ->
  length users' = length users
  /\ (users' = users
      \/ forall j u u',
           users !! j = Some u -> users' !! j = Some u' ->
           u' <> JSON_written_obj u ->
           authenticate users session = Next u
           /\ forall k, k <> "tasks" -> u' !! k = JSON_written <$> u !! k)
  /\ (file_as_written users ->
      forall j u u',
        users !! j = Some u -> users' !! j = Some u' -> u' <> u ->
        authenticate users session = Next u
        /\ forall k, k <> "tasks" -> u' !! k = u !! k).
Proof.
  intros Hcase.
  assert (G : length users' = length users
              /\ (users' = users
                  \/ forall j u u',
                       users !! j = Some u -> users' !! j = Some u' ->
                       u' <> JSON_written_obj u ->
                       authenticate users session = Next u
                       /\ forall k, k <> "tasks" ->
                                    u' !! k = JSON_written <$> u !! k)).
  { revert Hcase. unfold POST_tasks, PUT_task, DELETE_task, protected.
    destruct (authenticate users session) as [r|user] eqn:A.
    - simpl. intros [-> | [-> | ->]]; (split; [reflexivity | now left]).
    - assert (G : forall users', users' = users \/ rewritten users user users' ->
                length users' = length users
                /\ (users' = users
                    \/ forall j u u',
                         users !! j = Some u -> users' !! j = Some u' ->
                         u' <> JSON_written_obj u ->
                         Next user = Next u
                         /\ forall k, k <> "tasks" ->
                                      u' !! k = JSON_written <$> u !! k)).
      { intros us [-> | R]; [split; [reflexivity | now left]|].
        destruct (rewritten_frame _ _ _ _ A R) as [L F].
        split; [exact L|]. right. intros j u u' Hj Hj' Hne.
        destruct (F j u u' Hj Hj' Hne) as [-> Hk]. auto. }
      intros [-> | [-> | ->]]; apply G.
      + destruct (create_task_effect e users user reqBody) as [[E _]|[_ R]];
          cbv zeta in *; auto.
      + destruct (update_task_effect e users user taskId reqBody) as [[E _]|[_ R]];
          cbv zeta in *; auto.
      + destruct (delete_task_effect users user taskId) as [[E _]|[_ R]];
          cbv zeta in *; auto. }
  destruct G as [L F]. split; [exact L|]. split; [exact F|].
  intros Hw j u u' Hj Hj' Hne.
  pose proof (file_as_written_lookup _ _ _ Hw Hj) as Hu.
  destruct F as [-> | F]; [congruence|].
  destruct (F j u u' Hj Hj') as [A Hk]; [now rewrite Hu|].
  split; [exact A|]. intros k Hkt.
  rewrite (Hk k Hkt), <- lookup_JSON_written_obj. now rewrite Hu.
Qed.

(** ** POST then DELETE *)

Lemma findIndex_app_last {A} (p : A -> bool) (l : list A) (x : A) :
  Forall (fun y => p y = false) l -> p x = true ->
  findIndex p (l ++ [x]) = Some (length l).
Proof.
  induction 1 as [|y l Hy _ IH]; intros Hx; simpl.
  - now rewrite Hx.
  - rewrite Hy, IH by exact Hx. reflexivity.
Qed.

Lemma newTask_id (e : env) (title date time icon : option json) :
  newTask e title date time icon !! "id" = Some (JStr (randomUUID e 0)).
Proof.
  unfold newTask. now rewrite !lookup_set_prop_ne by discriminate.
Qed.

Lemma findIndex_insert_first {A} (p : A -> bool) (l : list A) (i : nat) (x : A) :
  findIndex p l = Some i -> p x = true -> findIndex p (<[i := x]> l) = Some i.
Proof.
  revert i. induction l as [|y l IH]; intros i; simpl; [discriminate|].
  destruct (p y) eqn:E.
  - intros [= <-] Hp. simpl. now rewrite Hp.
  - destruct (findIndex p l) as [j|] eqn:Ej; [|discriminate].
    intros [= <-] Hp. simpl. rewrite E. now rewrite (IH j eq_refl Hp).
Qed.

Lemma findIndexM_insert_first {A} (p : A -> js bool) (l : list A) (i : nat)
    (x : A) :
  findIndexM p l = Ret (Some i) -> p x = Ret true ->
  findIndexM p (<[i := x]> l) = Ret (Some i).
Proof.
  revert i. induction l as [|y l IH]; intros i; simpl; [discriminate|].
  destruct (p y) as [[|]|] eqn:E; simpl; try discriminate.
  - intros [= <-] Hp. simpl. now rewrite Hp.
  - destruct (findIndexM p l) as [[j|]|] eqn:Ej; simpl; try discriminate.
    intros [= <-] Hp. simpl. rewrite E. simpl.
    now rewrite (IH j eq_refl Hp).
Qed.

Lemma findUserIndex_after_write (users : list obj) (user : obj) (ui : nat)
    (tasks : list json) :
  findUserIndex users user = Ret (Some ui) ->
  findUserIndex (<[ui := <["tasks" := JArr tasks]> user]> users)
    (<["tasks" := JArr tasks]> user) = Ret (Some ui).
Proof.
  intros Hi. unfold findUserIndex in *.
  rewrite lookup_insert_ne by discriminate.
  apply findIndexM_insert_first; [exact Hi|].
  rewrite lookup_insert_ne by discriminate.
  destruct (findIndexM_lookup _ _ _ Hi) as (u & _ & Hp).
  destruct (ToString (u !! "id")) as [s|]; simpl in Hp; [|discriminate].
  destruct (ToString (user !! "id")) as [mine|]; simpl in Hp |- *;
    [|discriminate].
  now rewrite String.eqb_refl.
Qed.

(** X3.  In a users file as the server writes it, creating a task and
    deleting it again gives the users file back: for a caller whose record
    has a task list without null entries in which no task carries the id
    about to be generated, the DELETE of the created id that follows the
    POST answers 200 and leaves the very file the POST started from. *)
Theorem create_then_delete (e : env) (users : list obj)
    (session : option cookie) (user : obj) (tasks : list json)
    (reqBody : obj) (title : string) :
  file_as_written users ->
  authenticate users session = Next user ->
  user !! "tasks" = Some (JArr tasks) ->
  JNull ∉ tasks ->
  Forall (fun t => has_id (randomUUID e 0) t = false) tasks ->
  reqBody !! "title" = Some (JStr title) ->
  Str.trim title <> "" ->
  status (POST_tasks e users session (Some (JObj reqBody))).2 = 201%Z
  /\ DELETE_task (POST_tasks e users session (Some (JObj reqBody))).1
       session (randomUUID e 0)
     = (users, reply 200 (JObj {[ "message" := JStr "Task deleted" ]}) []).
Proof.
  intros Hw A Ht Hnull Hfresh Htitle Hne.
  destruct (create_task_ok Number_toString e _ _ _ _ _ A Htitle Hne)
    as (ui & Hi & Hl & Hpost); [right; eauto|].
  cbv zeta in Hpost. rewrite Ht in Hpost. simpl array_or_empty in Hpost.
  set (task := newTask e (Some (JStr (Str.trim title))) (reqBody !! "date")
                 (reqBody !! "time") (reqBody !! "icon")) in *.
  pose proof (written_tasks _ _ _ _ Hw Hl Ht) as Hwt.
  assert (Hfile : writeUsers
                    (<[ui := <["tasks" := JArr (tasks ++ [JObj task])]> user]>
                       users)
                  = <[ui := <["tasks" :=
                                JArr (tasks ++ [JObj (JSON_written_obj task)])]>
                               user]> users).
  { rewrite (writeUsers_tasks _ _ _ _ Hw Hl), fmap_app.
    now rewrite (fmap_as_written _ Hwt). }
  set (task' := JSON_written_obj task) in *.
  set (user1 := <["tasks" := JArr (tasks ++ [JObj task'])]> user) in *.
  set (users1 := <[ui := user1]> users) in *.
  rewrite Hpost. split; [reflexivity|].
  cbn [fst]. rewrite Hfile.
  assert (A1 : authenticate users1 session = Next user1).
  { pose proof (authenticate_after_write Number_toString _ _ _ _
                  (tasks ++ [JObj task]) Hw A Hi) as A1.
    rewrite Hfile in A1. rewrite A1. unfold user1. do 3 f_equal.
    rewrite fmap_app. now rewrite (fmap_as_written _ Hwt). }
  destruct (delete_present Number_toString users1 session user1
              (tasks ++ [JObj task']) (randomUUID e 0) (length tasks))
    as (ui2 & Hi2 & Hdel).
  - exact A1.
  - apply lookup_insert_eq.
  - intros Hin. apply elem_of_app in Hin as [Hin|Hin]; [contradiction|].
    apply list_elem_of_singleton in Hin. discriminate.
  - apply findIndex_app_last; [exact Hfresh|].
    unfold has_id, task'. simpl. rewrite lookup_JSON_written_obj.
    unfold task. rewrite newTask_id. simpl.
    apply String.eqb_refl.
  - rewrite Hdel. f_equal.
    unfold users1, user1 in Hi2.
    rewrite (findUserIndex_after_write _ _ _ _ Hi) in Hi2.
    injection Hi2 as <-.
    rewrite (delete_middle tasks [] (JObj task')), app_nil_r.
    unfold users1, user1. rewrite list_insert_insert_eq, insert_insert_eq.
    rewrite (insert_id user "tasks" (JArr tasks) Ht).
    rewrite (list_insert_id _ _ _ Hl). exact Hw.
Qed.

(** ** PUT twice *)

Lemma not_elem_of_insert_object (l : list json) (i : nat) (task : obj) :
  JNull ∉ l -> JNull ∉ <[i := JObj task]> l.
Proof.
  intros Hn Hin. apply list_elem_of_lookup in Hin as (j & Hj).
  destruct (decide (i = j)) as [->|Hij].
  - destruct (decide (j < length l)) as [Hlt|Hge].
    + rewrite list_lookup_insert_eq in Hj by exact Hlt. discriminate.
    + rewrite list_insert_ge in Hj by lia.
      apply Hn, list_elem_of_lookup. eauto.
  - rewrite list_lookup_insert_ne in Hj by exact Hij.
    apply Hn, list_elem_of_lookup. eauto.
Qed.

Lemma has_written_id_not_missing (st : json) :
  has_written_id st -> missing_id st = false.
Proof.
  intros (id & Hid & Ht & _). unfold missing_id. now rewrite Hid, Ht.
Qed.

(** Subtasks that all come with an id are normalized without an id being
    drawn: alike whatever the ids that would be drawn. *)
Lemma normalizeSubTasks_with_ids (e1 e2 : env) (k1 k2 : nat)
    (sts out : list json) :
  Forall has_written_id sts ->
  normalizeSubTasks e1 k1 sts = Ret out ->
  normalizeSubTasks e2 k2 sts = Ret out.
Proof.
  intros Hid H.
  pose proof (normalizeSubTasks_Ret e1 sts k1 out H) as Hn.
  destruct (normalizeSubTasks_spec e1 sts Hn k1) as (r1 & Hr1 & Hlen1 & Hidx1).
  destruct (normalizeSubTasks_spec e2 sts Hn k2) as (r2 & Hr2 & Hlen2 & Hidx2).
  assert (r1 = out) as -> by congruence.
  rewrite Hr2. f_equal. apply list_eq. intros j.
  destruct (sts !! j) as [st|] eqn:Ej.
  - rewrite (Hidx1 j st Ej), (Hidx2 j st Ej). f_equal.
    unfold normalized.
    rewrite (has_written_id_not_missing st); [reflexivity|].
    eapply Forall_lookup_1; eauto.
  - apply lookup_ge_None in Ej.
    rewrite (lookup_ge_None_2 r2), (lookup_ge_None_2 out) by lia.
    reflexivity.
Qed.

(** X4.  PUT is idempotent when every subtask to store comes with an id
    of its own: in a users file as the server writes it, for a caller
    whose record has a task list without null entries, a task in it with
    the id, and a body that is an object, sending the same update a second
    time, at another time and with other ids at hand, is answered as the
    first time and leaves the users file as the first update left it. *)
Theorem update_twice (e1 e2 : env) (users : list obj)
    (session : option cookie) (user : obj) (tasks : list json)
    (taskId : string) (i : nat) (originalTask updates : obj) :
  file_as_written users ->
  authenticate users session = Next user ->
  user !! "tasks" = Some (JArr tasks) ->
  JNull ∉ tasks ->
  findIndex (has_id taskId) tasks = Some i ->
  tasks !! i = Some (JObj originalTask) ->
  Forall (fun st => normalizable st = true)
         (incoming_subTasks originalTask updates) ->
  Forall has_written_id (incoming_subTasks originalTask updates) ->
  let out := PUT_task e1 users session taskId (Some (JObj updates)) in
  status out.2 = 200%Z
  /\ PUT_task e2 out.1 session taskId (Some (JObj updates)) = out.
Proof.
  intros Hw A Ht Hnull Hfound Horig Hnorm Hids.
  destruct (update_found Number_toString e1 _ _ _ _ _ _ _ _
              A Ht Hnull Hfound Horig Hnorm)
    as (ui & s1 & Hi & Hl & Hs1 & Hput).
  cbv zeta in Hput |- *.
  assert (Hid : originalTask !! "id" = Some (JStr taskId)).
  { destruct (findIndex_lookup _ _ _ Hfound) as (t & Hti & Hp).
    destruct (has_id_object _ _ Hp) as (o & -> & Ho). congruence. }
  rewrite Hid in Hput. simpl set_prop in Hput.
  set (task1 := <["percentage" := JNum (percentageOf s1)]>
                  (<["subTasks" := JArr s1]>
                     (<["id" := JStr taskId]> (updates ∪ originalTask)))) in *.
  pose proof (written_tasks _ _ _ _ Hw Hl Ht) as Hwt.
  assert (Hfile : writeUsers
                    (<[ui := <["tasks" := JArr (<[i := JObj task1]> tasks)]>
                               user]> users)
                  = <[ui := <["tasks" :=
                                JArr (<[i := JObj (JSON_written_obj task1)]>
                                        tasks)]> user]> users).
  { rewrite (writeUsers_tasks _ _ _ _ Hw Hl), list_fmap_insert.
    now rewrite (fmap_as_written _ Hwt). }
  set (t1 := JSON_written_obj task1) in *.
  set (tasks1 := <[i := JObj t1]> tasks) in *.
  set (user1 := <["tasks" := JArr tasks1]> user) in *.
  set (users1 := <[ui := user1]> users) in *.
  rewrite Hput. split; [reflexivity|].
  cbn [fst]. rewrite Hfile.
  assert (Hw1 : file_as_written users1).
  { rewrite <- Hfile. apply file_as_written_writeUsers. }
  assert (A1 : authenticate users1 session = Next user1).
  { pose proof (authenticate_after_write Number_toString _ _ _ _
                  (<[i := JObj task1]> tasks) Hw A Hi) as A1.
    rewrite Hfile in A1. rewrite A1. unfold user1, tasks1. do 3 f_equal.
    rewrite list_fmap_insert. now rewrite (fmap_as_written _ Hwt). }
  assert (Hid1 : t1 !! "id" = Some (JStr taskId)).
  { unfold t1, task1. rewrite lookup_JSON_written_obj.
    rewrite !lookup_insert_ne by discriminate.
    now rewrite lookup_insert_eq. }
  assert (Hnormal : Forall normal_subTask s1).
  { eapply normalizeSubTasks_stores_normal; eassumption. }
  assert (Hs1w : JSON_written <$> s1 = s1).
  { apply fmap_as_written.
    eapply Forall_impl; [exact Hnormal|]. apply normal_subTask_as_written. }
  assert (Hst1 : t1 !! "subTasks" = Some (JArr s1)).
  { unfold t1, task1. rewrite lookup_JSON_written_obj.
    rewrite lookup_insert_ne by discriminate.
    rewrite lookup_insert_eq. simpl. now rewrite Hs1w. }
  assert (Hs2 : normalizeSubTasks e2 0 (incoming_subTasks t1 updates) = Ret s1).
  { unfold incoming_subTasks, or_else in *. rewrite Hst1.
    destruct (truthy (updates !! "subTasks")).
    - eapply normalizeSubTasks_with_ids; eassumption.
    - simpl. now apply normalizeSubTasks_normal. }
  destruct (update_found Number_toString e2 users1 session user1 tasks1 taskId i
              t1 updates) as (ui2 & s2 & Hi2 & _ & Hs2' & Hput2).
  - exact A1.
  - apply lookup_insert_eq.
  - now apply not_elem_of_insert_object.
  - apply findIndex_insert_first; [exact Hfound|].
    unfold has_id. simpl. rewrite Hid1. simpl. apply String.eqb_refl.
  - apply list_lookup_insert_eq. eapply lookup_lt_Some. exact Horig.
  - eapply normalizeSubTasks_Ret. exact Hs2.
  - cbv zeta in Hput2. rewrite Hput2.
    assert (s2 = s1) as -> by congruence.
    unfold users1, user1 in Hi2.
    rewrite (findUserIndex_after_write _ _ _ _ Hi) in Hi2. injection Hi2 as <-.
    rewrite Hid1. simpl set_prop.
    set (task2 := <["percentage" := JNum (percentageOf s1)]>
                    (<["subTasks" := JArr s1]>
                       (<["id" := JStr taskId]> (updates ∪ t1)))).
    assert (Hsame : JSON_written_obj task2 = t1).
    { apply map_eq. intros k. unfold t1.
      rewrite !lookup_JSON_written_obj. unfold task2, task1.
      destruct (decide (k = "percentage")) as [->|Hp].
      { now rewrite !lookup_insert_eq. }
      rewrite !(lookup_insert_ne _ "percentage") by congruence.
      destruct (decide (k = "subTasks")) as [->|Hs].
      { now rewrite !lookup_insert_eq. }
      rewrite !(lookup_insert_ne _ "subTasks") by congruence.
      destruct (decide (k = "id")) as [->|Hk].
      { now rewrite !lookup_insert_eq. }
      rewrite !(lookup_insert_ne _ "id") by congruence.
      destruct (updates !! k) as [v|] eqn:U.
      - now rewrite !(lookup_union_Some_l _ _ _ _ U).
      - rewrite !lookup_union_r by exact U.
        unfold t1, task1. rewrite lookup_JSON_written_obj.
        rewrite !lookup_insert_ne by congruence.
        rewrite lookup_union_r by exact U.
        destruct (originalTask !! k) as [v|]; simpl; [|reflexivity].
        now rewrite JSON_written_idem. }
    f_equal.
    + rewrite <- (writeUsers_task_written users1 ui user1 tasks1 i task2).
      rewrite Hsame.
      unfold tasks1 at 1. rewrite list_insert_insert_eq. fold tasks1.
      unfold user1 at 1. rewrite insert_insert_eq. fold user1.
      unfold users1 at 1. rewrite list_insert_insert_eq. fold users1.
      exact Hw1.
    + rewrite <- (reply_message_written 200 "Task updated" "task" (JObj task2)).
      rewrite <- (reply_message_written 200 "Task updated" "task" (JObj task1)).
      simpl JSON_written. fold (JSON_written_obj task2).
      fold (JSON_written_obj task1). now rewrite Hsame.
Qed.

(** ** The auth gate, check-session and login *)

(** X5.  The auth gate and check-session read the cookie alike, up to
    three cases.  When the gate lets the request through with a user,
    check-session answers with that user, password removed.  When the gate
    rejects because there is no cookie, or an empty one, both answer
    without a cookie operation; when it rejects a cookie, it clears the
    cookie, and check-session answers [user: null] and clears the cookie
    as well when no stored user has the decoded id.  They differ on a
    cookie that cannot be decoded and when looking for the user throws:
    check-session then answers [user: null] and leaves the cookie; and on
    a cookie whose decoded user id is empty: check-session looks the empty
    id up and answers with the stored user that has it, if there is
    one. *)
Theorem gate_and_check_session (users : list obj) (session : option cookie) :
  (forall user,
     authenticate users session = Next user ->
     check_session users session
     = reply 200 (JObj {[ "user" := JObj (publicUser user) ]}) [])
  /\ (forall r,
        authenticate users session = Rejected r ->
        (no_token session = true ->
           cookies r = []
           /\ check_session users session
              = reply 200 (JObj {[ "user" := JNull ]}) [])
        /\ (forall c,
              session = Some c -> truthy_cookie c = true ->
              cookies r = [clearSession]
              /\ (decodeUserId c = Throw ->
                    check_session users session
                    = reply 200 (JObj {[ "user" := JNull ]}) [])
              /\ (forall userId,
                    decodeUserId c = Ret userId ->
                    (findUser users userId = Throw ->
                       check_session users session
                       = reply 200 (JObj {[ "user" := JNull ]}) [])
                    /\ (findUser users userId = Ret None ->
                          check_session users session
                          = reply 200 (JObj {[ "user" := JNull ]})
                              [clearSession])
                    /\ (forall user,
                          findUser users userId = Ret (Some user) ->
                          userId = ""
                          /\ check_session users session
                             = reply 200
                                 (JObj {[ "user" := JObj (publicUser user) ]})
                                 [])))).
Proof.
  split.
  - intros user A.
    apply authenticate_Next in A as (c & userId & -> & T & D & _ & Hf).
    unfold check_session, check_session_try. rewrite T, D. simpl.
    now rewrite Hf.
  - intros r A. split.
    + intros Hn. unfold authenticate in A. unfold check_session.
      unfold no_token in Hn. destruct session as [c|].
      * destruct (truthy_cookie c); [discriminate|].
        injection A as <-. split; reflexivity.
      * injection A as <-. split; reflexivity.
    + intros c -> T. unfold authenticate in A. unfold check_session.
      rewrite T in A |- *. unfold authenticate_try in A.
      unfold check_session_try.
      destruct (decodeUserId c) as [userId|] eqn:D; simpl in A |- *.
      * destruct (String.eqb_spec userId "") as [->|Hne]; simpl in A.
        -- injection A as <-. split; [reflexivity|].
           split; [discriminate|].
           intros u [= <-]. split; [|split].
           ++ now intros ->.
           ++ now intros ->.
           ++ intros user ->. auto.
        -- destruct (findUser users userId) as [[user|]|] eqn:F;
             simpl in A; try discriminate; injection A as <-;
             (split; [reflexivity|]); (split; [discriminate|]);
             intros u [= <-]; rewrite F;
             (split; [|split]); try discriminate; try reflexivity.
      * injection A as <-. split; [reflexivity|]. split; [reflexivity|].
        intros u Hu. discriminate.
Qed.

Lemma prop_Throw (v : option json) (k : string) :
  prop v k = Throw <-> v = None \/ v = Some JNull.
Proof.
  destruct v as [[| | | | |o]|]; simpl; split;
    try discriminate; auto; intros [H|H]; discriminate.
Qed.

Lemma prop_Ret_other (v : option json) (k k' : string) (x : option json) :
  prop v k = Ret x -> exists y, prop v k' = Ret y.
Proof. destruct v as [[| | | | |o]|]; simpl; try discriminate; eauto. Qed.

Lemma login_Throw_email (e : env) (users : list obj) (reqBody email : option json) :
  prop reqBody "email" = Ret email ->
  (login e users reqBody = Throw <-> text_or_absent email = false).
Proof.
  intros He. unfold login. rewrite He. simpl.
  destruct (prop_Ret_other _ _ "password" _ He) as (password & ->).
  destruct (prop_Ret_other _ _ "rememberMe" _ He) as (rememberMe & ->).
  simpl.
  destruct email as [[| | |s| |]|]; simpl;
    try (split; [reflexivity | reflexivity]);
    (split; [|discriminate]).
  all: repeat match goal with
              | |- context [if ?b then _ else _] => destruct b
              | |- context [match login_try ?a ?b ?c ?d ?f with _ => _ end] =>
                  destruct (login_try a b c d f)
              end; discriminate.
Qed.

(** X6.  A login that is answered is answered with 200, 400, 401 or 500,
    and the session cookie is set with 200 and only then.  It is answered
    500, from the [catch] of the handler, exactly when the credentials are
    those of a stored user and the id of the first such user cannot be
    made a string.  The handler throws before its [try], leaving the
    request without an answer of its own, exactly when the body is missing
    or null or the email is neither a string nor null nor absent. *)
Theorem login_outcomes (e : env) (users : list obj) (reqBody : option json) :
  (login e users reqBody = Throw <->
   reqBody = None \/ reqBody = Some JNull
   \/ exists email, prop reqBody "email" = Ret email
                    /\ text_or_absent email = false)
  /\ (forall r, login e users reqBody = Ret r ->
        (status r = 200%Z
         /\ exists token options, cookies r = [SetCookie "session" token options])
        \/ ((status r = 400%Z \/ status r = 401%Z \/ status r = 500%Z)
            /\ cookies r = []))
  /\ (forall r, login e users reqBody = Ret r ->
        (status r = 500%Z <->
         exists email trimmed password user,
           prop reqBody "email" = Ret email
           /\ opt_trim email = Ret trimmed
           /\ truthy trimmed = true
           /\ prop reqBody "password" = Ret password
           /\ truthy password = true
           /\ find (fun u => strict_eq (u !! "email") trimmed
                             && strict_eq (u !! "password") password) users
              = Some user
           /\ ToString (user !! "id") = Throw)).
Proof.
  split; [|split].
  - destruct (prop reqBody "email") as [email|] eqn:He.
    + rewrite (login_Throw_email e users _ _ He). split.
      * intros H. right. right. eauto.
      * intros [->|[->|(em & [= <-] & H)]]; try discriminate. exact H.
    + split.
      * intros _. apply prop_Throw in He. tauto.
      * intros _. unfold login. now rewrite He.
  - intros r. unfold login.
    destruct (prop reqBody "email") as [email|]; [simpl|discriminate].
    destruct (prop reqBody "password") as [password|]; [simpl|discriminate].
    destruct (prop reqBody "rememberMe") as [rememberMe|]; [simpl|discriminate].
    destruct (opt_trim email) as [trimmed|]; [simpl|discriminate].
    destruct (negb (truthy trimmed) || negb (truthy password));
      [intros [= <-]; right; auto|].
    unfold login_try.
    destruct (find _ users) as [user|]; [|intros [= <-]; right; auto].
    destruct (generateSessionToken e (user !! "id")) as [token|]; simpl;
      intros [= <-]; [left | right; auto].
    split; [reflexivity | eauto].
  - intros r. unfold login.
    destruct (prop reqBody "email") as [email|] eqn:He; [simpl|discriminate].
    destruct (prop reqBody "password") as [password|] eqn:Hp;
      [simpl|discriminate].
    destruct (prop reqBody "rememberMe") as [rememberMe|]; [simpl|discriminate].
    destruct (opt_trim email) as [trimmed|] eqn:Ht; [simpl|discriminate].
    assert (Same : forall em tr pw,
              Ret email = Ret em -> opt_trim em = Ret tr -> Ret password = Ret pw ->
              em = email /\ tr = trimmed /\ pw = password).
    { intros em tr pw [= <-] E2 [= <-]. rewrite Ht in E2.
      now injection E2 as <-. }
    destruct (truthy trimmed) eqn:Tt; simpl.
    2:{ intros [= <-]. split; [discriminate|].
        intros (em & tr & pw & u & E1 & E2 & H & E4 & _).
        destruct (Same _ _ _ E1 E2 E4) as (-> & -> & ->). congruence. }
    destruct (truthy password) eqn:Tp; simpl.
    2:{ intros [= <-]. split; [discriminate|].
        intros (em & tr & pw & u & E1 & E2 & _ & E4 & H & _).
        destruct (Same _ _ _ E1 E2 E4) as (-> & -> & ->). congruence. }
    unfold login_try.
    destruct (find _ users) as [user|] eqn:F.
    2:{ intros [= <-]. split; [discriminate|].
        intros (em & tr & pw & u & E1 & E2 & _ & E4 & _ & H & _).
        destruct (Same _ _ _ E1 E2 E4) as (-> & -> & ->). congruence. }
    unfold generateSessionToken.
    destruct (ToString (user !! "id")) as [s|] eqn:S; simpl; intros [= <-].
    + split; [discriminate|].
      intros (em & tr & pw & u & E1 & E2 & _ & E4 & _ & H & H').
      destruct (Same _ _ _ E1 E2 E4) as (-> & -> & ->). congruence.
    + split; [|reflexivity]. intros _.
      exists email, trimmed, password, user. auto 10.
Qed.

(** X7.  Login trims the submitted email before it compares: blanks around
    the email make no difference to the answer. *)
Theorem login_trims_email (e : env) (users : list obj) (reqBody : obj)
    (email : string) :
  login e users (Some (JObj (<["email" := JStr email]> reqBody)))
  = login e users (Some (JObj (<["email" := JStr (Str.trim email)]> reqBody))).
Proof.
  unfold login. simpl.
  rewrite !lookup_insert_eq, !lookup_insert_ne by discriminate. simpl.
  now rewrite trim_idem.
Qed.

(** X8.  The cookie of a successful login opens the task routes: when the
    id of the user that logged in, turned into a string, is not empty and
    has no ':' and no unpaired surrogate in it, and that user is the first
    stored record with that id, GET /api/tasks with the cookie answers 200
    with the tasks that the login response carried. *)
Theorem login_then_list (e : env) (users : list obj) (reqBody : option json)
    (r : response) :
  login e users reqBody = Ret r -> status r = 200%Z ->
  exists user token options userId,
    cookies r = [SetCookie "session" token options]
    /\ field (body r) "user" = Some (JObj (JSON_written_obj (publicUser user)))
    /\ ToString (user !! "id") = Ret userId
    /\ (":"%char ∉ Str.bytes userId ->
        Str.wellformed userId = true ->
        userId <> "" ->
        findUser users userId = Ret (Some user) ->
        exists tasks,
          JSON_written_obj (publicUser user) !! "tasks"
          = Some (JSON_written tasks)
          /\ GET_tasks users (Some (Text token))
             = (users, reply 200 (JObj {[ "tasks" := tasks ]}) [])
          /\ field (body (reply 200 (JObj {[ "tasks" := tasks ]}) [])) "tasks"
             = Some (JSON_written tasks)).
Proof.
  intros Hr Hs.
  destruct (login_success Number_toString e users reqBody r Hr Hs)
    as (user & password & rememberMe & token
        & Hin & _ & _ & _ & _ & G & Hb & Hc).
  destruct (token_Ret Number_toString _ _ _ G) as (userId & Hid & _).
  eexists user, token, _, userId. split; [exact Hc|]. split.
  { rewrite Hb. simpl. rewrite lookup_insert_ne by discriminate.
    apply lookup_singleton_eq. }
  split; [exact Hid|].
  intros Hcolon Hwf Hne Hfirst.
  exists (tasks_or_empty user). split; [|split].
  - rewrite lookup_JSON_written_obj.
    unfold publicUser. rewrite lookup_insert_eq. simpl. do 2 f_equal.
    unfold tasks_or_empty. now rewrite lookup_delete_ne by discriminate.
  - unfold GET_tasks, protected.
    assert (A : authenticate users (Some (Text token)) = Next user).
    { apply authenticate_Next. exists (Text token), userId.
      split; [reflexivity|].
      split; [eapply truthy_token; exact G|].
      split; [eapply decodeUserId_token; eauto|].
      split; assumption. }
    now rewrite A.
  - rewrite body_reply, JSON_written_singleton. simpl.
    apply lookup_singleton_eq.
Qed.

(** ** The session token of any user id *)

Lemma first_field_bytes_prefix (sep : ascii) (u rest : list ascii) :
  Str.first_field_bytes sep (u ++ sep :: rest) = Str.first_field_bytes sep u.
Proof.
  induction u as [|c u IH]; simpl.
  - now rewrite Ascii.eqb_refl.
  - destruct (Ascii.eqb c sep); [reflexivity | now rewrite IH].
Qed.

(** X9.  A token is issued for every user id that can be made a string,
    and it is not empty; for an id that cannot, issuing throws.  Decoding
    the token issued for a user id without unpaired surrogate gives the
    id up to its first ':': a user whose id contains a ':' receives a
    token that the server reads as the id cut there. *)
Theorem session_token_of_any_id (e : env) (userId : option json) :
  (ToString userId = Throw -> generateSessionToken e userId = Throw)
  /\ (forall s, ToString userId = Ret s ->
        exists token,
          generateSessionToken e userId = Ret token
          /\ token <> ""
          /\ (Str.wellformed s = true ->
              decodeUserId (Text token) = Ret (Str.first_field ":" s))).
Proof.
  split.
  - intros H. unfold generateSessionToken. now rewrite H.
  - intros s Hs.
    pose proof (token_of_id Number_toString e userId s Hs) as G.
    eexists. split; [exact G|].
    split; [eapply token_nonempty; exact G|].
    intros Hw. unfold decodeUserId. simpl.
    rewrite bytes_text, decode_encode_bytes.
    change (s +:+ ":" +:+ pretty (Date_now e) +:+ ":"
              +:+ Str.hex (randomBytes16 e))
      with (s +:+ String ":"%char
              (pretty (Date_now e) +:+ ":" +:+ Str.hex (randomBytes16 e))).
    destruct (toString_Buffer_from_field s
                (pretty (Date_now e) +:+ ":" +:+ Str.hex (randomBytes16 e)) Hw)
      as (tail & ->).
    f_equal. unfold Str.first_field. f_equal.
    rewrite bytes_app.
    change (Str.bytes (String ":"%char ?x)) with (":"%char :: Str.bytes x).
    apply first_field_bytes_prefix.
Qed.

(** ** POST /api/tasks: the rejections *)

(** X10.  For a caller the gate accepts and a body that is an object, a
    title that is absent, null or a string of blanks only is answered 400;
    a title of any other kind, a number say, makes the handler throw and is
    answered 500.  Nothing is stored in either case. *)
Theorem create_task_rejections (e : env) (users : list obj)
    (session : option cookie) (user : obj) (reqBody : obj) :
  authenticate users session = Next user ->
  (reqBody !! "title" = None \/ reqBody !! "title" = Some JNull
   \/ (exists s, reqBody !! "title" = Some (JStr s) /\ Str.trim s = "") ->
   POST_tasks e users session (Some (JObj reqBody))
   = (users, reply 400 (error "Title is required") []))
  /\ (text_or_absent (reqBody !! "title") = false ->
      POST_tasks e users session (Some (JObj reqBody))
      = (users, reply 500 (error "Failed to create task") [])).
Proof.
  intros A. unfold POST_tasks, protected. rewrite A.
  unfold create_task, create_task_try. simpl. split.
  - intros [-> | [-> | (s & -> & Hs)]]; simpl; try reflexivity.
    rewrite Hs. reflexivity.
  - destruct (reqBody !! "title") as [[| | |s| |]|]; simpl;
      try discriminate; reflexivity.
Qed.


(** ** The request body of POST /api/tasks *)

(** X11. POST /api/tasks reads the title, the date, the time and the icon
    of the request body and nothing else: two bodies that agree on these
    four properties get the same answer and leave the same users file.  An
    [id], [subTasks] or [percentage] sent by the client is never stored. *)
Theorem create_task_reads_four_properties (e : env) (users : list obj)
    (session : option cookie) (reqBody reqBody' : obj) :
  (forall k, k ∈ ["title"; "date"; "time"; "icon"] ->
             reqBody !! k = reqBody' !! k) ->
  POST_tasks e users session (Some (JObj reqBody))
  = POST_tasks e users session (Some (JObj reqBody')).
Proof.
  intros H.
  unfold POST_tasks, protected.
  destruct (authenticate users session) as [r|user]; [reflexivity|].
  unfold create_task, create_task_try. simpl.
  rewrite !H by set_solver. reflexivity.
Qed.
End RouteFacts.

(* ===================================================================== *)
(** * The client *)
(* ===================================================================== *)

(** ** Features/TaskSlice.ts *)

Lemma updateTask_no_tasks (state : TaskSlice.TaskState) (payload : TaskSlice.Task) :
  TaskSlice.tasks state = [] -> TaskSlice.updateTask state payload = state.
Proof. intros H. unfold TaskSlice.updateTask. rewrite H. reflexivity. Qed.

(** X12. The effect of TaskView that fetches the tasks when the store has
    none leaves the store as it was, whatever the server sent: each fetched
    task is dispatched with [updateTask], which replaces a task that is
    already in the store and adds none. *)
Theorem fetchTasks_stores_nothing (state : TaskSlice.TaskState)
    (id : option string) (fetched : list TaskSlice.Task) :
  TaskView.fetchTasks state id fetched = state.
Proof.
  unfold TaskView.fetchTasks.
  destruct (_ && _ && _) eqn:C; [|reflexivity].
  apply andb_true_iff in C as [C _]. apply andb_true_iff in C as [E _].
  apply Nat.eqb_eq, nil_length_inv in E.
  induction fetched as [|t fetched IH]; [reflexivity|].
  simpl. rewrite updateTask_no_tasks by exact E. exact IH.
Qed.

Lemma fmap_insert_same {A B} (f : A -> B) (l : list A) (i : nat) (x y : A) :
  l !! i = Some x -> f y = f x -> f <$> <[i := y]> l = f <$> l.
Proof.
  intros H E. rewrite list_fmap_insert, E.
  apply list_insert_id. rewrite list_lookup_fmap, H. reflexivity.
Qed.

(** X13. [updateTask] replaces the first task that has the id of the
    payload and changes nothing else: the ids in the store, their order and
    their number stay, as do the loading flag, the error and the search
    query; and a payload whose id the store does not have is dropped. *)
Theorem updateTask_keeps_ids (state : TaskSlice.TaskState)
    (payload : TaskSlice.Task) :
  let state' := TaskSlice.updateTask state payload in
  TaskSlice.id <$> TaskSlice.tasks state' = TaskSlice.id <$> TaskSlice.tasks state
  /\ TaskSlice.isLoading state' = TaskSlice.isLoading state
  /\ TaskSlice.error state' = TaskSlice.error state
  /\ TaskSlice.searchQuery state' = TaskSlice.searchQuery state
  /\ (TaskSlice.id payload ∈ (TaskSlice.id <$> TaskSlice.tasks state) ->
        payload ∈ TaskSlice.tasks state')
  /\ (TaskSlice.id payload ∉ (TaskSlice.id <$> TaskSlice.tasks state) ->
        state' = state).
Proof.
  unfold TaskSlice.updateTask.
  destruct (findIndex _ (TaskSlice.tasks state)) as [i|] eqn:E; simpl.
  - apply findIndex_lookup in E as E'. destruct E' as (x & Hx & Hp).
    apply String.eqb_eq in Hp.
    repeat split; try reflexivity.
    + eapply fmap_insert_same; [exact Hx | now symmetry].
    + intros _. apply list_elem_of_lookup. exists i.
      apply list_lookup_insert_eq. now apply lookup_lt_Some in Hx.
    + intros Hn. exfalso. apply Hn. rewrite <- Hp.
      apply list_elem_of_fmap. exists x. split; [reflexivity|].
      apply list_elem_of_lookup. eauto.
  - repeat split; try reflexivity.
    intros Hin. exfalso.
    apply findIndex_None in E.
    apply list_elem_of_fmap in Hin as (x & Hx & Hin).
    rewrite Forall_forall in E.
    specialize (E x Hin). simpl in E.
    apply String.eqb_neq in E. congruence.
Qed.

Lemma filter_fresh {A} (p : A -> bool) (l : list A) :
  Forall (fun x => p x = true) l -> List.filter p l = l.
Proof.
  induction 1 as [|x l Hx _ IH]; simpl; [reflexivity|].
  rewrite Hx, IH. reflexivity.
Qed.

(** X14. [deleteTask] after [addTask]: the added task is gone again, and
    with it every task that had the same id; when the id was new to the
    store, the store is back as it was. *)
Theorem addTask_then_deleteTask (state : TaskSlice.TaskState)
    (task : TaskSlice.Task) :
  let id := TaskSlice.id task in
  TaskSlice.deleteTask (TaskSlice.addTask state task) id
  = TaskSlice.deleteTask state id
  /\ (id ∉ (TaskSlice.id <$> TaskSlice.tasks state) ->
        TaskSlice.deleteTask (TaskSlice.addTask state task) id = state).
Proof.
  assert (E : TaskSlice.deleteTask (TaskSlice.addTask state task) (TaskSlice.id task)
              = TaskSlice.deleteTask state (TaskSlice.id task)).
  { unfold TaskSlice.deleteTask, TaskSlice.addTask, TaskSlice.with_tasks. simpl.
    rewrite List.filter_app. simpl. rewrite String.eqb_refl. simpl.
    rewrite app_nil_r. reflexivity. }
  split; [exact E|].
  intros Hn. simpl. rewrite E.
  unfold TaskSlice.deleteTask, TaskSlice.with_tasks.
  rewrite filter_fresh; [now destruct state|].
  apply Forall_forall. intros x Hx.
  apply Bool.negb_true_iff, String.eqb_neq. intros Heq. apply Hn.
  rewrite <- Heq. apply list_elem_of_fmap. exists x. split; [reflexivity|].
  exact Hx.
Qed.

(** ** TaskView: the subtask actions *)

(** The percentage depends on the subtasks through their [completed]
    flags only. *)
Lemma filter_completed_flags (l : list Client.SubTask) :
  length (List.filter Client.completed l)
  = length (List.filter (fun b : bool => b) (Client.completed <$> l)).
Proof.
  induction l as [|st l IH]; simpl; [reflexivity|].
  destruct (Client.completed st); simpl; now rewrite IH.
Qed.

Lemma calculatePercentage_flags (l l' : list Client.SubTask) :
  Client.completed <$> l' = Client.completed <$> l ->
  Client.calculatePercentage l' = Client.calculatePercentage l.
Proof.
  intros H. unfold Client.calculatePercentage.
  rewrite !filter_completed_flags, H.
  assert (L : length l' = length l).
  { rewrite <- (length_fmap Client.completed l'), H. apply length_fmap. }
  rewrite L. reflexivity.
Qed.

Lemma fmap_map_fixed {A B} (g : A -> B) (f : A -> A) (l : list A) :
  (forall x, g (f x) = g x) -> g <$> map f l = g <$> l.
Proof.
  intros H. induction l as [|x l IH]; [reflexivity|].
  cbn [map]. rewrite !fmap_cons, H, IH. reflexivity.
Qed.

(** X15. [toggleComplete] is its own inverse, and it keeps the ids, the
    titles and the descriptions of the subtasks and their order. *)
Theorem toggleComplete_twice (subTasks : list Client.SubTask)
    (subTaskId : string) :
  TaskView.toggleComplete (TaskView.toggleComplete subTasks subTaskId) subTaskId
  = subTasks
  /\ Client.id <$> TaskView.toggleComplete subTasks subTaskId
     = Client.id <$> subTasks
  /\ Client.title <$> TaskView.toggleComplete subTasks subTaskId
     = Client.title <$> subTasks
  /\ Client.description <$> TaskView.toggleComplete subTasks subTaskId
     = Client.description <$> subTasks.
Proof.
  unfold TaskView.toggleComplete.
  split; [|repeat split; apply fmap_map_fixed; intros st;
            now destruct (String.eqb _ _)].
  induction subTasks as [|[i t d c] l IH]; simpl; [reflexivity|].
  rewrite IH. destruct (String.eqb i subTaskId) eqn:E; simpl; rewrite E;
    [rewrite Bool.negb_involutive|]; reflexivity.
Qed.

(** X16. [saveEdit] refuses a blank title or description.  Otherwise it
    hands [saveTask] a list in which the subtasks with the given id have
    the trimmed title and description, and in which the ids, the
    [completed] flags and with them the percentage are as before. *)
Theorem saveEdit_keeps_progress (subTasks : list Client.SubTask)
    (subTaskId editTitle editDescription : string) :
  (TaskView.saveEdit subTasks subTaskId editTitle editDescription = None
   <-> Str.trim editTitle = "" \/ Str.trim editDescription = "")
  /\ forall updated,
       TaskView.saveEdit subTasks subTaskId editTitle editDescription
       = Some updated ->
       Client.id <$> updated = Client.id <$> subTasks
       /\ Client.completed <$> updated = Client.completed <$> subTasks
       /\ Client.calculatePercentage updated
          = Client.calculatePercentage subTasks
       /\ forall st, st ∈ updated -> Client.id st = subTaskId ->
            Client.title st = Str.trim editTitle
            /\ Client.description st = Str.trim editDescription.
Proof.
  unfold TaskView.saveEdit.
  destruct (String.eqb_spec (Str.trim editTitle) "") as [T|T];
    destruct (String.eqb_spec (Str.trim editDescription) "") as [D|D]; simpl.
  1-3: split; [split; [tauto | reflexivity] | discriminate].
  split; [split; [discriminate | tauto]|].
  intros updated [= <-].
  set (edit := fun st : Client.SubTask => _).
  assert (I : Client.id <$> map edit subTasks = Client.id <$> subTasks).
  { apply fmap_map_fixed. intros st. unfold edit. now destruct (String.eqb _ _). }
  assert (C : Client.completed <$> map edit subTasks
              = Client.completed <$> subTasks).
  { apply fmap_map_fixed. intros st. unfold edit. now destruct (String.eqb _ _). }
  split; [exact I|]. split; [exact C|].
  split; [now apply calculatePercentage_flags|].
  intros st Hin Hid.
  apply list_elem_of_In, in_map_iff in Hin as (st0 & <- & _).
  unfold edit in *.
  destruct (String.eqb_spec (Client.id st0) subTaskId);
    [split; reflexivity | contradiction].
Qed.

(** X17. [deleteSubTask] after [handleAddSubTask]: when the id drawn for
    the new subtask was not in the list, the list is back as it was. *)
Theorem handleAddSubTask_then_deleteSubTask (uuid4 : string)
    (subTasks : list Client.SubTask) (title description : string) :
  uuid4 ∉ (Client.id <$> subTasks) ->
  TaskView.deleteSubTask
    (TaskView.handleAddSubTask uuid4 subTasks title description) uuid4
  = subTasks.
Proof.
  intros Hn. unfold TaskView.deleteSubTask, TaskView.handleAddSubTask.
  rewrite List.filter_app. simpl. rewrite String.eqb_refl. simpl.
  rewrite app_nil_r. apply filter_fresh.
  apply Forall_forall. intros x Hx.
  apply Bool.negb_true_iff, String.eqb_neq. intros Heq. apply Hn.
  rewrite <- Heq. apply list_elem_of_fmap. exists x. split; [reflexivity|].
  exact Hx.
Qed.

Lemma filter_length_Permutation {A} (p : A -> bool) (l l' : list A) :
  l ≡ₚ l' -> length (List.filter p l) = length (List.filter p l').
Proof.
  induction 1 as [|x l l' _ IH|x y l|l l' l'' _ IH1 _ IH2]; simpl.
  - reflexivity.
  - destruct (p x); simpl; now rewrite IH.
  - destruct (p x), (p y); reflexivity.
  - now rewrite IH1.
Qed.

Lemma calculatePercentage_Permutation (l l' : list Client.SubTask) :
  l ≡ₚ l' -> Client.calculatePercentage l = Client.calculatePercentage l'.
Proof.
  intros H. unfold Client.calculatePercentage.
  rewrite (filter_length_Permutation _ _ _ H), (Permutation_length H).
  reflexivity.
Qed.

(** X18. [onDragEnd] with a source position inside the list and a
    destination that is a position of the list: the result has the
    subtasks of before, each once, with the moved subtask at the
    destination; the percentage is the same; and dragging the subtask back
    restores the list. *)
Theorem onDragEnd_moves (subTasks : list Client.SubTask)
    (source destination : nat) (moved : Client.SubTask) :
  subTasks !! source = Some moved ->
  destination < length subTasks ->
  exists reordered,
    TaskView.onDragEnd subTasks source destination = Some <$> reordered
    /\ reordered ≡ₚ subTasks
    /\ reordered !! destination = Some moved
    /\ Client.calculatePercentage reordered
       = Client.calculatePercentage subTasks
    /\ TaskView.onDragEnd reordered destination source = Some <$> subTasks.
Proof.
  intros Hs Hd.
  assert (Ls : source < length subTasks) by now apply lookup_lt_Some in Hs.
  set (rest := delete source subTasks).
  assert (Lr : S (length rest) = length subTasks).
  { unfold rest. rewrite length_delete by eauto. lia. }
  exists (take destination rest ++ moved :: drop destination rest).
  assert (Lt : length (take destination rest) = destination).
  { rewrite length_take. lia. }
  assert (P : take destination rest ++ moved :: drop destination rest
              ≡ₚ subTasks).
  { rewrite <- Permutation_middle, take_drop. unfold rest.
    symmetry. now apply delete_Permutation. }
  split; [|split; [exact P|split; [|split]]].
  - unfold TaskView.onDragEnd. fold rest. rewrite Hs.
    rewrite fmap_app, fmap_cons, fmap_take, fmap_drop. reflexivity.
  - rewrite lookup_app_r by lia. rewrite Lt, Nat.sub_diag. reflexivity.
  - now apply calculatePercentage_Permutation.
  - unfold TaskView.onDragEnd.
    rewrite lookup_app_r by lia. rewrite Lt, Nat.sub_diag. simpl.
    replace (delete destination
               (take destination rest ++ moved :: drop destination rest))
      with rest.
    2:{ rewrite <- Lt at 1. rewrite delete_middle. now rewrite take_drop. }
    unfold rest. rewrite delete_take_drop.
    rewrite fmap_app, take_app_length', drop_app_length'
      by (rewrite length_fmap, length_take; lia).
    rewrite <- fmap_cons, <- fmap_app.
    f_equal. now apply take_drop_middle.
Qed.

Lemma calculatePercentage_entries_undefined
    (subTasks : list (option Client.SubTask)) :
  None ∈ subTasks -> TaskView.calculatePercentage_entries subTasks = Throw.
Proof.
  intros Hin. unfold TaskView.calculatePercentage_entries.
  destruct subTasks as [|x l]; [now apply elem_of_nil in Hin|].
  cbn [length Nat.eqb].
  destruct (mapM (fun st => st) (x :: l)) as [defined|] eqn:E; [|reflexivity].
  apply mapM_Some_1 in E.
  apply list_elem_of_lookup in Hin as (j & Hj).
  destruct (Forall2_lookup_l _ _ _ _ _ E Hj) as (y & _ & Hy). discriminate.
Qed.

(** X19. A source position past the end of the list makes [onDragEnd]
    build a list with an [undefined] entry in it, one entry longer than the
    list.  [saveTask] does not send it: [calculatePercentage] throws at the
    [undefined] entry before the request is made, unless [saveTask] has
    returned before that for want of a task id. *)
Theorem onDragEnd_out_of_range (task : TaskSlice.Task) (id : option string)
    (source destination : nat) :
  length (TaskSlice.subTasks task) <= source ->
  let reordered :=
    TaskView.onDragEnd (TaskSlice.subTasks task) source destination in
  (None ∈ reordered)
  /\ length reordered = S (length (TaskSlice.subTasks task))
  /\ TaskView.calculatePercentage_entries reordered = Throw
  /\ TaskView.onDragEnd_save (Some task) id source (Some destination)
     = if truthy (JStr <$> id) then Throw else Ret None.
Proof.
  intros H reordered.
  assert (Hin : None ∈ reordered).
  { unfold reordered, TaskView.onDragEnd.
    rewrite (lookup_ge_None_2 (TaskSlice.subTasks task) source) by exact H.
    apply elem_of_app. right. apply list_elem_of_here. }
  split; [exact Hin|]. split; [|split].
  - unfold reordered, TaskView.onDragEnd.
    rewrite (lookup_ge_None_2 (TaskSlice.subTasks task) source) by exact H.
    rewrite delete_take_drop.
    rewrite (take_ge (TaskSlice.subTasks task) source) by exact H.
    rewrite (drop_ge (TaskSlice.subTasks task) (S source)) by lia.
    rewrite app_nil_r.
    rewrite length_app. simpl. rewrite length_take, length_drop, length_fmap.
    lia.
  - now apply calculatePercentage_entries_undefined.
  - unfold TaskView.onDragEnd_save, TaskView.saveTask_entries.
    fold reordered.
    destruct (truthy (JStr <$> id)); [|reflexivity].
    now rewrite (calculatePercentage_entries_undefined _ Hin).
Qed.

(** ** TaskView: the list that is shown *)

Section FilterFacts.

Variable toLowerCase : string -> string.

Local Abbreviation matches := (TaskView.matches toLowerCase).
Local Abbreviation filteredSubTasks := (TaskView.filteredSubTasks toLowerCase).

Lemma filter_split {A} (p q r : A -> bool) (l : list A) :
  (forall x, p x = q x || r x) -> (forall x, q x && r x = false) ->
  List.filter p l ≡ₚ List.filter q l ++ List.filter r l.
Proof.
  intros Hp Hqr. induction l as [|x l IH]; simpl; [reflexivity|].
  rewrite Hp. specialize (Hqr x).
  destruct (q x), (r x); simpl; try discriminate.
  - now rewrite IH.
  - rewrite IH. apply Permutation_middle.
  - exact IH.
Qed.

Lemma filter_sublist {A} (p : A -> bool) (l : list A) :
  sublist (List.filter p l) l.
Proof.
  induction l as [|x l IH]; simpl; [constructor|].
  destruct (p x); now constructor.
Qed.

(** X20. The subtasks shown under a search query: those shown with the
    status "to do" and those shown with "done" are together those shown
    with "all", none is in both, and each list keeps the order of the
    task's subtasks.  With "all" and no query the list shown is the whole
    list, so that a position in it, which is what a drag reports, is a
    position in the task's subtasks. *)
Theorem filteredSubTasks_by_status (chosenTask : option TaskSlice.Task)
    (searchQuery : string) :
  let shown := filteredSubTasks chosenTask searchQuery in
  shown TaskView.All ≡ₚ shown TaskView.ToDo ++ shown TaskView.Done
  /\ Forall (fun st => Client.completed st = false) (shown TaskView.ToDo)
  /\ Forall (fun st => Client.completed st = true) (shown TaskView.Done)
  /\ forall task, chosenTask = Some task ->
       (forall status, sublist (shown status) (TaskSlice.subTasks task))
       /\ filteredSubTasks chosenTask "" TaskView.All = TaskSlice.subTasks task.
Proof.
  destruct chosenTask as [task|]; simpl.
  2:{ split; [reflexivity|]. split; [constructor|]. split; [constructor|].
      discriminate. }
  split; [|split; [|split]].
  - apply filter_split; intros st; unfold TaskView.matches; cbv zeta;
      destruct (if String.eqb searchQuery "" then true else _),
               (Client.completed st); reflexivity.
  - apply Forall_forall. intros st Hin.
    apply list_elem_of_In, filter_In in Hin as [_ Hin].
    unfold TaskView.matches in Hin.
    apply andb_true_iff in Hin as [_ Hin]. now apply Bool.negb_true_iff.
  - apply Forall_forall. intros st Hin.
    apply list_elem_of_In, filter_In in Hin as [_ Hin].
    unfold TaskView.matches in Hin.
    now apply andb_true_iff in Hin as [_ Hin].
  - intros t [= <-]. split.
    + intros status. apply filter_sublist.
    + apply filter_fresh. apply Forall_forall. reflexivity.
Qed.

(** X25. The search box dispatches [setSearchQuery] with what was typed
    and the reducer trims it: blanks around the query make no difference
    to the store, and after typing blanks only TaskView shows, with the
    status "all", every subtask of the task. *)
Theorem blank_search_shows_everything (state : TaskSlice.TaskState)
    (typed : string) (task : TaskSlice.Task) :
  TaskSlice.setSearchQuery state typed
  = TaskSlice.setSearchQuery state (Str.trim typed)
  /\ (Str.trim typed = "" ->
        filteredSubTasks (Some task)
          (TaskSlice.searchQuery (TaskSlice.setSearchQuery state typed))
          TaskView.All
        = TaskSlice.subTasks task).
Proof.
  split.
  - unfold TaskSlice.setSearchQuery. now rewrite trim_idem.
  - intros H. simpl. rewrite H. apply filter_fresh.
    apply Forall_forall. reflexivity.
Qed.

End FilterFacts.

(** ** CircularProgress: the arc *)

Lemma SFcompare_antisym (x y : spec_float) (c : comparison) :
  SFcompare x y = Some c -> SFcompare y x = Some (CompOpp c).
Proof.
  assert (F : forall (mx my : positive) (ex ey : Z),
             match (ey ?= ex)%Z with
             | Eq => (my ?= mx)%positive
             | Lt => Lt
             | Gt => Gt
             end
             = CompOpp match (ex ?= ey)%Z with
                       | Eq => (mx ?= my)%positive
                       | Lt => Lt
                       | Gt => Gt
                       end).
  { intros mx my ex ey. rewrite (Z.compare_antisym ex ey).
    destruct (ex ?= ey)%Z; simpl; try reflexivity.
    apply Pos.compare_antisym. }
  destruct x as [sx|sx| |sx mx ex], y as [sy|sy| |sy my ey];
    try discriminate;
    try (destruct sx; intros [= <-]; reflexivity);
    try (destruct sy; intros [= <-]; reflexivity);
    try (destruct sx, sy; intros [= <-]; reflexivity).
  change (SFcompare (S754_finite sx mx ex) (S754_finite sy my ey))
    with (Some match sx, sy with
               | true, false => Lt
               | false, true => Gt
               | false, false =>
                   match (ex ?= ey)%Z with
                   | Eq => (mx ?= my)%positive
                   | Lt => Lt
                   | Gt => Gt
                   end
               | true, true =>
                   match (ex ?= ey)%Z with
                   | Eq => CompOpp (mx ?= my)%positive
                   | Lt => Gt
                   | Gt => Lt
                   end
               end).
  change (SFcompare (S754_finite sy my ey) (S754_finite sx mx ex))
    with (Some match sy, sx with
               | true, false => Lt
               | false, true => Gt
               | false, false =>
                   match (ey ?= ex)%Z with
                   | Eq => (my ?= mx)%positive
                   | Lt => Lt
                   | Gt => Gt
                   end
               | true, true =>
                   match (ey ?= ex)%Z with
                   | Eq => CompOpp (my ?= mx)%positive
                   | Lt => Gt
                   | Gt => Lt
                   end
               end).
  intros [= <-]. f_equal.
  destruct sx, sy; try reflexivity.
  - rewrite (Z.compare_antisym ex ey), (Pos.compare_antisym mx my).
    destruct (ex ?= ey)%Z, (mx ?= my)%positive; reflexivity.
  - apply F.
Qed.

Lemma SFltb_false_SFleb (x y : spec_float) :
  x <> S754_nan -> y <> S754_nan -> SFltb x y = false -> SFleb y x = true.
Proof.
  intros Hx Hy. unfold SFltb, SFleb.
  destruct (SFcompare x y) as [c|] eqn:E.
  - rewrite (SFcompare_antisym _ _ _ E). now destruct c.
  - destruct x, y; simpl in E; try discriminate; congruence.
Qed.

Lemma SFltb_SFleb (x y : spec_float) : SFltb x y = true -> SFleb x y = true.
Proof.
  unfold SFltb, SFleb. now destruct (SFcompare x y) as [[]|].
Qed.

(** X21. The arc of CircularProgress is drawn for a percentage that is
    held between 0 and 100: whatever number comes in, NaN apart, the
    clamped value is a number from 0 to 100, and a value that is already
    one of 1, ..., 100 is kept.  NaN stays NaN. *)
Theorem clamped_in_range (percentage : Num.number) :
  Circle.clamped S754_nan = S754_nan
  /\ (percentage <> S754_nan ->
        SFleb (Num.ofZ 0) (Circle.clamped percentage) = true
        /\ SFleb (Circle.clamped percentage) (Num.ofZ 100) = true)
  /\ (SFltb (Num.ofZ 0) percentage = true ->
      SFleb percentage (Num.ofZ 100) = true ->
        Circle.clamped percentage = percentage).
Proof.
  split; [reflexivity|]. split.
  - intros Hn. unfold Circle.clamped.
    destruct percentage as [s|s| |s m e]; try congruence.
    + destruct s; vm_compute; split; reflexivity.
    + destruct s; vm_compute; split; reflexivity.
    + destruct s.
      * split; reflexivity.
      * change (Circle.Math_max (S754_finite false m e) (Num.ofZ 0))
          with (S754_finite false m e).
        change (Circle.Math_min (S754_finite false m e) (Num.ofZ 100))
          with (if SFltb (Num.ofZ 100) (S754_finite false m e)
                then Num.ofZ 100 else S754_finite false m e).
        destruct (SFltb (Num.ofZ 100) (S754_finite false m e)) eqn:E.
        -- split; reflexivity.
        -- split; [reflexivity|].
           apply SFltb_false_SFleb in E; [exact E | discriminate | discriminate].
  - intros H0 H100. unfold Circle.clamped.
    destruct percentage as [s|s| |s m e]; try discriminate.
    + destruct s; discriminate.
    + destruct s; [discriminate|].
      change (Circle.Math_max (S754_finite false m e) (Num.ofZ 0))
        with (S754_finite false m e).
      change (Circle.Math_min (S754_finite false m e) (Num.ofZ 100))
        with (if SFltb (Num.ofZ 100) (S754_finite false m e)
              then Num.ofZ 100 else S754_finite false m e).
      destruct (SFltb (Num.ofZ 100) (S754_finite false m e)) eqn:E;
        [|reflexivity].
      exfalso. unfold SFltb, SFleb in *.
      destruct (SFcompare (Num.ofZ 100) (S754_finite false m e)) as [c|] eqn:C;
        [|discriminate].
      rewrite (SFcompare_antisym _ _ _ C) in H100. now destruct c.
Qed.

(** X22. For each whole percentage from 0 to 100 the offset of the arc's
    dash is 100 less that percentage, exactly. *)
Theorem strokeDashoffset_whole (p : Z) :
  (0 <= p <= 100)%Z ->
  Circle.strokeDashoffset (Num.ofZ p) = Num.ofZ (100 - p).
Proof.
  intros H.
  assert (A : forallb (fun p => match Circle.strokeDashoffset (Num.ofZ p),
                                      Num.ofZ (100 - p) with
                                | S754_zero a, S754_zero b => Bool.eqb a b
                                | S754_finite a m e, S754_finite b m' e' =>
                                    Bool.eqb a b && Pos.eqb m m' && Z.eqb e e'
                                | _, _ => false
                                end) (seqZ 0 101) = true)
    by (vm_compute; reflexivity).
  rewrite forallb_forall in A.
  specialize (A p). 
  assert (I : In p (seqZ 0 101)).
  { apply list_elem_of_In, elem_of_seqZ. lia. }
  specialize (A I).
  destruct (Circle.strokeDashoffset (Num.ofZ p)), (Num.ofZ (100 - p));
    try discriminate.
  - apply Bool.eqb_prop in A. now subst.
  - apply andb_true_iff in A as [A E]. apply andb_true_iff in A as [S M].
    apply Bool.eqb_prop in S. apply Pos.eqb_eq in M. apply Z.eqb_eq in E.
    now subst.
Qed.

(** ** TaskView: the keyboard *)

Section KeyboardFacts.

Variable toLowerCase : string -> string.

Local Abbreviation handleKeyDown := (Keyboard.handleKeyDown toLowerCase).
Local Abbreviation filteredSubTasks := (TaskView.filteredSubTasks toLowerCase).

Lemma at_index_lookup (l : list Client.SubTask) (i : nat) :
  Keyboard.at_index l (Z.of_nat i) = l !! i.
Proof.
  unfold Keyboard.at_index.
  destruct (Z.ltb_spec (Z.of_nat i) 0); [lia|]. now rewrite Nat2Z.id.
Qed.

(** X26. With a subtask of the shown list selected no key makes the
    handler throw, and an index it selects is again a position of the
    list; with nothing selected (the index -1, or any negative one) the
    keys do nothing, Ctrl+Q apart. *)
Theorem keys_keep_the_selection_in_the_list (ctrlKey : bool) (key : string)
    (chosenTask : option TaskSlice.Task) (selectedIndex : Z)
    (shown : list Client.SubTask) :
  ((0 <= selectedIndex < Z.of_nat (length shown))%Z ->
     exists actions,
       handleKeyDown ctrlKey key chosenTask selectedIndex shown = Ret actions
       /\ forall index, Keyboard.setSelectedIndex index ∈ actions ->
            (0 <= index < Z.of_nat (length shown))%Z)
  /\ ((selectedIndex < 0)%Z ->
        handleKeyDown ctrlKey key chosenTask selectedIndex shown
        = Ret (if ctrlKey && String.eqb (toLowerCase key) "q"
               then [Keyboard.setShowForm] else [])).
Proof.
  split.
  - intros H. unfold Keyboard.handleKeyDown. cbv zeta.
    destruct (_ && _ && _) eqn:C.
    2:{ eexists. split; [reflexivity|]. intros index Hin.
        destruct (ctrlKey && _); [|now apply elem_of_nil in Hin].
        apply list_elem_of_singleton in Hin. discriminate. }
    assert (Hat : exists st, Keyboard.at_index shown selectedIndex = Some st).
    { unfold Keyboard.at_index. destruct (Z.ltb_spec selectedIndex 0); [lia|].
      apply lookup_lt_is_Some. lia. }
    destruct Hat as (st & ->).
    destruct (String.eqb key "ArrowUp" && (0 <? selectedIndex)%Z) eqn:U;
      destruct (String.eqb key "ArrowDown"
                && (selectedIndex <? Z.of_nat (length shown) - 1)%Z) eqn:D;
      destruct (ctrlKey && String.eqb (toLowerCase key) "q");
      destruct (String.eqb key " "),
               (String.eqb key "Enter" || String.eqb (toLowerCase key) "e"),
               (String.eqb key "Delete"); simpl;
      (eexists; split; [reflexivity|]); intros index Hin;
      set_unfold in Hin; destruct_or?; simplify_eq;
      try (apply andb_true_iff in U as [_ U]; apply Z.ltb_lt in U);
      try (apply andb_true_iff in D as [_ D]; apply Z.ltb_lt in D); lia.
  - intros H. unfold Keyboard.handleKeyDown. cbv zeta.
    destruct (Z.leb_spec 0 selectedIndex); [lia|].
    now rewrite andb_false_r.
Qed.

(** X27. A selected index past the end of a list that is not empty makes
    Space, Enter and Delete throw: the handler reads the id of a subtask
    that is not there. *)
Theorem keys_on_a_selection_past_the_end (ctrlKey : bool) (key : string)
    (task : TaskSlice.Task) (selectedIndex : Z) (shown : list Client.SubTask) :
  shown <> [] ->
  (Z.of_nat (length shown) <= selectedIndex)%Z ->
  key ∈ [" "; "Enter"; "Delete"] ->
  handleKeyDown ctrlKey key (Some task) selectedIndex shown = Throw.
Proof.
  intros Hne Hsel Hkey. unfold Keyboard.handleKeyDown. cbv zeta.
  assert (0 < length shown) by (destruct shown; [congruence | simpl; lia]).
  rewrite bool_decide_eq_true_2 by eauto.
  destruct (Z.leb_spec 0 selectedIndex); [|lia].
  destruct (Z.ltb_spec 0 (Z.of_nat (length shown))); [|lia].
  assert (Hat : Keyboard.at_index shown selectedIndex = None).
  { unfold Keyboard.at_index. destruct (Z.ltb_spec selectedIndex 0); [lia|].
    apply lookup_ge_None. lia. }
  rewrite Hat. simpl.
  apply elem_of_cons in Hkey as [->|Hkey]; [reflexivity|].
  apply elem_of_cons in Hkey as [->|Hkey]; [reflexivity|].
  apply list_elem_of_singleton in Hkey as ->. simpl.
  destruct (String.eqb (toLowerCase "Delete") "e"); reflexivity.
Qed.

Lemma toggleComplete_fresh (l : list Client.SubTask) (subTaskId : string) :
  subTaskId ∉ (Client.id <$> l) -> TaskView.toggleComplete l subTaskId = l.
Proof.
  intros Hn. unfold TaskView.toggleComplete.
  induction l as [|x l IH]; [reflexivity|].
  rewrite fmap_cons in Hn. apply not_elem_of_cons in Hn as [Hx Hn].
  simpl. rewrite (IH Hn).
  destruct (String.eqb_spec (Client.id x) subTaskId); [congruence|reflexivity].
Qed.

(** Toggling a subtask that is shown under "to do" takes it, and nothing
    else, out of the shown list. *)
Lemma toggled_leaves_to_do (searchQuery : string) (l : list Client.SubTask)
    (st : Client.SubTask) :
  NoDup (Client.id <$> l) ->
  st ∈ List.filter (TaskView.matches toLowerCase searchQuery TaskView.ToDo) l ->
  S (length (List.filter (TaskView.matches toLowerCase searchQuery TaskView.ToDo)
               (TaskView.toggleComplete l (Client.id st))))
  = length (List.filter (TaskView.matches toLowerCase searchQuery TaskView.ToDo) l).
Proof.
  induction l as [|x l IH]; intros Hd Hin.
  - now apply elem_of_nil in Hin.
  - rewrite fmap_cons in Hd. apply NoDup_cons in Hd as [Hx Hd].
    apply list_elem_of_In, filter_In in Hin as [Hin Hm].
    apply list_elem_of_In in Hin.
    change (TaskView.toggleComplete (x :: l) (Client.id st))
      with ((if String.eqb (Client.id x) (Client.id st)
             then {| Client.id := Client.id x;
                     Client.title := Client.title x;
                     Client.description := Client.description x;
                     Client.completed := negb (Client.completed x) |}
             else x) :: TaskView.toggleComplete l (Client.id st)).
    destruct (String.eqb_spec (Client.id x) (Client.id st)) as [E|E].
    + assert (st = x) as ->.
      { apply elem_of_cons in Hin as [Hin|Hin]; [exact Hin|].
        exfalso. apply Hx. rewrite E. apply list_elem_of_fmap. eauto. }
      rewrite toggleComplete_fresh by exact Hx.
      cbn [List.filter]. rewrite Hm.
      unfold TaskView.matches in Hm |- *. cbn [Client.title Client.completed].
      apply andb_true_iff in Hm as [Hs Hc]. rewrite Hs.
      apply Bool.negb_true_iff in Hc. rewrite Hc. reflexivity.
    + assert (Hin' : st ∈ List.filter
                (TaskView.matches toLowerCase searchQuery TaskView.ToDo) l).
      { apply list_elem_of_In, filter_In. split; [|exact Hm].
        apply list_elem_of_In.
        apply elem_of_cons in Hin as [Hin|Hin]; [congruence | exact Hin]. }
      specialize (IH Hd Hin').
      cbn [List.filter].
      destruct (TaskView.matches toLowerCase searchQuery TaskView.ToDo x);
        cbn [length]; now rewrite IH.
Qed.

Lemma space_past_the_end (task : TaskSlice.Task) (selectedIndex : Z)
    (shown : list Client.SubTask) :
  (0 < Z.of_nat (length shown) <= selectedIndex)%Z ->
  handleKeyDown false " " (Some task) selectedIndex shown = Throw.
Proof.
  intros H. unfold Keyboard.handleKeyDown. cbv zeta.
  rewrite bool_decide_eq_true_2 by eauto.
  destruct (Z.leb_spec 0 selectedIndex); [|lia].
  destruct (Z.ltb_spec 0 (Z.of_nat (length shown))); [|lia].
  unfold Keyboard.at_index. destruct (Z.ltb_spec selectedIndex 0); [lia|].
  rewrite (lookup_ge_None_2 shown) by lia. reflexivity.
Qed.

(** X28. Space pressed twice on the last subtask shown under "to do":
    the first press toggles the subtask, which then leaves the shown list
    while the selected index stays; when other subtasks are still shown,
    the second press finds no subtask at the index and throws. *)
Theorem space_twice_on_the_last_to_do (task : TaskSlice.Task)
    (searchQuery : string) (selectedIndex : nat) (st : Client.SubTask) :
  toLowerCase " " = " " ->
  NoDup (Client.id <$> TaskSlice.subTasks task) ->
  TaskSlice.id task <> "" ->
  filteredSubTasks (Some task) searchQuery TaskView.ToDo !! selectedIndex
  = Some st ->
  S selectedIndex
  = length (filteredSubTasks (Some task) searchQuery TaskView.ToDo) ->
  0 < selectedIndex ->
  handleKeyDown false " " (Some task) (Z.of_nat selectedIndex)
    (filteredSubTasks (Some task) searchQuery TaskView.ToDo)
  = Ret [Keyboard.toggleComplete (Client.id st)]
  /\ exists saved,
       TaskView.saveTask (Some task) (Some (TaskSlice.id task))
         (TaskView.toggleComplete (TaskSlice.subTasks task) (Client.id st))
         None = Some saved
       /\ handleKeyDown false " " (Some saved) (Z.of_nat selectedIndex)
            (filteredSubTasks (Some saved) searchQuery TaskView.ToDo)
          = Throw.
Proof.
  intros Hlow Hd Hid Hst Hlast Hpos.
  split.
  - unfold Keyboard.handleKeyDown. cbv zeta.
    rewrite bool_decide_eq_true_2 by eauto.
    destruct (Z.leb_spec 0 (Z.of_nat selectedIndex)); [|lia].
    destruct (Z.ltb_spec 0 (Z.of_nat (length
                (filteredSubTasks (Some task) searchQuery TaskView.ToDo))));
      [|lia].
    rewrite at_index_lookup, Hst, Hlow. reflexivity.
  - unfold TaskView.saveTask. simpl.
    destruct (String.eqb_spec (TaskSlice.id task) ""); [contradiction|].
    simpl. eexists. split; [reflexivity|].
    assert (Hin : st ∈ List.filter
              (TaskView.matches toLowerCase searchQuery TaskView.ToDo)
              (TaskSlice.subTasks task)).
    { apply list_elem_of_lookup. eauto. }
    pose proof (toggled_leaves_to_do searchQuery _ st Hd Hin) as L.
    simpl in Hlast. apply space_past_the_end. simpl. lia.
Qed.

End KeyboardFacts.

(* ===================================================================== *)
(** * The client and the server together *)
(* ===================================================================== *)

Section MirrorFacts.

Variable Number_toString : Num.number -> string.

Local Abbreviation findUserIndex := (findUserIndex Number_toString).
Local Abbreviation authenticate := (authenticate Number_toString).
Local Abbreviation POST_tasks := (POST_tasks Number_toString).
Local Abbreviation PUT_task := (PUT_task Number_toString).
Local Abbreviation DELETE_task := (DELETE_task Number_toString).

(** ** The store after a DELETE and after a PUT *)

Ltac lookup_concrete :=
  unfold TaskView.task_json;
  rewrite ?lookup_set_prop_ne by discriminate;
  repeat (rewrite lookup_insert_ne by discriminate);
  first [apply lookup_insert_eq | apply lookup_singleton_eq].

Lemma task_json_id (task : TaskSlice.Task) :
  TaskView.task_json task !! "id" = Some (JStr (TaskSlice.id task)).
Proof. lookup_concrete. Qed.

Lemma has_id_task_json (taskId : string) (task : TaskSlice.Task) :
  has_id taskId (JObj (TaskView.task_json task))
  = String.eqb (TaskSlice.id task) taskId.
Proof. unfold has_id. simpl. rewrite task_json_id. reflexivity. Qed.

Lemma findIndex_fmap {A B} (f : A -> B) (p : B -> bool) (l : list A) :
  findIndex p (f <$> l) = findIndex (fun x => p (f x)) l.
Proof.
  induction l as [|x l IH]; [reflexivity|].
  rewrite fmap_cons. simpl. now rewrite IH.
Qed.

Lemma filter_delete_first (taskId : string) (l : list TaskSlice.Task) (i : nat) :
  NoDup (TaskSlice.id <$> l) ->
  findIndex (fun task => String.eqb (TaskSlice.id task) taskId) l = Some i ->
  List.filter (fun task => negb (String.eqb (TaskSlice.id task) taskId)) l
  = delete i l.
Proof.
  revert i. induction l as [|x l IH]; intros i Hd Hi; [discriminate|].
  rewrite fmap_cons in Hd. apply NoDup_cons in Hd as [Hx Hd].
  simpl in *. destruct (String.eqb_spec (TaskSlice.id x) taskId) as [E|E]; simpl.
  - injection Hi as <-. simpl. apply filter_fresh.
    apply Forall_forall. intros y Hy.
    apply Bool.negb_true_iff, String.eqb_neq. intros Heq. apply Hx.
    rewrite E, <- Heq. apply list_elem_of_fmap. eauto.
  - destruct (findIndex _ l) as [j|] eqn:F; [|discriminate].
    injection Hi as <-. simpl. f_equal. now apply IH.
Qed.

Lemma JSON_written_subTask_json (st : Client.SubTask) :
  JSON_written (TaskView.subTask_json st) = TaskView.subTask_json st.
Proof.
  unfold TaskView.subTask_json. simpl.
  now rewrite !fmap_insert, map_fmap_singleton.
Qed.

Lemma JSON_written_obj_set_prop (k : string) (v : option json) (o : obj) :
  JSON_written_obj (set_prop k v o)
  = set_prop k (JSON_written <$> v) (JSON_written_obj o).
Proof.
  unfold JSON_written_obj. destruct v; simpl;
    [apply fmap_insert | apply fmap_delete].
Qed.

(** A task as the client holds it is written as it is. *)
Lemma JSON_written_task_json (task : TaskSlice.Task) :
  JSON_written_obj (TaskView.task_json task) = TaskView.task_json task.
Proof.
  assert (S : JSON_written <$> (TaskView.subTask_json <$> TaskSlice.subTasks task)
              = TaskView.subTask_json <$> TaskSlice.subTasks task).
  { rewrite <- list_fmap_compose. apply list_fmap_ext.
    intros j st _. apply JSON_written_subTask_json. }
  unfold TaskView.task_json. rewrite JSON_written_obj_set_prop.
  f_equal; [now destruct (TaskSlice.icon task)|].
  unfold JSON_written_obj. rewrite !fmap_insert, map_fmap_singleton.
  change (JSON_written (JArr ?l)) with (JArr (JSON_written <$> l)).
  change (JSON_written (JStr ?s)) with (JStr s).
  now rewrite S, JSON_number_written.
Qed.

Lemma JSON_written_task_list (l : list TaskSlice.Task) :
  JSON_written <$> (JObj ∘ TaskView.task_json <$> l)
  = JObj ∘ TaskView.task_json <$> l.
Proof.
  rewrite <- list_fmap_compose. apply list_fmap_ext.
  intros j task _. simpl. f_equal. apply JSON_written_task_json.
Qed.

(** X23. The task list of Home deletes a task on the server and then
    dispatches [deleteTask].  When the store holds the caller's tasks as
    the users file has them and no two have the same id, it still does
    after a DELETE that succeeded: the one task the server took out is the
    task the reducer took out. *)
Theorem deleteTask_mirrors_DELETE (users : list obj) (session : option cookie)
    (user : obj) (state : TaskSlice.TaskState) (taskId : string)
    (users' : list obj) (r : response) :
  authenticate users session = Next user ->
  user !! "tasks"
  = Some (JArr (JObj ∘ TaskView.task_json <$> TaskSlice.tasks state)) ->
  NoDup (TaskSlice.id <$> TaskSlice.tasks state) ->
  DELETE_task users session taskId = (users', r) ->
  status r = 200%Z ->
  let kept := JObj ∘ TaskView.task_json
                <$> TaskSlice.tasks (TaskSlice.deleteTask state taskId) in
  exists ui,
    findUserIndex users user = Ret (Some ui)
    /\ users' = writeUsers (<[ui := <["tasks" := JArr kept]> user]> users)
    /\ users' !! ui ≫= (fun u => u !! "tasks") = Some (JArr kept)
    /\ (file_as_written users ->
        users' = <[ui := <["tasks" := JArr kept]> user]> users).
Proof.
  intros Ha Ht Hd Hr Hs kept.
  assert (Hnull : JNull ∉ (JObj ∘ TaskView.task_json <$> TaskSlice.tasks state)).
  { intros Hin. apply list_elem_of_fmap in Hin as (x & Hx & _). discriminate. }
  destruct (findIndex (has_id taskId)
              (JObj ∘ TaskView.task_json <$> TaskSlice.tasks state))
    as [i|] eqn:F.
  - destruct (delete_present Number_toString users session user _ taskId i
                Ha Ht Hnull F) as (ui & Hui & Hdel).
    destruct (caller_index Number_toString _ _ _ Ha) as (ui' & Hui' & Hl).
    assert (ui' = ui) as -> by congruence.
    exists ui. split; [exact Hui|].
    rewrite Hdel in Hr. injection Hr as <- _.
    assert (Hkept : delete i (JObj ∘ TaskView.task_json <$> TaskSlice.tasks state)
                    = kept).
    { unfold kept. simpl.
      rewrite findIndex_fmap in F.
      rewrite (findIndex_ext _ (fun task => String.eqb (TaskSlice.id task) taskId))
        in F by (intros x; apply has_id_task_json).
      rewrite (filter_delete_first taskId _ i Hd F).
      rewrite !delete_take_drop, fmap_app, fmap_take, fmap_drop. reflexivity. }
    rewrite Hkept. split; [reflexivity|]. split.
    + rewrite writeUsers_insert, JSON_written_obj_tasks.
      rewrite list_lookup_insert_eq
        by (rewrite length_writeUsers; eapply lookup_lt_Some; exact Hl).
      simpl. rewrite lookup_insert_eq. unfold kept.
      now rewrite JSON_written_task_list.
    + intros Hw. rewrite (writeUsers_tasks _ _ _ _ Hw Hl). unfold kept.
      now rewrite JSON_written_task_list.
  - apply findIndex_None in F.
    rewrite (delete_absent Number_toString users session user _ taskId
               Ha Ht Hnull F) in Hr.
    injection Hr as _ <-. discriminate.
Qed.

Lemma subTask_json_normalizable (st : Client.SubTask) :
  normalizable (TaskView.subTask_json st) = true.
Proof.
  unfold normalizable, TaskView.subTask_json, field.
  replace (_ !! "title") with (Some (JStr (Client.title st)))
    by (symmetry; repeat (rewrite lookup_insert_ne by discriminate);
        apply lookup_insert_eq).
  replace (_ !! "description") with (Some (JStr (Client.description st)))
    by (symmetry; repeat (rewrite lookup_insert_ne by discriminate);
        apply lookup_insert_eq).
  reflexivity.
Qed.

Lemma normalized_completed (uuid : string) (st : Client.SubTask) :
  truthy (field (normalized uuid (TaskView.subTask_json st)) "completed")
  = Client.completed st.
Proof.
  unfold normalized, field.
  replace (_ !! "completed")
    with (Some (JBool (truthy (field (TaskView.subTask_json st) "completed"))))
    by (symmetry; repeat (rewrite lookup_insert_ne by discriminate);
        apply lookup_singleton_eq).
  unfold TaskView.subTask_json, field.
  replace (_ !! "completed") with (Some (JBool (Client.completed st)))
    by (symmetry; repeat (rewrite lookup_insert_ne by discriminate);
        apply lookup_singleton_eq).
  reflexivity.
Qed.

(** The server counts as completed the subtasks that the client does. *)
Lemma normalizeSubTasks_client (e : env) (l : list Client.SubTask) :
  forall k sts,
    normalizeSubTasks e k (TaskView.subTask_json <$> l) = Ret sts ->
    length sts = length l
    /\ completedCount sts = length (List.filter Client.completed l).
Proof.
  induction l as [|st l IH]; intros k sts H.
  - injection H as <-. split; reflexivity.
  - rewrite fmap_cons in H. cbn [normalizeSubTasks] in H.
    rewrite normalizeSubTask_spec in H by apply subTask_json_normalizable.
    simpl in H.
    destruct (normalizeSubTasks e _ (TaskView.subTask_json <$> l))
      as [r|] eqn:R; [|discriminate].
    simpl in H. injection H as <-.
    destruct (IH _ _ R) as [L C]. split; [simpl; now rewrite L|].
    unfold completedCount in *. rewrite filter_cons.
    pose proof (normalized_completed (randomUUID e k) st) as N.
    cbn [List.filter].
    destruct (decide _) as [D|D]; rewrite N in D;
      destruct (Client.completed st); cbn [length].
    + now rewrite C.
    + destruct D.
    + destruct D. exact I.
    + exact C.
Qed.

Lemma percentageOf_client (e : env) (l : list Client.SubTask) (k : nat)
    (sts : list json) :
  normalizeSubTasks e k (TaskView.subTask_json <$> l) = Ret sts ->
  percentageOf sts = Client.calculatePercentage l.
Proof.
  intros H. apply normalizeSubTasks_client in H as [L C].
  unfold percentageOf, Client.calculatePercentage. rewrite L, C.
  destruct l; reflexivity.
Qed.

Lemma subTask_json_normal (st : Client.SubTask) :
  Client.id st <> "" ->
  Str.trim (Client.title st) = Client.title st ->
  Str.trim (Client.description st) = Client.description st ->
  normal_subTask (TaskView.subTask_json st).
Proof.
  intros Hi Ht Hd.
  exists (JStr (Client.id st)), (Client.title st), (Client.description st),
         (Client.completed st).
  split; [now apply truthy_string|]. now repeat split.
Qed.

Lemma lookup_written_string (o : obj) (k s : string) :
  o !! k = Some (JStr s) -> JSON_written_obj o !! k = Some (JStr s).
Proof. intros H. now rewrite lookup_JSON_written_obj, H. Qed.

Lemma task_json_title (task : TaskSlice.Task) :
  TaskView.task_json task !! "title" = Some (JStr (TaskSlice.title task)).
Proof. lookup_concrete. Qed.

Lemma task_json_date (task : TaskSlice.Task) :
  TaskView.task_json task !! "date" = Some (JStr (TaskSlice.date task)).
Proof. lookup_concrete. Qed.

Lemma task_json_time (task : TaskSlice.Task) :
  TaskView.task_json task !! "time" = Some (JStr (TaskSlice.time task)).
Proof. lookup_concrete. Qed.

Lemma task_json_icon (task : TaskSlice.Task) :
  TaskView.task_json task !! "icon" = JStr <$> TaskSlice.icon task.
Proof. unfold TaskView.task_json. apply lookup_set_prop_eq. Qed.

Lemma task_json_subTasks (task : TaskSlice.Task) :
  TaskView.task_json task !! "subTasks"
  = Some (JArr (TaskView.subTask_json <$> TaskSlice.subTasks task)).
Proof. lookup_concrete. Qed.

(** X24. TaskView saves a task by sending it in a PUT and, when the PUT
    succeeds, putting the task it sent into its own store.  For the task
    of the page, found under the caller's tasks on the server, the PUT
    succeeds, and the task the server stores has the id, the title, the
    date, the time, the icon and the percentage of the task the client
    keeps: both sides compute the percentage from the same subtasks, and
    it is stored as JSON writes it, which for a list of up to 100 subtasks
    is the number itself.  The stored subtasks are the client's too when
    each has an id and a trimmed title and description. *)
Theorem saveTask_agrees_with_PUT (e : env) (users : list obj)
    (session : option cookie) (user : obj) (tasks : list json) (i : nat)
    (originalTask : obj) (store : list TaskSlice.Task) (taskId : string)
    (chosen : TaskSlice.Task) (updatedSubTasks : list Client.SubTask)
    (newIcon : option string) :
  authenticate users session = Next user ->
  user !! "tasks" = Some (JArr tasks) ->
  JNull ∉ tasks ->
  findIndex (has_id taskId) tasks = Some i ->
  tasks !! i = Some (JObj originalTask) ->
  TaskView.chosenTask store (Some taskId) = Some chosen ->
  taskId <> "" ->
  exists (sent : TaskSlice.Task) (users' : list obj) (task : obj) (ui : nat),
    TaskView.saveTask (Some chosen) (Some taskId) updatedSubTasks newIcon
    = Some sent
    /\ PUT_task e users session taskId (Some (JObj (TaskView.task_json sent)))
       = (users', reply 200 (JObj {[ "message" := JStr "Task updated";
                                     "task" := JObj task ]}) [])
    /\ findUserIndex users user = Ret (Some ui)
    /\ stored_task users' ui i = Some (JObj task)
    /\ task !! "id" = Some (JStr (TaskSlice.id sent))
    /\ task !! "title" = Some (JStr (TaskSlice.title sent))
    /\ task !! "date" = Some (JStr (TaskSlice.date sent))
    /\ task !! "time" = Some (JStr (TaskSlice.time sent))
    /\ task !! "percentage" = Some (JSON_number (TaskSlice.percentage sent))
    /\ (length updatedSubTasks <= 100 ->
        task !! "percentage" = Some (JNum (TaskSlice.percentage sent)))
    /\ (forall icon, TaskSlice.icon sent = Some icon ->
                     task !! "icon" = Some (JStr icon))
    /\ (Forall (fun st => Client.id st <> ""
                          /\ Str.trim (Client.title st) = Client.title st
                          /\ Str.trim (Client.description st)
                             = Client.description st) updatedSubTasks ->
          task !! "subTasks"
          = Some (JArr (TaskView.subTask_json <$> TaskSlice.subTasks sent))).
Proof.
  intros Ha Ht Hnull Hi Ho Hc Hid.
  unfold TaskView.saveTask. simpl.
  destruct (String.eqb_spec taskId "") as [|_]; [contradiction|]. simpl.
  set (sent := {| TaskSlice.id := TaskSlice.id chosen |}).
  assert (Hsub : TaskView.task_json sent !! "subTasks"
                 = Some (JArr (TaskView.subTask_json <$> updatedSubTasks)))
    by lookup_concrete.
  assert (Hinc : incoming_subTasks originalTask (TaskView.task_json sent)
                 = TaskView.subTask_json <$> updatedSubTasks).
  { unfold incoming_subTasks. rewrite Hsub. reflexivity. }
  assert (Hnorm : Forall (fun st => normalizable st = true)
                    (incoming_subTasks originalTask (TaskView.task_json sent))).
  { rewrite Hinc. apply Forall_fmap, Forall_forall. intros st _.
    apply subTask_json_normalizable. }
  destruct (update_found Number_toString e users session user tasks taskId i
              originalTask (TaskView.task_json sent)
              Ha Ht Hnull Hi Ho Hnorm)
    as (ui & subTasks & Hui & Hl & Hn & Hput).
  cbv zeta in Hput. rewrite Hinc in Hn.
  (* the id of the stored task *)
  assert (Hoid : originalTask !! "id" = Some (JStr taskId)).
  { apply findIndex_lookup in Hi as (x & Hx & Hp).
    rewrite Ho in Hx. injection Hx as <-.
    apply has_id_object in Hp as (o & [= <-] & Hp). exact Hp. }
  assert (Hcid : TaskSlice.id chosen = taskId).
  { simpl in Hc. apply find_findIndex in Hc as (j & _ & _ & Hp).
    now apply String.eqb_eq in Hp. }
  set (task := <["percentage" := JNum (percentageOf subTasks)]>
                 (<["subTasks" := JArr subTasks]>
                    (set_prop "id" (originalTask !! "id")
                       (TaskView.task_json sent ∪ originalTask)))) in *.
  exists sent,
         (writeUsers
            (<[ui := <["tasks" := JArr (<[i := JObj task]> tasks)]> user]> users)),
         (JSON_written_obj task), ui.
  split; [reflexivity|]. split.
  { rewrite Hput. f_equal. symmetry.
    apply (reply_message_written 200 "Task updated" "task" (JObj task)). }
  split; [exact Hui|].
  assert (U : forall k s, k <> "id" -> k <> "subTasks" -> k <> "percentage" ->
                TaskView.task_json sent !! k = Some (JStr s) ->
                JSON_written_obj task !! k = Some (JStr s)).
  { intros k v K1 K2 K3 Hk. apply lookup_written_string. unfold task.
    rewrite lookup_insert_ne by congruence.
    rewrite lookup_insert_ne by congruence.
    rewrite lookup_set_prop_ne by congruence.
    now apply lookup_union_Some_l. }
  assert (Hpct : JSON_written_obj task !! "percentage"
                 = Some (JSON_number (Client.calculatePercentage updatedSubTasks))).
  { rewrite lookup_JSON_written_obj. unfold task. rewrite lookup_insert_eq.
    simpl. now rewrite (percentageOf_client e updatedSubTasks 0 subTasks Hn). }
  split; [|split; [|split; [|split; [|split; [|split; [|split; [|split]]]]]]].
  - apply (stored_task_written users ui user tasks i (JObj task)).
    + eapply lookup_lt_Some; exact Hl.
    + eapply lookup_lt_Some; exact Ho.
  - apply lookup_written_string. unfold task.
    rewrite lookup_insert_ne by discriminate.
    rewrite lookup_insert_ne by discriminate.
    rewrite lookup_set_prop_eq, Hoid. simpl. now rewrite Hcid.
  - apply U; try discriminate. lookup_concrete.
  - apply U; try discriminate. lookup_concrete.
  - apply U; try discriminate. lookup_concrete.
  - exact Hpct.
  - intros Hlen. rewrite Hpct. f_equal.
    now apply calculatePercentage_as_written.
  - intros icon Hicon. apply U; try discriminate.
    rewrite task_json_icon, Hicon. reflexivity.
  - intros Hall. rewrite lookup_JSON_written_obj. unfold task.
    rewrite lookup_insert_ne by discriminate.
    rewrite lookup_insert_eq. simpl.
    rewrite normalizeSubTasks_normal in Hn.
    + injection Hn as <-. do 2 f_equal.
      rewrite <- list_fmap_compose. apply list_fmap_ext.
      intros j st _. apply JSON_written_subTask_json.
    + apply Forall_fmap. eapply Forall_impl; [exact Hall|].
      intros st (H1 & H2 & H3). now apply subTask_json_normal.
Qed.

(** ** The forms and the server *)

(** X29. A task that TaskForm submits is accepted: for a caller the gate
    lets through whose record has a task array or none, the POST is
    answered 201, never 400, since the form posts a trimmed title that is
    not empty.  The created task has the title of the form and, when they
    are not empty, its date, time and icon, but the id the server draws:
    the id the form generated is dropped. *)
Theorem taskForm_is_accepted (e : env) (users : list obj)
    (session : option cookie) (user : obj)
    (uuid4 isoDate localeTime title : string) (icon : option string)
    (posted : TaskSlice.Task) :
  authenticate users session = Next user ->
  (user !! "tasks" = None \/ exists l, user !! "tasks" = Some (JArr l)) ->
  TaskForm.handleSubmit uuid4 isoDate localeTime title icon = Some posted ->
  exists (users' : list obj) (task : obj),
    POST_tasks e users session (Some (JObj (TaskView.task_json posted)))
    = (users', reply 201 (JObj {[ "message" := JStr "Task created";
                                  "task" := JObj task ]}) [])
    /\ task !! "id" = Some (JStr (randomUUID e 0))
    /\ task !! "title" = Some (JStr (TaskSlice.title posted))
    /\ TaskSlice.title posted = Str.trim title
    /\ (isoDate <> "" -> task !! "date" = Some (JStr isoDate))
    /\ (localeTime <> "" -> task !! "time" = Some (JStr localeTime))
    /\ (forall i, icon = Some i -> i <> "" -> task !! "icon" = Some (JStr i)).
Proof.
  intros Ha Ht Hs. unfold TaskForm.handleSubmit in Hs. cbv zeta in Hs.
  destruct (truthy (Some (JStr (Str.trim title)))) eqn:T; [|discriminate].
  simpl in Hs. injection Hs as <-.
  apply truthy_string in T.
  set (posted := {| TaskSlice.id := uuid4 |}).
  assert (Htrim : Str.trim (TaskSlice.title posted) <> "")
    by (simpl; now rewrite trim_idem).
  destruct (create_task_ok Number_toString e users session user
              (TaskView.task_json posted) (TaskSlice.title posted)
              Ha (task_json_title posted) Htrim Ht) as (ui & _ & _ & Hpost).
  cbv zeta in Hpost.
  assert (Eq : Str.trim (TaskSlice.title posted) = TaskSlice.title posted)
    by (simpl; apply trim_idem).
  rewrite Eq in Hpost.
  set (task := newTask e (Some (JStr (TaskSlice.title posted)))
                 (TaskView.task_json posted !! "date")
                 (TaskView.task_json posted !! "time")
                 (TaskView.task_json posted !! "icon")) in *.
  eexists _, (JSON_written_obj task). split.
  { rewrite Hpost. f_equal. symmetry.
    apply (reply_message_written 201 "Task created" "task" (JObj task)). }
  assert (Hor : forall s d, s <> "" -> or_else (Some (JStr s)) d = Some (JStr s)).
  { intros s d Hs. unfold or_else.
    now rewrite (proj2 (truthy_string s) Hs). }
  split; [apply lookup_written_string, newTask_id|].
  split; [apply lookup_written_string, lookup_set_prop_eq|].
  split; [reflexivity|].
  split; [|split].
  - intros Hd. apply lookup_written_string. unfold task, newTask.
    rewrite lookup_set_prop_ne by discriminate.
    rewrite lookup_set_prop_eq, task_json_date. now apply Hor.
  - intros Hd. apply lookup_written_string. unfold task, newTask.
    rewrite !lookup_set_prop_ne by discriminate.
    rewrite lookup_set_prop_eq, task_json_time. now apply Hor.
  - intros i Hi Hne. apply lookup_written_string. unfold task, newTask.
    rewrite !lookup_set_prop_ne by discriminate.
    rewrite lookup_set_prop_eq, task_json_icon.
    change (TaskSlice.icon _) with icon. rewrite Hi. now apply Hor.
Qed.

(** The PUT of a task as the client serializes it: what is answered is
    the task in the memory of the handler, as JSON writes it. *)
Lemma put_task_json (e : env) (users : list obj) (session : option cookie)
    (user : obj) (tasks : list json) (taskId : string) (i : nat)
    (originalTask : obj) (sent : TaskSlice.Task) :
  authenticate users session = Next user ->
  user !! "tasks" = Some (JArr tasks) ->
  JNull ∉ tasks ->
  findIndex (has_id taskId) tasks = Some i ->
  tasks !! i = Some (JObj originalTask) ->
  exists (users' : list obj) (subTasks : list json) (ui : nat),
    users !! ui = Some user
    /\ PUT_task e users session taskId (Some (JObj (TaskView.task_json sent)))
       = (users',
          reply 200
            (JObj {[ "message" := JStr "Task updated";
                     "task" :=
                       JObj (JSON_written_obj
                               (<["percentage" :=
                                    JNum (Client.calculatePercentage
                                            (TaskSlice.subTasks sent))]>
                                  (<["subTasks" := JArr subTasks]>
                                     (set_prop "id" (originalTask !! "id")
                                        (TaskView.task_json sent
                                           ∪ originalTask))))) ]})
            []).
Proof.
  intros Ha Ht Hnull Hi Ho.
  assert (Hinc : incoming_subTasks originalTask (TaskView.task_json sent)
                 = TaskView.subTask_json <$> TaskSlice.subTasks sent).
  { unfold incoming_subTasks. rewrite task_json_subTasks. reflexivity. }
  assert (Hnorm : Forall (fun st => normalizable st = true)
                    (incoming_subTasks originalTask (TaskView.task_json sent))).
  { rewrite Hinc. apply Forall_fmap, Forall_forall. intros st _.
    apply subTask_json_normalizable. }
  destruct (update_found Number_toString e users session user tasks taskId i
              originalTask (TaskView.task_json sent)
              Ha Ht Hnull Hi Ho Hnorm)
    as (ui & subTasks & Hui & Hl & Hn & Hput).
  cbv zeta in Hput. rewrite Hinc in Hn.
  rewrite (percentageOf_client e _ 0 subTasks Hn) in Hput.
  eexists _, subTasks, ui. split; [exact Hl|].
  rewrite Hput. f_equal. symmetry.
  apply (reply_message_written 200 "Task updated" "task" (JObj _)).
Qed.

(** X30. EditTask submits only a title that is not blank, trimmed, and
    its PUT, for a task found under the caller's tasks, is answered 200.
    The stored task then has the trimmed title and a percentage computed
    from the subtasks the form sent along, stored as JSON writes it, which
    for a list of up to 100 subtasks is the number itself.  An edit without
    an icon leaves the stored icon in place: the key is dropped from the
    request and the server keeps what it had, as JSON writes it, which in
    a users file as the server writes it is what it had. *)
Theorem editTask_agrees_with_PUT (e : env) (users : list obj)
    (session : option cookie) (user : obj) (tasks : list json) (i : nat)
    (originalTask : obj) (taskList : TaskSlice.Task) (title : string)
    (icon : option string) :
  authenticate users session = Next user ->
  user !! "tasks" = Some (JArr tasks) ->
  JNull ∉ tasks ->
  findIndex (has_id (TaskSlice.id taskList)) tasks = Some i ->
  tasks !! i = Some (JObj originalTask) ->
  (EditTask.handleSubmit taskList title icon = None <-> Str.trim title = "")
  /\ forall sent,
       EditTask.handleSubmit taskList title icon = Some sent ->
       exists (users' : list obj) (task : obj),
         PUT_task e users session (TaskSlice.id taskList)
           (Some (JObj (TaskView.task_json sent)))
         = (users', reply 200 (JObj {[ "message" := JStr "Task updated";
                                       "task" := JObj task ]}) [])
         /\ task !! "title" = Some (JStr (Str.trim title))
         /\ Str.trim title <> ""
         /\ task !! "percentage"
            = Some (JSON_number (Client.calculatePercentage
                                   (TaskSlice.subTasks taskList)))
         /\ (length (TaskSlice.subTasks taskList) <= 100 ->
             task !! "percentage"
             = Some (JNum (Client.calculatePercentage
                             (TaskSlice.subTasks taskList))))
         /\ task !! "icon" = match icon with
                             | Some i => Some (JStr i)
                             | None => JSON_written <$> originalTask !! "icon"
                             end
         /\ (file_as_written users ->
             task !! "icon" = match icon with
                              | Some i => Some (JStr i)
                              | None => originalTask !! "icon"
                              end).
Proof.
  intros Ha Ht Hnull Hi Ho. unfold EditTask.handleSubmit.
  destruct (String.eqb_spec (Str.trim title) "") as [E|E].
  - split; [tauto | discriminate].
  - split; [split; [discriminate | contradiction]|].
    intros sent [= <-].
    set (sent := {| TaskSlice.id := TaskSlice.id taskList |}).
    destruct (put_task_json e users session user tasks (TaskSlice.id taskList)
                i originalTask sent Ha Ht Hnull Hi Ho)
      as (users' & subTasks & ui & Hl & Hput).
    eexists _, _. split; [exact Hput|].
    assert (Hpct : forall o : obj,
              JSON_written_obj
                (<["percentage" :=
                     JNum (Client.calculatePercentage
                             (TaskSlice.subTasks taskList))]> o)
                !! "percentage"
              = Some (JSON_number (Client.calculatePercentage
                                     (TaskSlice.subTasks taskList)))).
    { intros o. now rewrite lookup_JSON_written_obj, lookup_insert_eq. }
    assert (Hicon : JSON_written_obj
                      (<["percentage" :=
                           JNum (Client.calculatePercentage
                                   (TaskSlice.subTasks sent))]>
                         (<["subTasks" := JArr subTasks]>
                            (set_prop "id" (originalTask !! "id")
                               (TaskView.task_json sent ∪ originalTask))))
                      !! "icon"
                    = match icon with
                      | Some i => Some (JStr i)
                      | None => JSON_written <$> originalTask !! "icon"
                      end).
    { rewrite lookup_JSON_written_obj.
      rewrite !lookup_insert_ne by discriminate.
      rewrite lookup_set_prop_ne by discriminate.
      destruct icon as [ic|].
      - rewrite (lookup_union_Some_l _ _ _ (JStr ic)); [reflexivity|].
        rewrite task_json_icon. reflexivity.
      - rewrite lookup_union_r; [reflexivity|].
        rewrite task_json_icon. reflexivity. }
    split; [|split; [exact E|split; [|split; [|split]]]].
    + apply lookup_written_string.
      rewrite !lookup_insert_ne by discriminate.
      rewrite lookup_set_prop_ne by discriminate.
      apply lookup_union_Some_l. apply task_json_title.
    + apply Hpct.
    + intros Hlen. simpl TaskSlice.subTasks. rewrite Hpct. f_equal.
      now apply calculatePercentage_as_written.
    + exact Hicon.
    + intros Hw. rewrite Hicon. destruct icon as [ic|]; [reflexivity|].
      rewrite <- lookup_JSON_written_obj. f_equal.
      apply JSON_written_obj_as_written.
      eapply Forall_lookup_1; [|exact Ho].
      exact (written_tasks _ _ _ _ Hw Hl Ht).
Qed.
End MirrorFacts.

(* ===================================================================== *)
(** * The further properties on concrete cases *)
(* ===================================================================== *)

(** A PUT for an id that bob's list does not have: 404, nothing written. *)
Lemma task_routes_write_only_on_success_witness :
  status (PUT_task Scenario.Number_toString Scenario.e Scenario.users
            Scenario.bob_session "t9" (Some (JObj ∅))).2 <> 200%Z
  /\ (PUT_task Scenario.Number_toString Scenario.e Scenario.users
        Scenario.bob_session "t9" (Some (JObj ∅))).1 = Scenario.users.
Proof.
  assert (H : status (PUT_task Scenario.Number_toString Scenario.e
                        Scenario.users Scenario.bob_session "t9"
                        (Some (JObj ∅))).2 <> 200%Z) by run.
  split; [exact H|].
  exact (proj2 (proj1 (proj2 (task_routes_write_only_on_success
                                Scenario.Number_toString Scenario.e
                                Scenario.users Scenario.bob_session "t9"
                                (Some (JObj ∅))))) H).
Defined.

(** bob deletes his task: his record is the one that changes, in [tasks]. *)
Lemma task_routes_touch_only_the_caller_witness :
  file_as_written Scenario.users
  /\ Scenario.users !! 1 = Some Scenario.bob
  /\ (DELETE_task Scenario.Number_toString Scenario.users
        Scenario.bob_session "t1").1 !! 1
     = Some (<["tasks" := JArr []]> Scenario.bob)
  /\ <["tasks" := JArr []]> Scenario.bob <> Scenario.bob
  /\ authenticate Scenario.Number_toString Scenario.users Scenario.bob_session
     = Next Scenario.bob
  /\ forall k, k <> "tasks" ->
               <["tasks" := JArr []]> Scenario.bob !! k = Scenario.bob !! k.
Proof.
  assert (H1 : Scenario.users !! 1 = Some Scenario.bob) by reflexivity.
  assert (H2 : (DELETE_task Scenario.Number_toString Scenario.users
                  Scenario.bob_session "t1").1 !! 1
               = Some (<["tasks" := JArr []]> Scenario.bob)) by run.
  assert (H3 : <["tasks" := JArr []]> Scenario.bob <> Scenario.bob).
  { intros H. apply (f_equal (fun o : obj => o !! "tasks")) in H.
    vm_compute in H. discriminate. }
  split; [exact scenario_as_written|].
  split; [exact H1|]. split; [exact H2|]. split; [exact H3|].
  exact (proj2 (proj2 (task_routes_touch_only_the_caller
                         Scenario.Number_toString Scenario.e Scenario.users
                         Scenario.bob_session "t1" None
                         (DELETE_task Scenario.Number_toString Scenario.users
                            Scenario.bob_session "t1").1
                         (or_intror (or_intror eq_refl))))
           scenario_as_written
           1 Scenario.bob (<["tasks" := JArr []]> Scenario.bob) H1 H2 H3).
Defined.

(** A users file written by hand in which alice's record holds the number
    -0: bob's DELETE writes the whole file, and alice's record with it, as
    JSON writes it. *)
Example other_records_are_written_anew :
  let users : list obj :=
    [<["age" := JNum (S754_zero true)]> Scenario.alice; Scenario.bob] in
  let users' := (DELETE_task Scenario.Number_toString users
                   Scenario.bob_session "t1").1 in
  users' !! 0 ≫= (fun u => u !! "age") = Some (JNum (S754_zero false))
  /\ users' !! 0 <> users !! 0.
Proof.
  cbv zeta. split; [vm_compute; reflexivity|].
  intros H.
  apply (f_equal (fun u : option obj => u ≫= (fun u => u !! "age"))) in H.
  vm_compute in H. discriminate.
Qed.

Lemma create_then_delete_witness :
  file_as_written Scenario.users
  /\ authenticate Scenario.Number_toString Scenario.users Scenario.bob_session
     = Next Scenario.bob
  /\ Scenario.bob !! "tasks" = Some (JArr [JObj Scenario.groceries])
  /\ (JNull ∉ [JObj Scenario.groceries])
  /\ Forall (fun t => has_id (randomUUID Scenario.e 0) t = false)
       [JObj Scenario.groceries]
  /\ ({[ "title" := JStr " Buy milk " ]} : obj) !! "title"
     = Some (JStr " Buy milk ")
  /\ Str.trim " Buy milk " <> ""
  /\ status (POST_tasks Scenario.Number_toString Scenario.e Scenario.users
               Scenario.bob_session
               (Some (JObj {[ "title" := JStr " Buy milk " ]}))).2 = 201%Z
  /\ DELETE_task Scenario.Number_toString
       (POST_tasks Scenario.Number_toString Scenario.e Scenario.users
          Scenario.bob_session
          (Some (JObj {[ "title" := JStr " Buy milk " ]}))).1
       Scenario.bob_session (randomUUID Scenario.e 0)
     = (Scenario.users,
        reply 200 (JObj {[ "message" := JStr "Task deleted" ]}) []).
Proof.
  assert (H1 : authenticate Scenario.Number_toString Scenario.users
                 Scenario.bob_session = Next Scenario.bob) by run.
  assert (H2 : Scenario.bob !! "tasks" = Some (JArr [JObj Scenario.groceries]))
    by reflexivity.
  assert (H3 : JNull ∉ [JObj Scenario.groceries]) by apply no_null_in_bobs_list.
  assert (H4 : Forall (fun t => has_id (randomUUID Scenario.e 0) t = false)
                 [JObj Scenario.groceries])
    by (repeat constructor).
  assert (H5 : ({[ "title" := JStr " Buy milk " ]} : obj) !! "title"
               = Some (JStr " Buy milk ")) by reflexivity.
  assert (H6 : Str.trim " Buy milk " <> "") by run.
  split; [exact scenario_as_written|].
  repeat (split; [assumption|]).
  exact (create_then_delete Scenario.Number_toString Scenario.e Scenario.users
           Scenario.bob_session Scenario.bob [JObj Scenario.groceries]
           {[ "title" := JStr " Buy milk " ]} " Buy milk "
           scenario_as_written H1 H2 H3 H4 H5 H6).
Defined.

(** An update that brings a subtask with an id of its own, sent again a
    minute later. *)
Lemma update_twice_witness :
  file_as_written Scenario.users
  /\ authenticate Scenario.Number_toString Scenario.users Scenario.bob_session
     = Next Scenario.bob
  /\ Scenario.bob !! "tasks" = Some (JArr [JObj Scenario.groceries])
  /\ (JNull ∉ [JObj Scenario.groceries])
  /\ findIndex (has_id "t1") [JObj Scenario.groceries] = Some 0
  /\ [JObj Scenario.groceries] !! 0 = Some (JObj Scenario.groceries)
  /\ Forall (fun st => normalizable st = true)
       (incoming_subTasks Scenario.groceries
          {[ "subTasks" := JArr [Scenario.tea] ]})
  /\ Forall has_written_id
       (incoming_subTasks Scenario.groceries
          {[ "subTasks" := JArr [Scenario.tea] ]})
  /\ status (PUT_task Scenario.Number_toString Scenario.e Scenario.users
               Scenario.bob_session "t1"
               (Some (JObj {[ "subTasks" := JArr [Scenario.tea] ]}))).2
     = 200%Z
  /\ PUT_task Scenario.Number_toString Scenario.later
       (PUT_task Scenario.Number_toString Scenario.e Scenario.users
          Scenario.bob_session "t1"
          (Some (JObj {[ "subTasks" := JArr [Scenario.tea] ]}))).1
       Scenario.bob_session "t1"
       (Some (JObj {[ "subTasks" := JArr [Scenario.tea] ]}))
     = PUT_task Scenario.Number_toString Scenario.e Scenario.users
         Scenario.bob_session "t1"
         (Some (JObj {[ "subTasks" := JArr [Scenario.tea] ]})).
Proof.
  assert (H1 : authenticate Scenario.Number_toString Scenario.users
                 Scenario.bob_session = Next Scenario.bob) by run.
  assert (H2 : Scenario.bob !! "tasks" = Some (JArr [JObj Scenario.groceries]))
    by reflexivity.
  assert (H3 : JNull ∉ [JObj Scenario.groceries]) by apply no_null_in_bobs_list.
  assert (H4 : findIndex (has_id "t1") [JObj Scenario.groceries] = Some 0)
    by reflexivity.
  assert (H5 : [JObj Scenario.groceries] !! 0 = Some (JObj Scenario.groceries))
    by reflexivity.
  assert (H6 : Forall (fun st => normalizable st = true)
                 (incoming_subTasks Scenario.groceries
                    {[ "subTasks" := JArr [Scenario.tea] ]}))
    by (repeat constructor).
  assert (H7 : Forall has_written_id
                 (incoming_subTasks Scenario.groceries
                    {[ "subTasks" := JArr [Scenario.tea] ]})).
  { repeat constructor. exists (JStr "s3"). repeat split. }
  split; [exact scenario_as_written|].
  repeat (split; [assumption|]).
  exact (update_twice Scenario.Number_toString Scenario.e Scenario.later
           Scenario.users Scenario.bob_session Scenario.bob
           [JObj Scenario.groceries] "t1" 0 Scenario.groceries
           {[ "subTasks" := JArr [Scenario.tea] ]}
           scenario_as_written H1 H2 H3 H4 H5 H6 H7).
Defined.

(** An update that brings a subtask without id is not idempotent: sent
    again, it is stored with another generated id. *)
Example update_twice_without_ids :
  let body := Some (JObj {[ "subTasks" := JArr [Scenario.submitted true] ]}) in
  let first := PUT_task Scenario.Number_toString Scenario.e Scenario.users
                 Scenario.bob_session "t1" body in
  let second := PUT_task Scenario.Number_toString Scenario.later first.1
                  Scenario.bob_session "t1" body in
  stored_task first.1 1 0 ≫= (fun t => field t "subTasks")
  = Some (JArr [JObj {[ "id" := JStr "uuid-0"; "title" := JStr "milk";
                        "description" := JStr "";
                        "completed" := JBool true ]}])
  /\ stored_task second.1 1 0 ≫= (fun t => field t "subTasks")
     = Some (JArr [JObj {[ "id" := JStr "later-0"; "title" := JStr "milk";
                           "description" := JStr "";
                           "completed" := JBool true ]}]).
Proof. cbv zeta. split; vm_compute; reflexivity. Qed.

(** A users file in which a record has the empty id, and the cookie ":x"
    in base64: the gate rejects and clears the cookie, check-session
    answers with that record.  And the cookie "j:5": the gate clears it,
    check-session leaves it. *)
Lemma gate_and_check_session_witness :
  (authenticate Scenario.Number_toString [Scenario.nobody] (Some (Text "Ong="))
   = Rejected (reply 401 (error "Invalid session token") [clearSession])
   /\ truthy_cookie (Text "Ong=") = true
   /\ decodeUserId (Text "Ong=") = Ret ""
   /\ findUser Scenario.Number_toString [Scenario.nobody] ""
      = Ret (Some Scenario.nobody)
   /\ check_session Scenario.Number_toString [Scenario.nobody]
        (Some (Text "Ong="))
      = reply 200 (JObj {[ "user" := JObj (publicUser Scenario.nobody) ]}) [])
  /\ (authenticate Scenario.Number_toString Scenario.users
        (Some (Parsed (JNum (Num.ofZ 5)) Throw))
      = Rejected (reply 401 (error "Session validation failed") [clearSession])
      /\ truthy_cookie (Parsed (JNum (Num.ofZ 5)) Throw) = true
      /\ decodeUserId (Parsed (JNum (Num.ofZ 5)) Throw) = Throw
      /\ cookies (reply 401 (error "Session validation failed") [clearSession])
         = [clearSession]
      /\ check_session Scenario.Number_toString Scenario.users
           (Some (Parsed (JNum (Num.ofZ 5)) Throw))
         = reply 200 (JObj {[ "user" := JNull ]}) []).
Proof.
  assert (A1 : authenticate Scenario.Number_toString [Scenario.nobody]
                 (Some (Text "Ong="))
               = Rejected (reply 401 (error "Invalid session token")
                             [clearSession])) by reflexivity.
  assert (A2 : authenticate Scenario.Number_toString Scenario.users
                 (Some (Parsed (JNum (Num.ofZ 5)) Throw))
               = Rejected (reply 401 (error "Session validation failed")
                             [clearSession])) by reflexivity.
  assert (F : findUser Scenario.Number_toString [Scenario.nobody] ""
              = Ret (Some Scenario.nobody)) by reflexivity.
  split.
  - split; [exact A1|]. split; [reflexivity|]. split; [reflexivity|].
    split; [exact F|].
    pose proof (proj2 (gate_and_check_session Scenario.Number_toString
                         [Scenario.nobody] (Some (Text "Ong="))) _ A1)
      as [_ G].
    destruct (G _ eq_refl eq_refl) as (_ & _ & G').
    destruct (G' "" eq_refl) as (_ & _ & G'').
    exact (proj2 (G'' Scenario.nobody F)).
  - split; [exact A2|]. split; [reflexivity|]. split; [reflexivity|].
    split; [reflexivity|].
    pose proof (proj2 (gate_and_check_session Scenario.Number_toString
                         Scenario.users
                         (Some (Parsed (JNum (Num.ofZ 5)) Throw))) _ A2)
      as [_ G].
    destruct (G _ eq_refl eq_refl) as (_ & G' & _).
    exact (G' eq_refl).
Defined.

(** An email that is a number: [email?.trim] is not a function.  And the
    credentials of a user whose id cannot be made a string: 500. *)
Lemma login_outcomes_witness :
  (prop (Some (JObj {[ "email" := JNum (Num.ofZ 5) ]})) "email"
   = Ret (Some (JNum (Num.ofZ 5)))
   /\ text_or_absent (Some (JNum (Num.ofZ 5))) = false
   /\ login Scenario.Number_toString Scenario.e Scenario.users
        (Some (JObj {[ "email" := JNum (Num.ofZ 5) ]})) = Throw)
  /\ (login Scenario.Number_toString Scenario.e [Scenario.carol]
        (Some (JObj Scenario.carol_credentials))
      = Ret (reply 500 (error "Server error during login") [])
      /\ ToString Scenario.Number_toString (Scenario.carol !! "id") = Throw
      /\ status (reply 500 (error "Server error during login") []) = 500%Z).
Proof.
  assert (H1 : prop (Some (JObj {[ "email" := JNum (Num.ofZ 5) ]})) "email"
               = Ret (Some (JNum (Num.ofZ 5)))) by reflexivity.
  assert (H2 : text_or_absent (Some (JNum (Num.ofZ 5))) = false)
    by reflexivity.
  assert (H3 : login Scenario.Number_toString Scenario.e [Scenario.carol]
                 (Some (JObj Scenario.carol_credentials))
               = Ret (reply 500 (error "Server error during login") []))
    by run.
  assert (H4 : ToString Scenario.Number_toString (Scenario.carol !! "id")
               = Throw) by reflexivity.
  split.
  - repeat (split; [assumption|]).
    exact (proj2 (proj1 (login_outcomes Scenario.Number_toString Scenario.e
                           Scenario.users
                           (Some (JObj {[ "email" := JNum (Num.ofZ 5) ]}))))
             (or_intror (or_intror (ex_intro _ _ (conj H1 H2))))).
  - repeat (split; [assumption|]).
    apply (proj2 (proj2 (proj2 (login_outcomes Scenario.Number_toString
                                  Scenario.e [Scenario.carol]
                                  (Some (JObj Scenario.carol_credentials))))
                    _ H3)).
    exists (Some (JStr "carol@example.com")),
           (Some (JStr "carol@example.com")),
           (Some (JStr "pass")), Scenario.carol.
    repeat split; try reflexivity; run.
Defined.

Lemma login_then_list_witness :
  exists r,
    login Scenario.Number_toString Scenario.e Scenario.users
      (Some (JObj Scenario.bob_credentials)) = Ret r
    /\ status r = 200%Z
    /\ exists user token options userId,
         cookies r = [SetCookie "session" token options]
         /\ field (body r) "user"
            = Some (JObj (JSON_written_obj (publicUser user)))
         /\ ToString Scenario.Number_toString (user !! "id") = Ret userId
         /\ (":"%char ∉ Str.bytes userId ->
             Str.wellformed userId = true ->
             userId <> "" ->
             findUser Scenario.Number_toString Scenario.users userId
             = Ret (Some user) ->
             exists tasks,
               JSON_written_obj (publicUser user) !! "tasks"
               = Some (JSON_written tasks)
               /\ GET_tasks Scenario.Number_toString Scenario.users
                    (Some (Text token))
                  = (Scenario.users,
                     reply 200 (JObj {[ "tasks" := tasks ]}) [])
               /\ field (body (reply 200 (JObj {[ "tasks" := tasks ]}) []))
                    "tasks"
                  = Some (JSON_written tasks)).
Proof.
  eexists. split; [vm_compute; reflexivity|].
  split; [reflexivity|].
  refine (login_then_list Scenario.Number_toString Scenario.e Scenario.users
            (Some (JObj Scenario.bob_credentials)) _ _ _);
    [vm_compute; reflexivity | reflexivity].
Defined.

(** bob logs in and lists his tasks with the cookie he received. *)
Example bob_logs_in_and_lists :
  exists r token options,
    login Scenario.Number_toString Scenario.e Scenario.users
      (Some (JObj Scenario.bob_credentials)) = Ret r
    /\ cookies r = [SetCookie "session" token options]
    /\ field (body r) "user" ≫= (fun u => field u "tasks")
       = Some (JArr [JObj Scenario.groceries])
    /\ GET_tasks Scenario.Number_toString Scenario.users (Some (Text token))
       = (Scenario.users,
          reply 200 (JObj {[ "tasks" := JArr [JObj Scenario.groceries] ]}) []).
Proof.
  eexists _, _, _. split; [vm_compute; reflexivity|].
  repeat split; vm_compute; reflexivity.
Qed.

Lemma create_task_rejections_witness :
  authenticate Scenario.Number_toString Scenario.users Scenario.bob_session
  = Next Scenario.bob
  /\ (exists s, ({[ "title" := JStr "   " ]} : obj) !! "title" = Some (JStr s)
                /\ Str.trim s = "")
  /\ POST_tasks Scenario.Number_toString Scenario.e Scenario.users
       Scenario.bob_session (Some (JObj {[ "title" := JStr "   " ]}))
     = (Scenario.users, reply 400 (error "Title is required") []).
Proof.
  assert (H1 : authenticate Scenario.Number_toString Scenario.users
                 Scenario.bob_session = Next Scenario.bob) by run.
  assert (H2 : exists s, ({[ "title" := JStr "   " ]} : obj) !! "title"
                         = Some (JStr s) /\ Str.trim s = "").
  { exists "   ". split; [reflexivity | run]. }
  repeat (split; [assumption|]).
  exact (proj1 (create_task_rejections Scenario.Number_toString Scenario.e
                  Scenario.users Scenario.bob_session Scenario.bob
                  {[ "title" := JStr "   " ]} H1)
           (or_intror (or_intror H2))).
Defined.

(** A body that brings an id and a percentage of its own. *)
Lemma create_task_reads_four_properties_witness :
  (forall k, k ∈ ["title"; "date"; "time"; "icon"] ->
     ({[ "title" := JStr "Tea"; "id" := JStr "mine";
         "percentage" := JNum (Num.ofZ 100) ]} : obj) !! k
     = ({[ "title" := JStr "Tea" ]} : obj) !! k)
  /\ POST_tasks Scenario.Number_toString Scenario.e Scenario.users
       Scenario.bob_session
       (Some (JObj {[ "title" := JStr "Tea"; "id" := JStr "mine";
                      "percentage" := JNum (Num.ofZ 100) ]}))
     = POST_tasks Scenario.Number_toString Scenario.e Scenario.users
         Scenario.bob_session (Some (JObj {[ "title" := JStr "Tea" ]})).
Proof.
  assert (H : forall k, k ∈ ["title"; "date"; "time"; "icon"] ->
     ({[ "title" := JStr "Tea"; "id" := JStr "mine";
         "percentage" := JNum (Num.ofZ 100) ]} : obj) !! k
     = ({[ "title" := JStr "Tea" ]} : obj) !! k).
  { intros k Hk.
    repeat (apply elem_of_cons in Hk as [->|Hk]; [reflexivity|]).
    now apply elem_of_nil in Hk. }
  split; [exact H|].
  exact (create_task_reads_four_properties Scenario.Number_toString Scenario.e
           Scenario.users Scenario.bob_session _ _ H).
Defined.

Lemma updateTask_keeps_ids_witness :
  (TaskSlice.id Store.shopping
     ∈ (TaskSlice.id <$> TaskSlice.tasks Store.state))
  /\ Store.shopping
       ∈ TaskSlice.tasks (TaskSlice.updateTask Store.state Store.shopping).
Proof.
  assert (H : TaskSlice.id Store.shopping
                ∈ (TaskSlice.id <$> TaskSlice.tasks Store.state))
    by apply list_elem_of_here.
  split; [exact H|].
  exact (proj1 (proj2 (proj2 (proj2 (proj2
           (updateTask_keeps_ids Store.state Store.shopping))))) H).
Defined.

Lemma addTask_then_deleteTask_witness :
  (TaskSlice.id Store.groceries
     ∉ (TaskSlice.id <$> TaskSlice.tasks TaskSlice.initialState))
  /\ TaskSlice.deleteTask
       (TaskSlice.addTask TaskSlice.initialState Store.groceries)
       (TaskSlice.id Store.groceries)
     = TaskSlice.initialState.
Proof.
  assert (H : TaskSlice.id Store.groceries
                ∉ (TaskSlice.id <$> TaskSlice.tasks TaskSlice.initialState))
    by apply not_elem_of_nil.
  split; [exact H|].
  exact (proj2 (addTask_then_deleteTask TaskSlice.initialState
                  Store.groceries) H).
Defined.

Lemma saveEdit_keeps_progress_witness :
  exists updated,
    TaskView.saveEdit [Store.milk; Store.eggs] "s2" " Six eggs " " free range"
    = Some updated
    /\ Client.id <$> updated = Client.id <$> [Store.milk; Store.eggs]
    /\ Client.completed <$> updated
       = Client.completed <$> [Store.milk; Store.eggs]
    /\ Client.calculatePercentage updated
       = Client.calculatePercentage [Store.milk; Store.eggs]
    /\ forall st, st ∈ updated -> Client.id st = "s2" ->
         Client.title st = Str.trim " Six eggs "
         /\ Client.description st = Str.trim " free range".
Proof.
  eexists. split; [vm_compute; reflexivity|].
  refine (proj2 (saveEdit_keeps_progress [Store.milk; Store.eggs] "s2"
                   " Six eggs " " free range") _ _).
  vm_compute. reflexivity.
Defined.

Lemma handleAddSubTask_then_deleteSubTask_witness :
  ("s3" ∉ (Client.id <$> [Store.milk; Store.eggs]))
  /\ TaskView.deleteSubTask
       (TaskView.handleAddSubTask "s3" [Store.milk; Store.eggs] "Bread" "rye")
       "s3"
     = [Store.milk; Store.eggs].
Proof.
  assert (H : "s3" ∉ (Client.id <$> [Store.milk; Store.eggs])).
  { intros Hin.
    repeat (apply elem_of_cons in Hin as [Hin|Hin]; [discriminate|]).
    now apply elem_of_nil in Hin. }
  split; [exact H|].
  exact (handleAddSubTask_then_deleteSubTask "s3" [Store.milk; Store.eggs]
           "Bread" "rye" H).
Defined.

(** The first of three subtasks dragged to the end. *)
Lemma onDragEnd_moves_witness :
  [Store.milk; Store.eggs; Store.bread] !! 0 = Some Store.milk
  /\ 2 < length [Store.milk; Store.eggs; Store.bread]
  /\ exists reordered,
       TaskView.onDragEnd [Store.milk; Store.eggs; Store.bread] 0 2
       = Some <$> reordered
       /\ reordered ≡ₚ [Store.milk; Store.eggs; Store.bread]
       /\ reordered !! 2 = Some Store.milk
       /\ Client.calculatePercentage reordered
          = Client.calculatePercentage [Store.milk; Store.eggs; Store.bread]
       /\ TaskView.onDragEnd reordered 2 0
          = Some <$> [Store.milk; Store.eggs; Store.bread].
Proof.
  assert (H1 : [Store.milk; Store.eggs; Store.bread] !! 0 = Some Store.milk)
    by reflexivity.
  assert (H2 : 2 < length [Store.milk; Store.eggs; Store.bread])
    by (simpl; lia).
  repeat (split; [assumption|]).
  exact (onDragEnd_moves [Store.milk; Store.eggs; Store.bread] 0 2 Store.milk
           H1 H2).
Defined.

(** A drag from position 5 of the three subtasks of the shopping list:
    nothing is sent. *)
Lemma onDragEnd_out_of_range_witness :
  length (TaskSlice.subTasks Store.shopping) <= 5
  /\ (None ∈ TaskView.onDragEnd (TaskSlice.subTasks Store.shopping) 5 0)
  /\ length (TaskView.onDragEnd (TaskSlice.subTasks Store.shopping) 5 0) = 4
  /\ TaskView.calculatePercentage_entries
       (TaskView.onDragEnd (TaskSlice.subTasks Store.shopping) 5 0) = Throw
  /\ TaskView.onDragEnd_save (Some Store.shopping)
       (Some (TaskSlice.id Store.shopping)) 5 (Some 0) = Throw.
Proof.
  assert (H : length (TaskSlice.subTasks Store.shopping) <= 5)
    by (simpl; lia).
  split; [exact H|].
  exact (onDragEnd_out_of_range Store.shopping
           (Some (TaskSlice.id Store.shopping)) 5 0 H).
Defined.

Lemma filteredSubTasks_by_status_witness :
  Some Store.shopping = Some Store.shopping
  /\ (forall status,
        sublist (TaskView.filteredSubTasks Store.toLowerCase
                   (Some Store.shopping) "EG" status)
                (TaskSlice.subTasks Store.shopping))
  /\ TaskView.filteredSubTasks Store.toLowerCase (Some Store.shopping) ""
       TaskView.All
     = TaskSlice.subTasks Store.shopping.
Proof.
  split; [reflexivity|].
  exact (proj2 (proj2 (proj2 (filteredSubTasks_by_status Store.toLowerCase
                                (Some Store.shopping) "EG")))
           Store.shopping eq_refl).
Defined.

(** What the search for "EG" shows of the three subtasks. *)
Example search_shows_eggs :
  TaskView.filteredSubTasks Store.toLowerCase (Some Store.shopping) "EG"
    TaskView.All = [Store.eggs]
  /\ TaskView.filteredSubTasks Store.toLowerCase (Some Store.shopping) "EG"
       TaskView.Done = [].
Proof. split; vm_compute; reflexivity. Qed.

Lemma blank_search_shows_everything_witness :
  Str.trim "   " = ""
  /\ TaskView.filteredSubTasks Store.toLowerCase (Some Store.shopping)
       (TaskSlice.searchQuery (TaskSlice.setSearchQuery Store.state "   "))
       TaskView.All
     = TaskSlice.subTasks Store.shopping.
Proof.
  assert (H : Str.trim "   " = "") by run.
  split; [exact H|].
  exact (proj2 (blank_search_shows_everything Store.toLowerCase Store.state
                  "   " Store.shopping) H).
Defined.

Lemma clamped_in_range_witness :
  Num.ofZ 150 <> S754_nan
  /\ SFleb (Num.ofZ 0) (Circle.clamped (Num.ofZ 150)) = true
  /\ SFleb (Circle.clamped (Num.ofZ 150)) (Num.ofZ 100) = true.
Proof.
  assert (H : Num.ofZ 150 <> S754_nan) by run.
  split; [exact H|].
  exact (proj1 (proj2 (clamped_in_range (Num.ofZ 150))) H).
Defined.

Lemma strokeDashoffset_whole_witness :
  (0 <= 58 <= 100)%Z
  /\ Circle.strokeDashoffset (Num.ofZ 58) = Num.ofZ (100 - 58).
Proof.
  assert (H : (0 <= 58 <= 100)%Z) by lia.
  split; [exact H|].
  exact (strokeDashoffset_whole 58 H).
Defined.

Lemma no_dup_in_store : NoDup (TaskSlice.id <$> TaskSlice.tasks Store.state).
Proof. repeat constructor. apply not_elem_of_nil. Qed.

Lemma deleteTask_mirrors_DELETE_witness :
  authenticate Scenario.Number_toString Scenario.users Scenario.bob_session
  = Next Scenario.bob
  /\ Scenario.bob !! "tasks"
     = Some (JArr (JObj ∘ TaskView.task_json <$> TaskSlice.tasks Store.state))
  /\ NoDup (TaskSlice.id <$> TaskSlice.tasks Store.state)
  /\ status (DELETE_task Scenario.Number_toString Scenario.users
               Scenario.bob_session "t1").2 = 200%Z
  /\ file_as_written Scenario.users
  /\ TaskSlice.tasks (TaskSlice.deleteTask Store.state "t1") = []
  /\ (DELETE_task Scenario.Number_toString Scenario.users
        Scenario.bob_session "t1").1
     = <[1 := <["tasks" := JArr []]> Scenario.bob]> Scenario.users.
Proof.
  assert (H1 : authenticate Scenario.Number_toString Scenario.users
                 Scenario.bob_session = Next Scenario.bob) by run.
  assert (H2 : Scenario.bob !! "tasks"
               = Some (JArr (JObj ∘ TaskView.task_json
                               <$> TaskSlice.tasks Store.state))) by run.
  assert (H3 : NoDup (TaskSlice.id <$> TaskSlice.tasks Store.state))
    by exact no_dup_in_store.
  assert (H4 : status (DELETE_task Scenario.Number_toString Scenario.users
                         Scenario.bob_session "t1").2 = 200%Z) by run.
  repeat (split; [assumption|]).
  split; [exact scenario_as_written|]. split; [reflexivity|].
  destruct (deleteTask_mirrors_DELETE Scenario.Number_toString Scenario.users
              Scenario.bob_session Scenario.bob Store.state "t1" _ _
              H1 H2 H3 (surjective_pairing _) H4)
    as (ui & Hui & _ & _ & Hfile).
  assert (Hui1 : ui = 1).
  { vm_compute in Hui. now injection Hui as <-. }
  subst ui. exact (Hfile scenario_as_written).
Defined.

Lemma saveTask_agrees_with_PUT_witness :
  authenticate Scenario.Number_toString Scenario.users Scenario.bob_session
  = Next Scenario.bob
  /\ Scenario.bob !! "tasks" = Some (JArr [JObj Scenario.groceries])
  /\ (JNull ∉ [JObj Scenario.groceries])
  /\ findIndex (has_id "t1") [JObj Scenario.groceries] = Some 0
  /\ [JObj Scenario.groceries] !! 0 = Some (JObj Scenario.groceries)
  /\ TaskView.chosenTask (TaskSlice.tasks Store.state) (Some "t1")
     = Some Store.groceries
  /\ "t1" <> ""
  /\ exists (sent : TaskSlice.Task) (users' : list obj) (task : obj) (ui : nat),
       TaskView.saveTask (Some Store.groceries) (Some "t1")
         [Store.milk; Store.eggs; Store.bread] None = Some sent
       /\ PUT_task Scenario.Number_toString Scenario.e Scenario.users
            Scenario.bob_session "t1" (Some (JObj (TaskView.task_json sent)))
          = (users', reply 200 (JObj {[ "message" := JStr "Task updated";
                                        "task" := JObj task ]}) [])
       /\ findUserIndex Scenario.Number_toString Scenario.users Scenario.bob
          = Ret (Some ui)
       /\ stored_task users' ui 0 = Some (JObj task)
       /\ task !! "id" = Some (JStr (TaskSlice.id sent))
       /\ task !! "title" = Some (JStr (TaskSlice.title sent))
       /\ task !! "date" = Some (JStr (TaskSlice.date sent))
       /\ task !! "time" = Some (JStr (TaskSlice.time sent))
       /\ task !! "percentage" = Some (JSON_number (TaskSlice.percentage sent))
       /\ (length [Store.milk; Store.eggs; Store.bread] <= 100 ->
           task !! "percentage" = Some (JNum (TaskSlice.percentage sent)))
       /\ (forall icon, TaskSlice.icon sent = Some icon ->
                        task !! "icon" = Some (JStr icon))
       /\ (Forall (fun st => Client.id st <> ""
                             /\ Str.trim (Client.title st) = Client.title st
                             /\ Str.trim (Client.description st)
                                = Client.description st)
             [Store.milk; Store.eggs; Store.bread] ->
             task !! "subTasks"
             = Some (JArr (TaskView.subTask_json <$> TaskSlice.subTasks sent))).
Proof.
  assert (H1 : authenticate Scenario.Number_toString Scenario.users
                 Scenario.bob_session = Next Scenario.bob) by run.
  assert (H2 : Scenario.bob !! "tasks" = Some (JArr [JObj Scenario.groceries]))
    by reflexivity.
  assert (H3 : JNull ∉ [JObj Scenario.groceries]) by apply no_null_in_bobs_list.
  assert (H4 : findIndex (has_id "t1") [JObj Scenario.groceries] = Some 0)
    by reflexivity.
  assert (H5 : [JObj Scenario.groceries] !! 0 = Some (JObj Scenario.groceries))
    by reflexivity.
  assert (H6 : TaskView.chosenTask (TaskSlice.tasks Store.state) (Some "t1")
               = Some Store.groceries) by reflexivity.
  assert (H7 : "t1" <> "") by discriminate.
  repeat (split; [assumption|]).
  exact (saveTask_agrees_with_PUT Scenario.Number_toString Scenario.e
           Scenario.users Scenario.bob_session Scenario.bob
           [JObj Scenario.groceries] 0 Scenario.groceries
           (TaskSlice.tasks Store.state) "t1" Store.groceries
           [Store.milk; Store.eggs; Store.bread] None
           H1 H2 H3 H4 H5 H6 H7).
Defined.

(** The saved subtasks of the case above are stored as the client has
    them, with one subtask of three completed: 33 percent on both sides. *)
Example saved_subtasks_are_stored :
  Forall (fun st => Client.id st <> ""
                    /\ Str.trim (Client.title st) = Client.title st
                    /\ Str.trim (Client.description st) = Client.description st)
    [Store.milk; Store.eggs; Store.bread]
  /\ Client.calculatePercentage [Store.milk; Store.eggs; Store.bread]
     = Num.ofZ 33.
Proof.
  split; [|run].
  repeat constructor; try discriminate; run.
Qed.

Lemma keys_keep_the_selection_in_the_list_witness :
  (0 <= 1 < Z.of_nat (length [Store.milk; Store.eggs; Store.bread]))%Z
  /\ exists actions,
       Keyboard.handleKeyDown Store.toLowerCase false "ArrowDown"
         (Some Store.shopping) 1 [Store.milk; Store.eggs; Store.bread]
       = Ret actions
       /\ forall index, Keyboard.setSelectedIndex index ∈ actions ->
            (0 <= index
             < Z.of_nat (length [Store.milk; Store.eggs; Store.bread]))%Z.
Proof.
  assert (H : (0 <= 1
               < Z.of_nat (length [Store.milk; Store.eggs; Store.bread]))%Z)
    by (simpl; lia).
  split; [exact H|].
  exact (proj1 (keys_keep_the_selection_in_the_list Store.toLowerCase false
                  "ArrowDown" (Some Store.shopping) 1
                  [Store.milk; Store.eggs; Store.bread]) H).
Defined.

(** ArrowDown in the middle of the three subtasks selects the third. *)
Example arrow_down_selects_the_next :
  Keyboard.handleKeyDown Store.toLowerCase false "ArrowDown"
    (Some Store.shopping) 1 [Store.milk; Store.eggs; Store.bread]
  = Ret [Keyboard.setSelectedIndex 2].
Proof. vm_compute. reflexivity. Qed.

Lemma keys_on_a_selection_past_the_end_witness :
  [Store.eggs] <> []
  /\ (Z.of_nat (length [Store.eggs]) <= 1)%Z
  /\ ("Delete" ∈ [" "; "Enter"; "Delete"])
  /\ Keyboard.handleKeyDown Store.toLowerCase false "Delete"
       (Some Store.shopping) 1 [Store.eggs] = Throw.
Proof.
  assert (H1 : [Store.eggs] <> []) by discriminate.
  assert (H2 : (Z.of_nat (length [Store.eggs]) <= 1)%Z) by (simpl; lia).
  assert (H3 : "Delete" ∈ [" "; "Enter"; "Delete"])
    by (do 2 apply list_elem_of_further; apply list_elem_of_here).
  repeat (split; [assumption|]).
  exact (keys_on_a_selection_past_the_end Store.toLowerCase false "Delete"
           Store.shopping 1 [Store.eggs] H1 H2 H3).
Defined.

Lemma no_dup_in_shopping :
  NoDup (Client.id <$> TaskSlice.subTasks Store.shopping).
Proof.
  repeat constructor; intros Hin;
    repeat (apply elem_of_cons in Hin as [Hin|Hin]; [discriminate|]);
    now apply elem_of_nil in Hin.
Qed.

(** Eggs and bread are to do; bread, the second of them, is selected. *)
Lemma space_twice_on_the_last_to_do_witness :
  Store.toLowerCase " " = " "
  /\ NoDup (Client.id <$> TaskSlice.subTasks Store.shopping)
  /\ TaskSlice.id Store.shopping <> ""
  /\ TaskView.filteredSubTasks Store.toLowerCase (Some Store.shopping) ""
       TaskView.ToDo !! 1 = Some Store.bread
  /\ 2 = length (TaskView.filteredSubTasks Store.toLowerCase
                   (Some Store.shopping) "" TaskView.ToDo)
  /\ 0 < 1
  /\ Keyboard.handleKeyDown Store.toLowerCase false " " (Some Store.shopping)
       (Z.of_nat 1)
       (TaskView.filteredSubTasks Store.toLowerCase (Some Store.shopping) ""
          TaskView.ToDo)
     = Ret [Keyboard.toggleComplete (Client.id Store.bread)]
  /\ exists saved,
       TaskView.saveTask (Some Store.shopping)
         (Some (TaskSlice.id Store.shopping))
         (TaskView.toggleComplete (TaskSlice.subTasks Store.shopping)
            (Client.id Store.bread))
         None = Some saved
       /\ Keyboard.handleKeyDown Store.toLowerCase false " " (Some saved)
            (Z.of_nat 1)
            (TaskView.filteredSubTasks Store.toLowerCase (Some saved) ""
               TaskView.ToDo)
          = Throw.
Proof.
  assert (H1 : Store.toLowerCase " " = " ") by reflexivity.
  assert (H2 : NoDup (Client.id <$> TaskSlice.subTasks Store.shopping))
    by exact no_dup_in_shopping.
  assert (H3 : TaskSlice.id Store.shopping <> "") by discriminate.
  assert (H4 : TaskView.filteredSubTasks Store.toLowerCase
                 (Some Store.shopping) "" TaskView.ToDo !! 1
               = Some Store.bread) by reflexivity.
  assert (H5 : 2 = length (TaskView.filteredSubTasks Store.toLowerCase
                             (Some Store.shopping) "" TaskView.ToDo))
    by reflexivity.
  assert (H6 : 0 < 1) by lia.
  repeat (split; [assumption|]).
  exact (space_twice_on_the_last_to_do Store.toLowerCase Store.shopping "" 1
           Store.bread H1 H2 H3 H4 H5 H6).
Defined.

Lemma taskForm_is_accepted_witness :
  authenticate Scenario.Number_toString Scenario.users Scenario.bob_session
  = Next Scenario.bob
  /\ (Scenario.bob !! "tasks" = None
      \/ exists l, Scenario.bob !! "tasks" = Some (JArr l))
  /\ TaskForm.handleSubmit "c1" "2025-02-02" "09:30" " Tea " None
     = Some Store.tea
  /\ exists (users' : list obj) (task : obj),
       POST_tasks Scenario.Number_toString Scenario.e Scenario.users
         Scenario.bob_session (Some (JObj (TaskView.task_json Store.tea)))
       = (users', reply 201 (JObj {[ "message" := JStr "Task created";
                                     "task" := JObj task ]}) [])
       /\ task !! "id" = Some (JStr (randomUUID Scenario.e 0))
       /\ task !! "title" = Some (JStr (TaskSlice.title Store.tea))
       /\ TaskSlice.title Store.tea = Str.trim " Tea "
       /\ ("2025-02-02" <> "" -> task !! "date" = Some (JStr "2025-02-02"))
       /\ ("09:30" <> "" -> task !! "time" = Some (JStr "09:30"))
       /\ (forall i, @None string = Some i -> i <> "" ->
                     task !! "icon" = Some (JStr i)).
Proof.
  assert (H1 : authenticate Scenario.Number_toString Scenario.users
                 Scenario.bob_session = Next Scenario.bob) by run.
  assert (H2 : Scenario.bob !! "tasks" = None
               \/ exists l, Scenario.bob !! "tasks" = Some (JArr l))
    by (right; eexists; reflexivity).
  assert (H3 : TaskForm.handleSubmit "c1" "2025-02-02" "09:30" " Tea " None
               = Some Store.tea) by run.
  repeat (split; [assumption|]).
  exact (taskForm_is_accepted Scenario.Number_toString Scenario.e
           Scenario.users Scenario.bob_session Scenario.bob
           "c1" "2025-02-02" "09:30" " Tea " None Store.tea H1 H2 H3).
Defined.

Lemma editTask_agrees_with_PUT_witness :
  authenticate Scenario.Number_toString Scenario.users Scenario.bob_session
  = Next Scenario.bob
  /\ Scenario.bob !! "tasks" = Some (JArr [JObj Scenario.groceries])
  /\ (JNull ∉ [JObj Scenario.groceries])
  /\ findIndex (has_id (TaskSlice.id Store.groceries))
       [JObj Scenario.groceries] = Some 0
  /\ [JObj Scenario.groceries] !! 0 = Some (JObj Scenario.groceries)
  /\ Str.trim "   " = ""
  /\ EditTask.handleSubmit Store.groceries "   " None = None.
Proof.
  assert (H1 : authenticate Scenario.Number_toString Scenario.users
                 Scenario.bob_session = Next Scenario.bob) by run.
  assert (H2 : Scenario.bob !! "tasks" = Some (JArr [JObj Scenario.groceries]))
    by reflexivity.
  assert (H3 : JNull ∉ [JObj Scenario.groceries]) by apply no_null_in_bobs_list.
  assert (H4 : findIndex (has_id (TaskSlice.id Store.groceries))
                 [JObj Scenario.groceries] = Some 0) by reflexivity.
  assert (H5 : [JObj Scenario.groceries] !! 0 = Some (JObj Scenario.groceries))
    by reflexivity.
  assert (H6 : Str.trim "   " = "") by run.
  repeat (split; [assumption|]).
  exact (proj2 (proj1 (editTask_agrees_with_PUT Scenario.Number_toString
                         Scenario.e Scenario.users Scenario.bob_session
                         Scenario.bob [JObj Scenario.groceries] 0
                         Scenario.groceries Store.groceries "   " None
                         H1 H2 H3 H4 H5)) H6).
Defined.

(** The title " Food " sent from EditTask for bob's task. *)
Example edited_title_is_stored :
  exists sent : TaskSlice.Task,
    EditTask.handleSubmit Store.groceries " Food " None = Some sent
    /\ status (PUT_task Scenario.Number_toString Scenario.e Scenario.users
                 Scenario.bob_session "t1"
                 (Some (JObj (TaskView.task_json sent)))).2 = 200%Z
    /\ stored_task
         (PUT_task Scenario.Number_toString Scenario.e Scenario.users
            Scenario.bob_session "t1"
            (Some (JObj (TaskView.task_json sent)))).1 1 0
       ≫= (fun t => field t "title")
       = Some (JStr "Food").
Proof.
  eexists. split; [vm_compute; reflexivity|].
  split; vm_compute; reflexivity.
Qed.

